(** * BoolTox plugin backends: stdio JSON-RPC bridge and task supervisors

    A shallow embedding of the three Python backends that talk to the host
    over newline-delimited JSON:

    - [Pomodoro]      : packages/official/pomodoro/backend/server.py
    - [SystemMonitor] : packages/examples/backend-demo/backend/server.py
    - [UiAutoDev]     : packages/official/uiautodev/backend/main.py

    and of the engine and the statistics store of the desktop timer:

    - [Standalone]    : packages/examples/python-standalone-demo/main.py

    Conventions of the embedding.

    - A decoded JSON value is a [json] term.  JSON numbers are integers
      ([Z]); non-integer numbers are outside the model.  A Python [dict]
      is an association list in insertion order; [json.loads] yields
      unique keys, and [dict_get] returns the first binding.
    - [json.loads] itself is a library call: an input line arrives already
      classified as end of input, undecodable, or decoded.
    - A frame written to standard output is recorded as the [json] value
      handed to [json.dumps]; the output stream is the list of frames in
      the order written.  Standard error is a list of text lines.
    - Threads: the main thread never blocks while it handles one line, and
      a worker's only scheduling point is its [time.sleep(1)].  An
      execution is therefore a sequence of atomic events: the main thread
      handling one input line, or one worker running from the return of
      its sleep to its next sleep (or to its exit). *)

From Stdlib Require Import ZArith QArith Ascii.
From stdpp Require Import base list strings pretty gmap sorting.

Open Scope Z_scope.

Set Warnings "-register-all".

(** ** Python values decoded from JSON *)

Inductive json : Type :=
| JNull
| JBool (b : bool)
| JNum (n : Z)
| JStr (s : string)
| JArr (xs : list json)
| JObj (kvs : list (string * json)).

(** [bool(v)]: Python truthiness. *)
Definition truthy (v : json) : bool :=
  match v with
  | JNull => false
  | JBool b => b
  | JNum n => negb (n =? 0)
  | JStr s => negb (String.eqb s "")
  | JArr xs => match xs with [] => false | _ => true end
  | JObj kvs => match kvs with [] => false | _ => true end
  end.

(** Numeric view used by [-], [>] and [<=]: [bool] is a subclass of [int];
    every other non-number raises [TypeError] ([None]). *)
Definition as_int (v : json) : option Z :=
  match v with
  | JNum n => Some n
  | JBool b => Some (if b then 1 else 0)
  | _ => None
  end.

(** [v == s] for a string literal [s]. *)
Definition eq_str (v : json) (s : string) : bool :=
  match v with
  | JStr t => String.eqb t s
  | _ => false
  end.

(** [v is not None]. *)
Definition is_not_None (v : json) : bool :=
  match v with
  | JNull => false
  | _ => true
  end.

(** [type(v).__name__]. *)
Definition type_name (v : json) : string :=
  match v with
  | JNull => "NoneType"
  | JBool _ => "bool"
  | JNum _ => "int"
  | JStr _ => "str"
  | JArr _ => "list"
  | JObj _ => "dict"
  end.

(** [d.get(k)] on a dict; [None] is "key absent". *)
Fixpoint dict_get (k : string) (kvs : list (string * json)) : option json :=
  match kvs with
  | [] => None
  | (k', v) :: rest => if String.eqb k k' then Some v else dict_get k rest
  end.

(** [k in d]. *)
Definition dict_has (k : string) (kvs : list (string * json)) : bool :=
  match dict_get k kvs with
  | Some _ => true
  | None => false
  end.

(** *** [str()] and [repr()], as used by f-strings

    [repr] of a string picks the quote as CPython does and escapes the
    backslash, the chosen quote, and tab, newline and carriage return.
    Other control characters and non-printable code points (which CPython
    writes as hexadecimal escapes) are left as they are; they only occur
    when a string is nested in a list or dict that is formatted. *)

Definition squote : ascii := ascii_of_nat 39.
Definition dquote : ascii := ascii_of_nat 34.
Definition bslash : ascii := ascii_of_nat 92.

Fixpoint str_mem (c : ascii) (s : string) : bool :=
  match s with
  | EmptyString => false
  | String c' r => Ascii.eqb c c' || str_mem c r
  end.

Fixpoint escape (q : ascii) (s : string) : string :=
  match s with
  | EmptyString => EmptyString
  | String c r =>
      if Ascii.eqb c bslash then String bslash (String bslash (escape q r))
      else if Ascii.eqb c q then String bslash (String q (escape q r))
      else if Ascii.eqb c (ascii_of_nat 9) then String bslash (String "t" (escape q r))
      else if Ascii.eqb c (ascii_of_nat 10) then String bslash (String "n" (escape q r))
      else if Ascii.eqb c (ascii_of_nat 13) then String bslash (String "r" (escape q r))
      else String c (escape q r)
  end.

Definition repr_str (s : string) : string :=
  let q := if str_mem squote s && negb (str_mem dquote s) then dquote else squote in
  String q (escape q s) +:+ String q EmptyString.

Fixpoint join (sep : string) (xs : list string) : string :=
  match xs with
  | [] => ""
  | [x] => x
  | x :: rest => x +:+ sep +:+ join sep rest
  end.

Fixpoint py_repr (v : json) : string :=
  match v with
  | JNull => "None"
  | JBool true => "True"
  | JBool false => "False"
  | JNum n => pretty n
  | JStr s => repr_str s
  | JArr xs => "[" +:+ join ", " (map py_repr xs) +:+ "]"
  | JObj kvs =>
      "{" +:+ join ", " (map (fun kv => match kv with
                                        | (k, x) => repr_str k +:+ ": " +:+ py_repr x
                                        end) kvs) +:+ "}"
  end.

Definition py_str (v : json) : string :=
  match v with
  | JStr s => s
  | _ => py_repr v
  end.

(** [AttributeError] raised by [v.get(...)] when [v] is not a dict. *)
Definition no_attribute_get (v : json) : string :=
  "'" +:+ type_name v +:+ "' object has no attribute 'get'".

(** [json.JSONDecodeError]: [e.msg] and [str(e)]. *)
Record JSONDecodeError : Type := mkDecodeError {
  msg : string;
  str_e : string
}.

(** A frame is a Response when it carries an ["id"], a Notification when
    it carries a ["method"] and no ["id"]. *)
Definition is_response (m : json) : bool :=
  match m with
  | JObj kvs => dict_has "id" kvs
  | _ => false
  end.

Definition is_notification (m : json) : bool :=
  match m with
  | JObj kvs => dict_has "method" kvs && negb (dict_has "id" kvs)
  | _ => false
  end.

(** A decoded value that is no [dict]: [request.get] raises
    [AttributeError] on it. *)
Definition not_object (v : json) : Prop :=
  match v with
  | JObj _ => False
  | _ => True
  end.

(** ** The countdown timer backend (pomodoro/backend/server.py) *)

Module Pomodoro.

(** The fields of [class PomodoroTimer].  [duration] and [remaining] hold
    whatever [start_timer] was given, so they are Python values;
    [timer_thread] is the index of the last thread object in the pool;
    [start_time] is the ISO-8601 text of the captured [datetime]. *)
Record PomodoroTimer : Type := mkTimer {
  duration : json;
  remaining : json;
  is_running : bool;
  timer_thread : option nat;
  start_time : option string
}.

(** [PomodoroTimer.__init__] *)
Definition init : PomodoroTimer :=
  mkTimer (JNum (25 * 60)) (JNum (25 * 60)) false None None.

(** Where a thread running [timer_loop] stands. *)
Inductive thread : Type :=
| Fresh      (* started, [while] condition not yet evaluated *)
| Sleeping   (* inside [time.sleep(1)] of an iteration *)
| Finished   (* left the loop *)
| Crashed.   (* died on an uncaught [TypeError] *)

(** The process: the timer object shared by all threads, the thread pool,
    both output streams, the local variable [request_id] of [main]
    ([None] while unbound) and whether [main] is still in its loop. *)
Record world : Type := mkWorld {
  timer : PomodoroTimer;
  threads : list thread;
  stdout : list json;
  stderr : list string;
  request_id : option json;
  alive : bool
}.

Definition set_timer (t : PomodoroTimer) (w : world) : world :=
  mkWorld t (threads w) (stdout w) (stderr w) (request_id w) (alive w).

Definition set_threads (ts : list thread) (w : world) : world :=
  mkWorld (timer w) ts (stdout w) (stderr w) (request_id w) (alive w).

Definition write_stdout (m : json) (w : world) : world :=
  mkWorld (timer w) (threads w) (stdout w ++ [m]) (stderr w) (request_id w) (alive w).

Definition write_stderr (l : string) (w : world) : world :=
  mkWorld (timer w) (threads w) (stdout w) (stderr w ++ [l]) (request_id w) (alive w).

Definition set_request_id (i : json) (w : world) : world :=
  mkWorld (timer w) (threads w) (stdout w) (stderr w) (Some i) (alive w).

Definition exit_main (w : world) : world :=
  mkWorld (timer w) (threads w) (stdout w) (stderr w) (request_id w) false.

(** [send]: a Notification frame. *)
Definition notification (method : string) (params : list (string * json)) : json :=
  JObj [("jsonrpc", JStr "2.0"); ("method", JStr method); ("params", JObj params)].

Definition send (method : string) (params : list (string * json)) (w : world) : world :=
  write_stdout (notification method params) w.

(** [send_response]: [if error:] takes the error branch for any
    non-empty error dict. *)
Definition response (request_id : json) (result : json) (error : option json) : json :=
  match error with
  | Some e =>
      if truthy e
      then JObj [("jsonrpc", JStr "2.0"); ("id", request_id); ("error", e)]
      else JObj [("jsonrpc", JStr "2.0"); ("id", request_id); ("result", result)]
  | None => JObj [("jsonrpc", JStr "2.0"); ("id", request_id); ("result", result)]
  end.

Definition send_response (request_id : json) (result : json) (error : option json)
    (w : world) : world :=
  write_stdout (response request_id result error) w.

(** *** [timer_loop], one block at a time *)

Definition tick (t : PomodoroTimer) : list (string * json) :=
  [("type", JStr "tick"); ("remaining", remaining t); ("total", duration t)].

Definition complete : list (string * json) := [("type", JStr "complete")].

(** [self.is_running and self.remaining > 0]; [None] is the [TypeError]
    of comparing a non-number with [0]. *)
Definition loop_cond (t : PomodoroTimer) : option bool :=
  if is_running t then
    match as_int (remaining t) with
    | Some n => Some (0 <? n)
    | None => None
    end
  else Some false.

Definition set_thread (tid : nat) (th : thread) (w : world) : world :=
  set_threads (<[tid := th]> (threads w)) w.

(** An uncaught exception ends the thread; the interpreter prints it on
    standard error. *)
Definition crash (tid : nat) (e : string) (w : world) : world :=
  write_stderr e (set_thread tid Crashed w).

(** Evaluate the [while] condition: go to sleep, or leave the loop. *)
Definition timer_loop_enter (tid : nat) (w : world) : world :=
  match loop_cond (timer w) with
  | Some true => set_thread tid Sleeping w
  | Some false => set_thread tid Finished w
  | None =>
      crash tid ("TypeError: '>' not supported between instances of '"
                 +:+ type_name (remaining (timer w)) +:+ "' and 'int'") w
  end.

(** The loop body after [time.sleep(1)] has returned.  [notify_exc] is
    the exception text of [notification.notify], if it raises.  [None]
    is the [TypeError] of [self.remaining -= 1] on a non-number. *)
Definition timer_loop_body (notify_exc : option string) (w : world) : option world :=
  match as_int (remaining (timer w)) with
  | None => None
  | Some n =>
      let t := timer w in
      let t1 := mkTimer (duration t) (JNum (n - 1)) (is_running t)
                        (timer_thread t) (start_time t) in
      let w1 := send "$event" (tick t1) (set_timer t1 w) in
      if n - 1 <=? 0 then
        let t2 := mkTimer (duration t1) (remaining t1) false
                          (timer_thread t1) (start_time t1) in
        let w2 := send "$event" complete (set_timer t2 w1) in
        match notify_exc with
        | None => Some w2
        | Some e => Some (write_stderr ("通知失败: " +:+ e) w2)
        end
      else Some w1
  end.

(** One scheduling of the worker [tid] that runs [timer_loop]: from its
    start to its first sleep, or from the return of a sleep to the next
    sleep or to the end of the loop. *)
Definition timer_loop (tid : nat) (notify_exc : option string) (w : world) : world :=
  match threads w !! tid with
  | Some Fresh => timer_loop_enter tid w
  | Some Sleeping =>
      match timer_loop_body notify_exc w with
      | Some w' => timer_loop_enter tid w'
      | None =>
          crash tid ("TypeError: unsupported operand type(s) for -=: '"
                     +:+ type_name (remaining (timer w)) +:+ "' and 'int'") w
      end
  | _ => w
  end.

(** *** The methods called by the dispatcher *)

(** [start_timer]; [now] is the reading of [datetime.now()]. *)
Definition start_timer (now : string) (d : json) (w : world) : json * world :=
  let t := timer w in
  if is_running t then
    (JObj [("success", JBool false); ("error", JStr "Timer already running")], w)
  else
    let t1 :=
      if truthy d
      then mkTimer d d (is_running t) (timer_thread t) (start_time t)
      else mkTimer (duration t) (duration t) (is_running t) (timer_thread t) (start_time t) in
    let tid := length (threads w) in
    let t2 := mkTimer (duration t1) (remaining t1) true (Some tid) (Some now) in
    (JObj [("success", JBool true); ("remaining", remaining t2)],
     set_threads (threads w ++ [Fresh]) (set_timer t2 w)).

Definition pause_timer (w : world) : json * world :=
  let t := timer w in
  if negb (is_running t) then
    (JObj [("success", JBool false); ("error", JStr "Timer not running")], w)
  else
    let t1 := mkTimer (duration t) (remaining t) false (timer_thread t) (start_time t) in
    (JObj [("success", JBool true); ("remaining", remaining t1)], set_timer t1 w).

Definition reset_timer (w : world) : json * world :=
  let t := timer w in
  let t1 := mkTimer (duration t) (duration t) false (timer_thread t) None in
  let w1 := send "$event" [("type", JStr "reset"); ("remaining", remaining t1)]
                 (set_timer t1 w) in
  (JObj [("success", JBool true); ("remaining", remaining t1)], w1).

Definition get_status (w : world) : json * world :=
  let t := timer w in
  (JObj [("isRunning", JBool (is_running t));
         ("remaining", remaining t);
         ("duration", duration t);
         ("startTime", match start_time t with
                       | Some s => JStr s
                       | None => JNull
                       end)], w).

(** *** [main] *)

Definition ready : json :=
  notification "$ready"
    [("version", JStr "1.0.0");
     ("methods", JArr [JStr "start"; JStr "pause"; JStr "reset"; JStr "getStatus"])].

(** The state in which [main] enters its loop. *)
Definition boot : world := mkWorld init [] [ready] [] None true.

(** What [sys.stdin.readline()] and [json.loads] make of the next line. *)
Inductive line : Type :=
| Eof
| Malformed (e : JSONDecodeError)
| Decoded (v : json).

(** The [except Exception] clause of the loop.  [request_id] is whatever
    the local variable holds at that point: the id of this request if it
    was already read, else the one left by an earlier iteration. *)
Definition on_exception (e : string) (w : world) : world :=
  let w1 := write_stderr ("处理错误: " +:+ e) w in
  match request_id w1 with
  | Some i =>
      if is_not_None i
      then send_response i JNull
             (Some (JObj [("code", JNum (-32603));
                          ("message", JStr ("Internal error: " +:+ e))])) w1
      else w1
  | None => w1
  end.

Definition method_not_found (method : json) : json :=
  JObj [("code", JNum (-32601));
        ("message", JStr ("Method not found: " +:+ py_str method))].

(** The method dispatch of the loop body: the result or error to answer
    with, or the text of the exception raised ([inr]). *)
Definition dispatch (now : string) (method params : json) (w : world)
    : (json * option json * world) + string :=
  if eq_str method "start" then
    match params with
    | JObj ps =>
        let d := default JNull (dict_get "duration" ps) in
        let '(r, w') := start_timer now d w in
        inl (r, None, w')
    | _ => inr (no_attribute_get params)
    end
  else if eq_str method "pause" then
    let '(r, w') := pause_timer w in inl (r, None, w')
  else if eq_str method "reset" then
    let '(r, w') := reset_timer w in inl (r, None, w')
  else if eq_str method "getStatus" then
    let '(r, w') := get_status w in inl (r, None, w')
  else inl (JNull, Some (method_not_found method), w).

(** One pass through the body of [while True]. *)
Definition main_iteration (now : string) (l : line) (w : world) : world :=
  match l with
  | Eof => exit_main w
  | Malformed e => write_stderr ("JSON 解析错误: " +:+ str_e e) w
  | Decoded (JObj request) =>
      let method := default JNull (dict_get "method" request) in
      let params := default (JObj []) (dict_get "params" request) in
      let rid := default JNull (dict_get "id" request) in
      let w1 := set_request_id rid w in
      match dispatch now method params w1 with
      | inl (result, error, w2) =>
          if is_not_None rid then send_response rid result error w2 else w2
      | inr e => on_exception e w1
      end
  | Decoded v => on_exception (no_attribute_get v) w
  end.

(** *** Executions *)

Inductive event : Type :=
| Input (now : string) (l : line)
| Wake (tid : nat) (notify_exc : option string).

(** Worker threads are daemons: nothing runs once [main] has returned. *)
Definition step (e : event) (w : world) : world :=
  if alive w then
    match e with
    | Input now l => main_iteration now l w
    | Wake tid notify_exc => timer_loop tid notify_exc w
    end
  else w.

Definition run (es : list event) (w : world) : world :=
  foldl (fun w e => step e w) w es.

(** A thread that can still run. *)
Definition live (th : thread) : bool :=
  match th with
  | Fresh | Sleeping => true
  | Finished | Crashed => false
  end.

Definition live_workers (w : world) : nat := length (filter (fun th => live th = true) (threads w)).

(** The timer is idle: the flag is down and no worker of an earlier run
    is still inside its loop. *)
Definition idle (w : world) : Prop :=
  is_running (timer w) = false /\ Forall (fun th => live th = false) (threads w).

(** Every thread has left its loop. *)
Definition quiet (w : world) : Prop :=
  forall j th, threads w !! j = Some th -> live th = false.

(** A schedule made of worker events only. *)
Definition wakes (ws : list (nat * option string)) : list event :=
  map (fun p => Wake (fst p) (snd p)) ws.

(** How often worker [tid] is scheduled in [ws]. *)
Definition scheduled (tid : nat) (ws : list (nat * option string)) : nat :=
  length (filter (fun p => fst p = tid) ws).

Definition tick_frame (total : json) (n : Z) : json :=
  notification "$event" [("type", JStr "tick"); ("remaining", JNum n); ("total", total)].

Definition complete_frame : json := notification "$event" complete.

(** The frames a single worker writes in its first [k] iterations when it
    sleeps with [remaining = n > 0] and is left alone. *)
Fixpoint ticks (total : json) (n : Z) (k : nat) : list json :=
  match k with
  | O => []
  | S k' =>
      tick_frame total (n - 1)
        :: (if n - 1 <=? 0 then [complete_frame] else ticks total (n - 1) k')
  end.

(** Scenario A of the specification: the request, and the frames it
    must produce. *)
Definition scenario_A_request : json :=
  JObj [("id", JNum 1); ("method", JStr "start"); ("params", JObj [("duration", JNum 5)])].


Definition already_running : json :=
  JObj [("success", JBool false); ("error", JStr "Timer already running")].

(** Worker [tid] sleeps in an iteration with [n > 0] seconds left, and it
    is the only thread alive. *)
Record counting (tid : nat) (n : Z) (w : world) : Prop := mkCounting {
  cnt_alive : alive w = true;
  cnt_running : is_running (timer w) = true;
  cnt_remaining : remaining (timer w) = JNum n;
  cnt_pos : 0 < n;
  cnt_self : threads w !! tid = Some Sleeping;
  cnt_others : forall j th, j <> tid -> threads w !! j = Some th -> live th = false
}.

(** Worker [tid] has been started with [n > 0] seconds to go and has not
    yet evaluated its loop condition; no other thread is alive. *)
Record starting (tid : nat) (n : Z) (w : world) : Prop := mkStarting {
  st_alive : alive w = true;
  st_running : is_running (timer w) = true;
  st_remaining : remaining (timer w) = JNum n;
  st_pos : 0 < n;
  st_self : threads w !! tid = Some Fresh;
  st_others : forall j th, j <> tid -> threads w !! j = Some th -> live th = false
}.

(** The world with standard error forgotten. *)
Definition erase_stderr (w : world) : world :=
  mkWorld (timer w) (threads w) (stdout w) [] (request_id w) (alive w).

(** The four methods announced in [$ready]. *)
Definition registered (method : json) : bool :=
  eq_str method "start" || eq_str method "pause"
  || eq_str method "reset" || eq_str method "getStatus".

(** A world that some execution reaches from [boot]. *)
Definition reachable (w : world) : Prop := exists es, w = run es boot.

(** Concrete executions used below.  The timer has been started for five
    seconds and its worker sleeps in the first iteration; then either a
    [pause] arrives before the worker wakes up, or the worker wakes up
    and sleeps again ([remaining = 4]). *)
Definition t0 : string := "2025-01-01T09:00:00".

Definition started : world :=
  run [Input t0 (Decoded scenario_A_request); Wake 0 None] boot.

Definition pause_request : json := JObj [("id", JNum 2); ("method", JStr "pause")].

Definition paused_asleep : world := step (Input t0 (Decoded pause_request)) started.

Definition ticking : world := step (Wake 0 None) started.

Definition start_zero_request : json :=
  JObj [("id", JNum 2); ("method", JStr "start"); ("params", JObj [("duration", JNum 0)])].

Definition undecodable : JSONDecodeError :=
  mkDecodeError "Expecting value" "Expecting value: line 1 column 1 (char 0)".

(** The values [remaining] takes while [m] seconds are counted down. *)
Fixpoint countdown (m : nat) : list Z :=
  match m with
  | O => []
  | S m' => Z.of_nat m' :: countdown m'
  end.

(** A frame as the protocol allows it: a Notification, or a Response
    with the three keys [jsonrpc], [id], and [result] or [error], whose id
    is not [None]. *)
Definition well_framed (m : json) : Prop :=
  is_notification m = true
  \/ exists (i : json) (k : string) (v : json),
       is_not_None i = true
       /\ (k = "result" \/ k = "error")
       /\ m = JObj [("jsonrpc", JStr "2.0"); ("id", i); (k, v)].

Definition internal_error (i : json) (e : string) : json :=
  JObj [("jsonrpc", JStr "2.0"); ("id", i);
        ("error", JObj [("code", JNum (-32603));
                        ("message", JStr ("Internal error: " +:+ e))])].


(** [pause] and then [start] with [d] seconds. *)
Definition restarted (now : string) (d : Z) (w : world) : world :=
  snd (start_timer now (JNum d) (snd (pause_timer w))).

(** Requests used below. *)
Definition status_request : list (string * json) :=
  [("id", JNum 7); ("method", JStr "getStatus")].

Definition start_with_number_as_params : list (string * json) :=
  [("id", JNum 8); ("method", JStr "start"); ("params", JNum 5)].

Definition reset_frame (d : json) : json :=
  notification "$event" [("type", JStr "reset"); ("remaining", d)].

End Pomodoro.

(** ** The telemetry backend (backend-demo/backend/server.py) *)

Module SystemMonitor.

Record SystemMonitor : Type := mkMonitor {
  monitoring : bool;
  monitor_thread : option nat
}.

(** Where a thread running [monitor_loop] stands. *)
Inductive thread : Type :=
| Fresh      (* started, [while] condition not yet evaluated *)
| Sampling   (* condition held; collecting the sample it will send *)
| Sleeping   (* sample sent; inside [time.sleep(1)] *)
| Finished.

Record world : Type := mkWorld {
  monitor : SystemMonitor;
  threads : list thread;
  stdout : list json
}.

Definition notification (method : string) (params : list (string * json)) : json :=
  JObj [("jsonrpc", JStr "2.0"); ("method", JStr method); ("params", JObj params)].

Definition send (method : string) (params : list (string * json)) (w : world) : world :=
  mkWorld (monitor w) (threads w) (stdout w ++ [notification method params]).

Definition set_thread (tid : nat) (th : thread) (w : world) : world :=
  mkWorld (monitor w) (<[tid := th]> (threads w)) (stdout w).

(** One scheduling of a worker that runs [monitor_loop]: it evaluates the
    loop condition, or sends the sample it has collected and goes to
    sleep.  [data] is the sample the telemetry collaborators return; they
    catch their own exceptions, so the [except] branch of the loop is not
    modelled. *)
Definition monitor_loop (tid : nat) (data : json) (w : world) : world :=
  match threads w !! tid with
  | Some Fresh | Some Sleeping =>
      if monitoring (monitor w) then set_thread tid Sampling w
      else set_thread tid Finished w
  | Some Sampling => set_thread tid Sleeping (send "monitor_data" [("data", data)] w)
  | _ => w
  end.

Definition start_monitor (w : world) : world :=
  if monitoring (monitor w) then
    send "info" [("message", JStr "监控已在运行")] w
  else
    let tid := length (threads w) in
    send "monitor_started" [("message", JStr "实时监控已启动")]
      (mkWorld (mkMonitor true (Some tid)) (threads w ++ [Fresh]) (stdout w)).

(** [Thread.join(timeout=2)]: with the flag down the joined worker sends
    the sample it was collecting, if any, and leaves its loop; [joined]
    tells whether it did so within the timeout. *)
Definition join (joined : bool) (data : json) (tid : nat) (w : world) : world :=
  if joined then
    match threads w !! tid with
    | Some Sampling => set_thread tid Finished (send "monitor_data" [("data", data)] w)
    | Some Fresh | Some Sleeping => set_thread tid Finished w
    | _ => w
    end
  else w.

Definition stop_monitor (joined : bool) (data : json) (w : world) : world :=
  if negb (monitoring (monitor w)) then
    send "info" [("message", JStr "监控未运行")] w
  else
    let w1 := mkWorld (mkMonitor false (monitor_thread (monitor w))) (threads w) (stdout w) in
    let w2 := match monitor_thread (monitor w1) with
              | Some tid => join joined data tid w1
              | None => w1
              end in
    send "monitor_stopped" [("message", JStr "实时监控已停止")] w2.

(** What the collaborators answer while one line is handled. *)
Record env : Type := mkEnv {
  info : json;        (* result of the telemetry query asked for *)
  joined : bool;      (* the joined worker ended within the timeout *)
  inflight : json     (* sample a joined worker was collecting *)
}.

(** [handle_command] on a dict payload. *)
Definition handle_command (e : env) (payload : list (string * json)) (w : world) : world :=
  let command := default JNull (dict_get "command" payload) in
  if eq_str command "get_system_info" then send "system_info" [("data", info e)] w
  else if eq_str command "get_cpu_info" then send "cpu_info" [("data", info e)] w
  else if eq_str command "get_memory_info" then send "memory_info" [("data", info e)] w
  else if eq_str command "get_disk_info" then send "disk_info" [("data", info e)] w
  else if eq_str command "get_network_info" then send "network_info" [("data", info e)] w
  else if eq_str command "get_processes" then send "processes" [("data", info e)] w
  else if eq_str command "start_monitor" then start_monitor w
  else if eq_str command "stop_monitor" then stop_monitor (joined e) (inflight e) w
  else send "unknown_command" [("command", command)] w.

(** A line of [for line in sys.stdin], after [strip()] and [json.loads]. *)
Inductive line : Type :=
| Blank
| Malformed (e : JSONDecodeError)
| Decoded (v : json).

(** One pass through the body of the [for] loop of [main]. *)
Definition main_iteration (e : env) (l : line) (w : world) : world :=
  match l with
  | Blank => w
  | Malformed err => send "error" [("message", JStr ("JSON 解析失败: " +:+ msg err))] w
  | Decoded (JObj payload) => handle_command e payload w
  | Decoded v =>
      send "error" [("message", JStr ("命令处理错误: " +:+ no_attribute_get v))] w
  end.

Definition boot : world :=
  send "backend_ready" [("message", JStr "系统监控后端已启动")]
    (mkWorld (mkMonitor false None) [] []).

Inductive event : Type :=
| Input (e : env) (l : line)
| Wake (tid : nat) (data : json).

Definition step (ev : event) (w : world) : world :=
  match ev with
  | Input e l => main_iteration e l w
  | Wake tid data => monitor_loop tid data w
  end.

Definition run (es : list event) (w : world) : world :=
  foldl (fun w ev => step ev w) w es.

(** The world with the frames written so far forgotten. *)
Definition clear_stdout (w : world) : world :=
  mkWorld (monitor w) (threads w) [].

Definition wakes (ws : list (nat * json)) : list event :=
  map (fun p => Wake (fst p) (snd p)) ws.

(** A thread that can still run. *)
Definition live (th : thread) : bool :=
  match th with
  | Finished => false
  | _ => true
  end.

Definition live_workers (w : world) : nat :=
  length (filter (fun th => live th = true) (threads w)).

(** Only the thread [monitor_thread] names can be inside the loop, and
    only while the flag is up. *)
Definition orderly (w : world) : Prop :=
  forall j th, threads w !! j = Some th -> live th = true ->
    monitoring (monitor w) = true /\ monitor_thread (monitor w) = Some j.

(** The joins of the execution end within their timeout. *)
Definition joins (ev : event) : Prop :=
  match ev with
  | Input e _ => joined e = true
  | Wake _ _ => True
  end.

Definition only_notifications (fs : list json) : Prop :=
  Forall (fun m => is_notification m = true) fs.

(** *** [get_processes]

    One entry of [psutil.process_iter] is [proc.info], or the exception
    raised while it is read.  A percentage is a float or [None]; a finite
    float is a rational number. *)
Record proc (P : Type) : Type := mkProc {
  pid : Z;
  name : option string;
  cpu_percent : P;
  memory_percent : P
}.

Arguments mkProc {P} _ _ _ _.
Arguments pid {P} _.
Arguments name {P} _.
Arguments cpu_percent {P} _.
Arguments memory_percent {P} _.

(** [x or 0] *)
Definition or_0 (x : option Q) : Q :=
  match x with
  | Some q => if Qeq_bool q 0 then 0%Q else q
  | None => 0%Q
  end.

(** The loop over [process_iter]; [None] is an entry that raises
    [NoSuchProcess] or [AccessDenied] and is skipped. *)
Definition collect (procs : list (option (proc (option Q)))) : list (proc Q) :=
  omap (fun p => match p with
                 | Some pinfo =>
                     Some (mkProc (pid pinfo) (name pinfo)
                             (or_0 (cpu_percent pinfo)) (or_0 (memory_percent pinfo)))
                 | None => None
                 end) procs.

(** [list.sort(key=..., reverse=True)]: descending and stable, so that
    entries with equal keys keep their order. *)
Fixpoint insert_reverse {A : Type} (key : A -> Q) (x : A) (l : list A) : list A :=
  match l with
  | [] => [x]
  | y :: l' => if Qle_bool (key y) (key x) then x :: l else y :: insert_reverse key x l'
  end.

Definition sort_reverse {A : Type} (key : A -> Q) (l : list A) : list A :=
  foldr (insert_reverse key) [] l.

(** [l[:limit]]; [None] is the [TypeError] of a limit that is no index. *)
Definition slice_to {A : Type} (limit : json) (l : list A) : option (list A) :=
  match limit with
  | JNull => Some l
  | JNum n =>
      Some (if 0 <=? n then take (Z.to_nat n) l
            else take (Z.to_nat (Z.of_nat (length l) + n)) l)
  | JBool b => Some (take (if b then 1 else 0) l)
  | _ => None
  end.

Definition slice_error : string :=
  "slice indices must be integers or None or have an __index__ method".

(** [get_processes]; [inr text] is the list [[{"error": text}]] of the
    [except] branch. *)
Definition get_processes (sort_by limit : json) (procs : list (option (proc (option Q))))
    : list (proc Q) + string :=
  let processes := collect procs in
  let processes :=
    if eq_str sort_by "cpu" then sort_reverse cpu_percent processes
    else if eq_str sort_by "memory" then sort_reverse memory_percent processes
    else processes in
  match slice_to limit processes with
  | Some l => inl l
  | None => inr slice_error
  end.

(** The key the list is ranked by, if any. *)
Definition ranking (sort_by : json) : option (proc Q -> Q) :=
  if eq_str sort_by "cpu" then Some cpu_percent
  else if eq_str sort_by "memory" then Some memory_percent
  else None.

(** How many of [len] entries a slice up to [limit] keeps. *)
Definition taken (limit : json) (len : nat) : nat :=
  match limit with
  | JNum n => if 0 <=? n then Nat.min (Z.to_nat n) len else Z.to_nat (Z.of_nat len + n)
  | JBool b => Nat.min (if b then 1 else 0) len
  | _ => len
  end.

Definition desc {A : Type} (key : A -> Q) (a b : A) : Prop := (key b <= key a)%Q.

(** Concrete situations used below: a start, a sample, a stop whose join
    succeeds, and a second start; three processes, one of them gone
    while it is read, one without a CPU figure. *)
Definition prompt : env := mkEnv JNull true JNull.

Definition start_stop_start : list event :=
  [Input prompt (Decoded (JObj [("command", JStr "start_monitor")]));
   Wake 0 JNull;
   Input prompt (Decoded (JObj [("command", JStr "stop_monitor")]));
   Input prompt (Decoded (JObj [("command", JStr "start_monitor")]))].

Definition three_processes : list (option (proc (option Q))) :=
  [Some (mkProc 1 (Some "init") None (Some (1 # 2)));
   None;
   Some (mkProc 20 (Some "python") (Some (25 # 2)) (Some (3 # 1)));
   Some (mkProc 30 (Some "shell") (Some (1 # 10)) (Some (1 # 4)))]%Q.

(** The two of them that use the CPU most. *)
Definition top_two : list (proc Q) :=
  [mkProc 20 (Some "python") (25 # 2) (3 # 1);
   mkProc 30 (Some "shell") (1 # 10) (1 # 4)]%Q.

End SystemMonitor.

(** ** The inspection-service backend (uiautodev/backend/main.py) *)

Module UiAutoDev.

Definition UIAUTODEV_HOST : string := "127.0.0.1".
Definition UIAUTODEV_PORT : Z := 20242.
Definition UIAUTODEV_URL : string := "http://127.0.0.1:20242".

(** The exceptions the code tells apart. *)
Inductive exn : Type :=
| TimeoutExpired
| OtherException (text : string).

(** Every call that leaves the process, in the order made. *)
Inductive effect : Type :=
| Connect (host : string) (port : Z)      (* [socket.connect_ex] *)
| Mkdir                                  (* [cache_dir.mkdir] *)
| Popen                                  (* [subprocess.Popen] *)
| Relay (pid : nat)                      (* the two log reader threads *)
| Terminate (pid : nat)
| WaitFor (pid : nat) (timeout : Z)
| Kill (pid : nat)
| Urlopen (url : string) (timeout : Z)
| Sleep
| Write (frame : json).                  (* [write_message] *)

(** The global [server_process] (the pid of the owned child), the calls
    made so far, and whether the interpreter is still running [main]. *)
Record world : Type := mkWorld {
  server_process : option nat;
  trace : list effect;
  alive : bool
}.

Definition perform (x : effect) (w : world) : world :=
  mkWorld (server_process w) (trace w ++ [x]) (alive w).

Definition set_server_process (p : option nat) (w : world) : world :=
  mkWorld p (trace w) (alive w).

Definition write_message (payload : json) (w : world) : world :=
  perform (Write payload) w.

Definition frames (tr : list effect) : list json :=
  omap (fun x => match x with Write m => Some m | _ => None end) tr.

Definition stdout (w : world) : list json := frames (trace w).

Definition emit (event : string) (data : json) (w : world) : world :=
  write_message
    (JObj [("jsonrpc", JStr "2.0"); ("method", JStr "$event");
           ("params", JObj [("event", JStr event); ("data", data)])]) w.

Definition log (level message : string) (w : world) : world :=
  emit "log" (JObj [("level", JStr level); ("message", JStr message)]) w.

Definition send_ready (methods : list string) (w : world) : world :=
  write_message
    (JObj [("jsonrpc", JStr "2.0"); ("method", JStr "$ready");
           ("params", JObj [("methods", JArr (map JStr methods))])]) w.

Definition send_response (request_id : json) (result : json) (error : option json)
    (w : world) : world :=
  match error with
  | Some e =>
      if truthy e
      then write_message (JObj [("jsonrpc", JStr "2.0"); ("id", request_id); ("error", e)]) w
      else write_message (JObj [("jsonrpc", JStr "2.0"); ("id", request_id); ("result", result)]) w
  | None =>
      write_message (JObj [("jsonrpc", JStr "2.0"); ("id", request_id); ("result", result)]) w
  end.

(** [is_port_in_use]; [rc] is what [connect_ex] returns. *)
Definition is_port_in_use (rc : Z) (w : world) : bool * world :=
  (rc =? 0, perform (Connect UIAUTODEV_HOST UIAUTODEV_PORT) w).

(** One round of the polling loop of [wait_for_server]: the result of
    [connect_ex] and, if the port answers, the HTTP status of [/api/info]
    ([None] when [urlopen] raises). *)
Record poll : Type := mkPoll {
  connect_rc : Z;
  info_status : option Z
}.

(** [wait_for_server]; [polls] are the rounds that fit in the timeout. *)
Fixpoint wait_for_server (polls : list poll) (w : world) : bool * world :=
  match polls with
  | [] => (false, w)
  | p :: rest =>
      let '(up, w1) := is_port_in_use (connect_rc p) w in
      if up then
        let w2 := perform (Urlopen (UIAUTODEV_URL +:+ "/api/info") 2) w1 in
        match info_status p with
        | Some st =>
            if st =? 200 then (true, w2)
            else wait_for_server rest (perform Sleep w2)
        | None => wait_for_server rest (perform Sleep w2)
        end
      else wait_for_server rest (perform Sleep w1)
  end.

(** What the environment answers during one [start_uiautodev_server]. *)
Record start_env : Type := mkStartEnv {
  probe_rc : Z;                   (* [connect_ex] of the first probe *)
  mkdir_exc : option string;      (* [mkdir] raises *)
  popen : string + nat;           (* [Popen] raises, or the child's pid *)
  polls : list poll
}.

Definition start_uiautodev_server (e : start_env) (w : world) : bool * world :=
  let '(up, w1) := is_port_in_use (probe_rc e) w in
  if up then
    (true, log "info" "uiautodev 服务已在运行" w1)
  else
    let w2 := log "info" "正在启动 uiautodev 服务（本地源代码）..." w1 in
    let w3 := perform Mkdir w2 in
    match mkdir_exc e with
    | Some t => (false, log "error" ("启动 uiautodev 服务失败: " +:+ t) w3)
    | None =>
        let w4 := perform Popen w3 in
        match popen e with
        | inl t => (false, log "error" ("启动 uiautodev 服务失败: " +:+ t) w4)
        | inr pid =>
            let w5 := perform (Relay pid) (set_server_process (Some pid) w4) in
            let '(ok, w6) := wait_for_server (polls e) w5 in
            if ok
            then (true, log "info" ("uiautodev 服务已启动: " +:+ UIAUTODEV_URL) w6)
            else (false, log "error" "uiautodev 服务启动超时" w6)
        end
    end.

(** What the environment answers during one [stop_uiautodev_server]:
    for each call, the exception it raises, if any. *)
Record stop_env : Type := mkStopEnv {
  terminate_exc : option exn;
  wait_exc : option exn;
  kill_exc : option exn;
  shutdown_exc : option exn
}.

(** The [try] body: [terminate()] then [wait(timeout=5)]. *)
Definition terminate_and_wait (e : stop_env) (pid : nat) (w : world) : option exn * world :=
  let w1 := perform (Terminate pid) w in
  match terminate_exc e with
  | Some x => (Some x, w1)
  | None => (wait_exc e, perform (WaitFor pid 5) w1)
  end.

(** [stop_uiautodev_server]; [Some x] is an exception leaving the
    function. *)
Definition stop_uiautodev_server (e : stop_env) (w : world) : option exn * world :=
  let '(raised, w1) :=
    match server_process w with
    | Some pid =>
        match terminate_and_wait e pid w with
        | (Some TimeoutExpired, w') =>
            let w'' := perform (Kill pid) w' in
            match kill_exc e with
            | Some x => (Some x, w'')
            | None => (None, set_server_process None w'')
            end
        | (Some (OtherException _), w') => (None, set_server_process None w')
        | (None, w') => (None, set_server_process None w')
        end
    | None => (None, w)
    end in
  match raised with
  | Some x => (Some x, w1)
  | None => (None, perform (Urlopen (UIAUTODEV_URL +:+ "/shutdown") 2) w1)
  end.

(** What the environment answers while one request is handled, and to
    the [atexit] hook should the interpreter exit. *)
Record env : Type := mkEnv {
  status_rc : Z;
  stop_e : stop_env;
  start_e : start_env;
  atexit_e : stop_env
}.

Definition method_not_found (method : json) : json :=
  JObj [("code", JNum (-32601));
        ("message", JStr ("Method not found: " +:+ py_str method))].

Definition url_if (b : bool) : json := if b then JStr UIAUTODEV_URL else JNull.

(** [handle_request] on a dict; [inr x] is an exception leaving it. *)
Definition handle_request (e : env) (request : list (string * json)) (w : world)
    : (list (string * json) + exn) * world :=
  let method := default (JStr "") (dict_get "method" request) in
  if eq_str method "getServerUrl" then
    (inl [("result", JObj [("url", JStr UIAUTODEV_URL)])], w)
  else if eq_str method "getServerStatus" then
    let '(up, w1) := is_port_in_use (status_rc e) w in
    (inl [("result", JObj [("running", JBool up); ("url", url_if up)])], w1)
  else if eq_str method "restartServer" then
    match stop_uiautodev_server (stop_e e) w with
    | (Some x, w1) => (inr x, w1)
    | (None, w1) =>
        let '(ok, w2) := start_uiautodev_server (start_e e) (perform Sleep w1) in
        (inl [("result", JObj [("success", JBool ok); ("url", url_if ok)])], w2)
    end
  else if eq_str method "shutdown" then
    match stop_uiautodev_server (stop_e e) w with
    | (Some x, w1) => (inr x, w1)
    | (None, w1) => (inl [("result", JObj [("success", JBool true)])], w1)
    end
  else (inl [("error", method_not_found method)], w).

Definition cleanup (e : stop_env) (w : world) : option exn * world :=
  stop_uiautodev_server e w.

(** Interpreter exit: the [atexit] hook runs [cleanup]; an exception it
    raises is printed and dropped. *)
Definition exit (e : stop_env) (w : world) : world :=
  let '(_, w1) := cleanup e w in
  mkWorld (server_process w1) (trace w1) false.

Inductive line : Type :=
| Eof
| Blank
| Malformed (e : JSONDecodeError)
| Decoded (v : json).

(** One pass through the [for] loop of [main].  An exception that leaves
    the loop body is not caught: the interpreter exits. *)
Definition main_iteration (e : env) (l : line) (w : world) : world :=
  match l with
  | Eof => exit (atexit_e e) w
  | Blank => w
  | Malformed _ => w
  | Decoded (JObj request) =>
      let request_id := default JNull (dict_get "id" request) in
      match handle_request e request w with
      | (inl response, w1) =>
          if is_not_None request_id then
            match dict_get "result" response with
            | Some r => send_response request_id r None w1
            | None =>
                match dict_get "error" response with
                | Some err => send_response request_id JNull (Some err) w1
                | None => w1
                end
            end
          else w1
      | (inr _, w1) => exit (atexit_e e) w1
      end
  | Decoded _ => exit (atexit_e e) w
  end.

(** [main] up to its loop. *)
Definition boot (e : start_env) : world :=
  let '(ok, w1) := start_uiautodev_server e (mkWorld None [] true) in
  let w2 := send_ready ["getServerUrl"; "getServerStatus"; "restartServer"; "shutdown"] w1 in
  emit "serverReady" (JObj [("success", JBool ok); ("url", url_if ok)]) w2.

Definition step (ev : env * line) (w : world) : world :=
  if alive w then main_iteration (fst ev) (snd ev) w else w.

Definition run (es : list (env * line)) (w : world) : world :=
  foldl (fun w ev => step ev w) w es.

Definition is_spawn (x : effect) : bool :=
  match x with
  | Popen => true
  | _ => false
  end.

(** How many children the calls in [tr] have started. *)
Definition spawns (tr : list effect) : nat :=
  length (filter (fun x => is_spawn x = true) tr).

(** The four methods announced in [$ready]. *)
Definition registered (method : json) : bool :=
  eq_str method "getServerUrl" || eq_str method "getServerStatus"
  || eq_str method "restartServer" || eq_str method "shutdown".

(** A call that is not the writing of a Response. *)
Definition no_response (x : effect) : Prop :=
  match x with
  | Write m => is_response m = false
  | _ => True
  end.

(** [w'] comes from [w] by further calls, none of which writes a
    Response. *)
Definition extends_quietly (w w' : world) : Prop :=
  exists tr, trace w' = trace w ++ tr /\ Forall no_response tr.

(** The calls [stop_uiautodev_server] makes on the owned child [pid]
    before the shutdown call, by what the child does. *)
Definition teardown (e : stop_env) (pid : nat) : list effect :=
  match terminate_exc e with
  | Some TimeoutExpired => [Terminate pid; Kill pid]
  | Some (OtherException _) => [Terminate pid]
  | None =>
      match wait_exc e with
      | Some TimeoutExpired => [Terminate pid; WaitFor pid 5; Kill pid]
      | _ => [Terminate pid; WaitFor pid 5]
      end
  end.

(** Whether the force-kill is reached. *)
Definition kill_reached (e : stop_env) : bool :=
  match terminate_exc e with
  | Some TimeoutExpired => true
  | Some (OtherException _) => false
  | None =>
      match wait_exc e with
      | Some TimeoutExpired => true
      | _ => false
      end
  end.

Definition shutdown_call : effect := Urlopen (UIAUTODEV_URL +:+ "/shutdown") 2.

(** Concrete situations used below: the backend owns child 4242; the
    child ignores the termination request for five seconds and the kill
    is refused by the operating system. *)
Definition owning : world := mkWorld (Some 4242%nat) [] true.

Definition access_denied : exn :=
  OtherException "PermissionError: [WinError 5] Access is denied".

Definition stubborn_child : stop_env :=
  mkStopEnv None (Some TimeoutExpired) (Some access_denied) None.

Definition port_answers : start_env := mkStartEnv 0 None (inr 4243%nat) [].

Definition calm : env :=
  mkEnv 0 (mkStopEnv None None None None) port_answers (mkStopEnv None None None None).

(** A round of [wait_for_server] that finds the service: the port
    answers and [/api/info] returns 200. *)
Definition ready_poll (p : poll) : bool :=
  (connect_rc p =? 0)
  && match info_status p with
     | Some st => st =? 200
     | None => false
     end.

Definition is_connect (x : effect) : bool :=
  match x with
  | Connect _ _ => true
  | _ => false
  end.

(** How often the calls in [tr] probe the port. *)
Definition connects (tr : list effect) : nat :=
  length (filter (fun x => is_connect x = true) tr).

Definition is_stop_call (x : effect) : bool :=
  match x with
  | Terminate _ | WaitFor _ _ | Kill _ => true
  | _ => false
  end.

(** How many calls in [tr] act on a child to stop it. *)
Definition stop_calls (tr : list effect) : nat :=
  length (filter (fun x => is_stop_call x = true) tr).

(** The calls of the polling loop. *)
Definition probe_only (x : effect) : Prop :=
  match x with
  | Connect _ _ | Urlopen _ _ | Sleep => True
  | _ => False
  end.

Definition optb {A : Type} (o : option A) : bool :=
  match o with
  | Some _ => true
  | None => false
  end.

(** The child [start_uiautodev_server] creates when the port does not
    answer its first probe. *)
Definition spawned (e : start_env) : option nat :=
  match mkdir_exc e, popen e with
  | None, inr pid => Some pid
  | _, _ => None
  end.

(** What [start_uiautodev_server] returns. *)
Definition start_succeeds (e : start_env) : bool :=
  (probe_rc e =? 0) || (optb (spawned e) && existsb ready_poll (polls e)).

Definition timeout_log : json :=
  JObj [("jsonrpc", JStr "2.0"); ("method", JStr "$event");
        ("params",
         JObj [("event", JStr "log");
               ("data", JObj [("level", JStr "error");
                              ("message", JStr "uiautodev 服务启动超时")])])].

(** Concrete situations used below: the port is free, the child starts
    as 4243 and never answers with 200; a restart request. *)
Definition never_ready : start_env :=
  mkStartEnv 111 None (inr 4243%nat) [mkPoll 111 None; mkPoll 0 (Some 503); mkPoll 0 None].

Definition obedient_child : stop_env := mkStopEnv None None None None.

Definition restart_request : list (string * json) :=
  [("id", JNum 9); ("method", JStr "restartServer")].

(** The two frames [main] writes before it reads its first line. *)
Definition ready_frame : json :=
  JObj [("jsonrpc", JStr "2.0"); ("method", JStr "$ready");
        ("params",
         JObj [("methods", JArr [JStr "getServerUrl"; JStr "getServerStatus";
                                 JStr "restartServer"; JStr "shutdown"])])].

Definition server_ready_frame (ok : bool) : json :=
  JObj [("jsonrpc", JStr "2.0"); ("method", JStr "$event");
        ("params",
         JObj [("event", JStr "serverReady");
               ("data", JObj [("success", JBool ok); ("url", url_if ok)])])].

End UiAutoDev.

(** ** The desktop timer (python-standalone-demo/main.py)

    The engine, the statistics store and the slots the window connects to
    the engine's signals.  Everything runs on the one GUI thread: a signal
    is delivered to its slots at once, in the order they were connected,
    before [emit] returns.  A Python exception that leaves a slot or a
    timer callback is printed by the binding and the event loop goes on.
    Labels, progress ring and info bars are not modelled. *)

Module Standalone.

Inductive PomodoroMode : Type :=
| FOCUS
| SHORT_BREAK
| LONG_BREAK.

Definition mode_eqb (a b : PomodoroMode) : bool :=
  match a, b with
  | FOCUS, FOCUS | SHORT_BREAK, SHORT_BREAK | LONG_BREAK, LONG_BREAK => true
  | _, _ => false
  end.

Record PomodoroConfig : Type := mkConfig {
  focus_minutes : Z;
  short_break_minutes : Z;
  long_break_minutes : Z;
  long_break_interval : Z;
  auto_start_focus : bool;
  auto_start_break : bool;
  sound_enabled : bool
}.

(** The dataclass defaults. *)
Definition default_config : PomodoroConfig := mkConfig 25 5 15 4 false true false.

Definition duration_for_mode (c : PomodoroConfig) (mode : PomodoroMode) : Z :=
  match mode with
  | FOCUS => focus_minutes c
  | SHORT_BREAK => short_break_minutes c
  | LONG_BREAK => long_break_minutes c
  end.

(** The three signals of [PomodoroEngine], with their arguments. *)
Inductive signal : Type :=
| tick (mode : PomodoroMode) (remaining total : Z)
| modeChanged (mode : PomodoroMode)
| cycleCompleted (mode : PomodoroMode).

(** The engine together with what its slots touch.  [config] is the one
    [PomodoroConfig] object the window, the pages and the engine share;
    [timer_active] is the state of the [QTimer]; [signals] are the
    emissions so far; [logged] are the arguments of the calls to
    [StatsStore.log_focus]; [tracebacks] counts the exceptions that left
    a callback. *)
Record window : Type := mkWindow {
  config : PomodoroConfig;
  current_mode : PomodoroMode;
  remaining : Z;
  completed_sessions : Z;
  is_running : bool;
  timer_active : bool;
  signals : list signal;
  logged : list Z;
  tracebacks : nat
}.

Definition _total_seconds (a : window) (mode : PomodoroMode) : Z :=
  duration_for_mode (config a) mode * 60.

Definition emit (s : signal) (a : window) : window :=
  mkWindow (config a) (current_mode a) (remaining a) (completed_sessions a)
        (is_running a) (timer_active a) (signals a ++ [s]) (logged a) (tracebacks a).

Definition emit_tick (a : window) : window :=
  emit (tick (current_mode a) (remaining a) (_total_seconds a (current_mode a))) a.

(** [PomodoroEngine.__init__] *)
Definition init (c : PomodoroConfig) : window :=
  mkWindow c FOCUS (duration_for_mode c FOCUS * 60) 0 false false [] [] 0.

Definition start (a : window) : window :=
  if is_running a then a
  else
    emit_tick
      (mkWindow (config a) (current_mode a) (remaining a) (completed_sessions a)
             true true (signals a) (logged a) (tracebacks a)).

Definition pause (a : window) : window :=
  if negb (is_running a) then a
  else
    mkWindow (config a) (current_mode a) (remaining a) (completed_sessions a)
          false false (signals a) (logged a) (tracebacks a).

Definition reset (keep_mode : bool) (a : window) : window :=
  let a1 := pause a in
  let mode := if keep_mode then current_mode a1 else FOCUS in
  emit_tick
    (mkWindow (config a1) mode (_total_seconds a1 mode) (completed_sessions a1)
           (is_running a1) (timer_active a1) (signals a1) (logged a1) (tracebacks a1)).

(** [TimerPage._on_cycle_complete]: a finished focus phase is logged. *)
Definition _on_cycle_complete (mode : PomodoroMode) (a : window) : window :=
  if mode_eqb mode FOCUS then
    mkWindow (config a) (current_mode a) (remaining a) (completed_sessions a)
          (is_running a) (timer_active a) (signals a)
          (logged a ++ [focus_minutes (config a)]) (tracebacks a)
  else a.

(** [PomodoroWindow._handle_auto_start]: it reads the engine's
    [current_mode] as it is while the signal is being delivered. *)
Definition _handle_auto_start (mode : PomodoroMode) (a : window) : window :=
  let next_mode := current_mode a in
  if mode_eqb next_mode FOCUS && auto_start_focus (config a) then start a
  else if negb (mode_eqb next_mode FOCUS) && auto_start_break (config a) then start a
  else a.

(** [cycleCompleted.emit(mode)] with its two slots. *)
Definition emit_cycleCompleted (mode : PomodoroMode) (a : window) : window :=
  _handle_auto_start mode (_on_cycle_complete mode (emit (cycleCompleted mode) a)).

(** [_next_mode]; [None] is the [ZeroDivisionError] of [%]. *)
Definition _next_mode (mode : PomodoroMode) (a : window) : option (PomodoroMode * window) :=
  if mode_eqb mode FOCUS then
    if 0 <? completed_sessions a then
      if long_break_interval (config a) =? 0 then None
      else if completed_sessions a mod long_break_interval (config a) =? 0 then
        Some (LONG_BREAK,
              mkWindow (config a) (current_mode a) (remaining a) 0
                    (is_running a) (timer_active a) (signals a) (logged a) (tracebacks a))
      else Some (SHORT_BREAK, a)
    else Some (SHORT_BREAK, a)
  else Some (FOCUS, a).

(** [_complete_cycle], in its three parts: the pause and the delivery of
    [cycleCompleted]; the count of a focus phase that ran to its end; the
    choice of the next mode and the entry into it. *)
Definition deliver_completed (a : window) : window :=
  let a1 := pause a in
  emit_cycleCompleted (current_mode a1) a1.

Definition count_session (mode : PomodoroMode) (forced : bool) (a : window) : window :=
  if mode_eqb mode FOCUS && negb forced
  then mkWindow (config a) (current_mode a) (remaining a) (completed_sessions a + 1)
             (is_running a) (timer_active a) (signals a) (logged a) (tracebacks a)
  else a.

Definition enter_mode (next_mode : PomodoroMode) (a : window) : window :=
  emit_tick
    (emit (modeChanged next_mode)
       (mkWindow (config a) next_mode (duration_for_mode (config a) next_mode * 60)
              (completed_sessions a) (is_running a) (timer_active a)
              (signals a) (logged a) (tracebacks a))).

Definition _complete_cycle (forced : bool) (a : window) : window :=
  let mode := current_mode (pause a) in
  let a3 := count_session mode forced (deliver_completed a) in
  match _next_mode mode a3 with
  | None =>
      mkWindow (config a3) (current_mode a3) (remaining a3) (completed_sessions a3)
            (is_running a3) (timer_active a3) (signals a3) (logged a3) (S (tracebacks a3))
  | Some (next_mode, a4) => enter_mode next_mode a4
  end.

Definition skip (a : window) : window := _complete_cycle true a.

Definition update_config (c : PomodoroConfig) (a : window) : window :=
  let a1 := mkWindow c (current_mode a) (remaining a) (completed_sessions a)
                  (is_running a) (timer_active a) (signals a) (logged a) (tracebacks a) in
  emit_tick
    (mkWindow c (current_mode a1) (Z.min (remaining a1) (_total_seconds a1 (current_mode a1)))
           (completed_sessions a1) (is_running a1) (timer_active a1)
           (signals a1) (logged a1) (tracebacks a1)).

Definition _handle_tick (a : window) : window :=
  let a1 := mkWindow (config a) (current_mode a) (remaining a - 1) (completed_sessions a)
                  (is_running a) (timer_active a) (signals a) (logged a) (tracebacks a) in
  if remaining a1 <=? 0 then _complete_cycle false a1
  else emit_tick a1.

(** [TimerPage._toggle_start] *)
Definition _toggle_start (a : window) : window :=
  if is_running a then pause a else start a.

(** What the event loop delivers. *)
Inductive event : Type :=
| ClickStart
| ClickReset
| ClickSkip
| Timeout                         (* the [QTimer] interval has elapsed *)
| SaveSettings (c : PomodoroConfig).

Definition step (ev : event) (a : window) : window :=
  match ev with
  | ClickStart => _toggle_start a
  | ClickReset => reset true a
  | ClickSkip => skip a
  | Timeout => if timer_active a then _handle_tick a else a
  | SaveSettings c => update_config c a
  end.

Definition run (evs : list event) (a : window) : window :=
  foldl (fun a ev => step ev a) a evs.

(** The ranges of the spin boxes on the settings page. *)
Definition in_range (c : PomodoroConfig) : Prop :=
  10 <= focus_minutes c <= 90
  /\ 3 <= short_break_minutes c <= 30
  /\ 5 <= long_break_minutes c <= 60
  /\ 2 <= long_break_interval c <= 8.

(** The flag [_handle_auto_start] ends up testing when [mode] has just
    finished. *)
Definition flag_of (mode : PomodoroMode) (c : PomodoroConfig) : bool :=
  match mode with
  | FOCUS => auto_start_focus c
  | _ => auto_start_break c
  end.

(** The mode that follows [mode] and the new session count, when the
    interval is not zero. *)
Definition successor (mode : PomodoroMode) (forced : bool) (cs n : Z) : PomodoroMode * Z :=
  match mode with
  | FOCUS =>
      let cs' := if forced then cs else cs + 1 in
      if (0 <? cs') && (cs' mod n =? 0) then (LONG_BREAK, 0) else (SHORT_BREAK, cs')
  | _ => (FOCUS, cs)
  end.

(** The timer object and the flag agree, the countdown is within the
    phase, no callback has raised, and the settings are within the ranges
    of the spin boxes. *)
Record bounded (a : window) : Prop := mkBounded {
  bd_range : in_range (config a);
  bd_remaining : 0 < remaining a <= _total_seconds a (current_mode a);
  bd_timer : timer_active a = is_running a;
  bd_tracebacks : tracebacks a = 0%nat;
  bd_sessions : 0 <= completed_sessions a
}.

(** The settings are [c] and fewer focus phases than the interval have
    been counted since the last long break. *)
Record steady (c : PomodoroConfig) (a : window) : Prop := mkSteady {
  sd_config : config a = c;
  sd_sessions : 0 <= completed_sessions a < long_break_interval c
}.

Definition no_settings (evs : list event) : Prop :=
  Forall (fun ev => match ev with SaveSettings _ => False | _ => True end) evs.

Definition settings_in_range (evs : list event) : Prop :=
  Forall (fun ev => match ev with SaveSettings c => in_range c | _ => True end) evs.

(** *** [StatsStore]

    A day is its day number; its ISO text, the key of the stored table, is
    one-to-one with it.  The settings value is missing or empty, not
    decodable, or the table [_save] wrote. *)

Record entry : Type := mkEntry {
  pomodoros : Z;
  focusMinutes : Z
}.

Inductive stored : Type :=
| Absent
| Garbled
| Table (h : gmap Z entry).

Definition zero : entry := mkEntry 0 0.

Definition _load (s : stored) : gmap Z entry :=
  match s with
  | Table h => h
  | _ => ∅
  end.

Definition _save (h : gmap Z entry) : stored := Table h.

Definition log_focus (today minutes : Z) (s : stored) : stored :=
  let data := _load s in
  let e := default zero (data !! today) in
  _save (<[today := mkEntry (pomodoros e + 1) (focusMinutes e + minutes)]> data).

Definition today_stats (today : Z) (s : stored) : entry :=
  default zero (_load s !! today).

(** [range(6, -1, -1)] *)
Definition deltas : list Z := [6; 5; 4; 3; 2; 1; 0].

Definition weekly_report (today : Z) (s : stored) : list (Z * entry) :=
  map (fun delta => (today - delta, default zero (_load s !! (today - delta)))) deltas.

(** One more pomodoro of [minutes] minutes. *)
Definition bump (minutes : Z) (e : entry) : entry :=
  mkEntry (pomodoros e + 1) (focusMinutes e + minutes).



Definition total (ms : list Z) : Z := foldr Z.add 0 ms.

(** A window whose focus phase has three seconds left and is running. *)
Definition three_seconds_left : window :=
  mkWindow default_config FOCUS 3 0 true true [] [] 0.

(** Settings with the shortest durations the settings page allows. *)
Definition short_settings : PomodoroConfig := mkConfig 10 3 5 2 true true false.

End Standalone.

(** * Properties of the countdown timer *)

Module TimerFacts.
Import Pomodoro.

(** ** Worker steps *)

Lemma idle_quiet (w : world) : idle w -> quiet w.
Proof.
  intros [_ Hall] j th Hj.
  rewrite Forall_lookup in Hall. exact (Hall j th Hj).
Qed.

Lemma quiet_timer_loop (tid : nat) (ne : option string) (w : world) :
  quiet w -> timer_loop tid ne w = w.
Proof.
  intros Hq. unfold timer_loop.
  destruct (threads w !! tid) as [th|] eqn:Hth; [|reflexivity].
  apply Hq in Hth. destruct th; simpl in Hth; congruence.
Qed.

Lemma quiet_run (ws : list (nat * option string)) (w : world) :
  quiet w -> run (wakes ws) w = w.
Proof.
  intros Hq. induction ws as [|[tid ne] ws IH]; [reflexivity|].
  change (run (wakes ((tid, ne) :: ws)) w) with (run (wakes ws) (step (Wake tid ne) w)).
  replace (step (Wake tid ne) w) with w; [exact IH|].
  unfold step. destruct (alive w); [|reflexivity].
  symmetry. apply quiet_timer_loop. assumption.
Qed.

Lemma counting_other (tid j : nat) (n : Z) (ne : option string) (w : world) :
  counting tid n w -> j <> tid -> step (Wake j ne) w = w.
Proof.
  intros C Hj. unfold step. rewrite (cnt_alive _ _ _ C). unfold timer_loop.
  destruct (threads w !! j) as [th|] eqn:Hth; [|reflexivity].
  apply (cnt_others _ _ _ C) in Hth; [|assumption].
  destruct th; simpl in Hth; congruence.
Qed.

Lemma counting_wake (tid : nat) (n : Z) (ne : option string) (w : world) :
  counting tid n w -> 1 < n ->
  counting tid (n - 1) (step (Wake tid ne) w)
  /\ stdout (step (Wake tid ne) w) = stdout w ++ [tick_frame (duration (timer w)) (n - 1)]
  /\ duration (timer (step (Wake tid ne) w)) = duration (timer w).
Proof.
  intros C Hn. destruct C as [Ha Hr Hrem Hpos Hself Hoth].
  assert (Hlt : (tid < length (threads w))%nat) by (eapply lookup_lt_Some; eassumption).
  unfold step. rewrite Ha. unfold timer_loop. rewrite Hself.
  unfold timer_loop_body. rewrite Hrem. cbn [as_int].
  destruct (n - 1 <=? 0) eqn:Hle; [apply Z.leb_le in Hle; lia|].
  unfold timer_loop_enter, loop_cond. cbn. rewrite Hr. cbn.
  destruct (0 <? n - 1) eqn:Hlt0; [|apply Z.ltb_ge in Hlt0; lia].
  cbn. split; [|split; reflexivity].
  constructor; cbn; try assumption; try reflexivity; try lia.
  - apply list_lookup_insert_eq. assumption.
  - intros j th Hj Hjth. rewrite list_lookup_insert_ne in Hjth by congruence.
    eapply Hoth; eassumption.
Qed.

Lemma counting_last (tid : nat) (ne : option string) (w : world) :
  counting tid 1 w ->
  quiet (step (Wake tid ne) w)
  /\ stdout (step (Wake tid ne) w)
     = stdout w ++ [tick_frame (duration (timer w)) 0; complete_frame]
  /\ is_running (timer (step (Wake tid ne) w)) = false.
Proof.
  intros C. destruct C as [Ha Hr Hrem Hpos Hself Hoth].
  assert (Hlt : (tid < length (threads w))%nat) by (eapply lookup_lt_Some; eassumption).
  unfold step. rewrite Ha. unfold timer_loop. rewrite Hself.
  unfold timer_loop_body. rewrite Hrem. cbn [as_int].
  change (1 - 1 <=? 0) with true. cbv iota.
  assert (Hq : forall w', threads w' = <[tid := Finished]> (threads w) -> quiet w').
  { intros w' Hw' j th Hjth. rewrite Hw' in Hjth.
    destruct (decide (tid = j)) as [->|Hne].
    - rewrite list_lookup_insert_eq in Hjth by assumption.
      injection Hjth as <-. reflexivity.
    - rewrite list_lookup_insert_ne in Hjth by assumption.
      eapply Hoth; [|eassumption]. congruence. }
  destruct ne as [e|]; cbn; unfold timer_loop_enter, loop_cond; cbn;
    (split; [apply Hq; reflexivity|split; [|reflexivity]]);
    rewrite <- app_assoc; reflexivity.
Qed.

(** The frames written while only worker events happen. *)
Lemma counting_run (ws : list (nat * option string)) (tid : nat) (n : Z) (w : world) :
  counting tid n w ->
  stdout (run (wakes ws) w)
  = stdout w ++ ticks (duration (timer w)) n (scheduled tid ws).
Proof.
  revert n w. induction ws as [|[j ne] ws IH]; intros n w C.
  - cbn. rewrite app_nil_r. reflexivity.
  - change (run (wakes ((j, ne) :: ws)) w) with (run (wakes ws) (step (Wake j ne) w)).
    unfold scheduled. rewrite filter_cons. cbn [fst].
    destruct (decide (j = tid)) as [->|Hne].
    + cbn [length ticks].
      destruct (decide (n = 1)) as [->|Hn1].
      * destruct (counting_last tid ne w C) as (Hq & Hout & _).
        rewrite quiet_run by assumption. rewrite Hout. reflexivity.
      * pose proof (cnt_pos _ _ _ C) as Hpos.
        destruct (counting_wake tid n ne w C ltac:(lia)) as (C' & Hout & Hdur).
        rewrite (IH _ _ C'). rewrite Hout, Hdur.
        destruct (n - 1 <=? 0) eqn:Hle; [apply Z.leb_le in Hle; lia|].
        rewrite <- app_assoc. reflexivity.
    + rewrite counting_other with (tid := tid) (n := n) by assumption.
      apply IH. assumption.
Qed.

Lemma starting_other (tid j : nat) (n : Z) (ne : option string) (w : world) :
  starting tid n w -> j <> tid -> step (Wake j ne) w = w.
Proof.
  intros C Hj. unfold step. rewrite (st_alive _ _ _ C). unfold timer_loop.
  destruct (threads w !! j) as [th|] eqn:Hth; [|reflexivity].
  apply (st_others _ _ _ C) in Hth; [|assumption].
  destruct th; simpl in Hth; congruence.
Qed.

Lemma starting_enter (tid : nat) (n : Z) (ne : option string) (w : world) :
  starting tid n w ->
  counting tid n (step (Wake tid ne) w)
  /\ stdout (step (Wake tid ne) w) = stdout w
  /\ duration (timer (step (Wake tid ne) w)) = duration (timer w).
Proof.
  intros [Ha Hr Hrem Hpos Hself Hoth].
  assert (Hlt : (tid < length (threads w))%nat) by (eapply lookup_lt_Some; eassumption).
  unfold step. rewrite Ha. unfold timer_loop. rewrite Hself.
  unfold timer_loop_enter, loop_cond. rewrite Hr, Hrem. cbn [as_int].
  destruct (0 <? n) eqn:Hn; [|apply Z.ltb_ge in Hn; lia].
  split; [|split; reflexivity].
  constructor; cbn; try assumption.
  - apply list_lookup_insert_eq. assumption.
  - intros j th Hj Hjth. rewrite list_lookup_insert_ne in Hjth by congruence.
    eapply Hoth; eassumption.
Qed.

Lemma starting_run (ws : list (nat * option string)) (tid : nat) (n : Z) (w : world) :
  starting tid n w ->
  stdout (run (wakes ws) w)
  = stdout w ++ ticks (duration (timer w)) n (scheduled tid ws - 1).
Proof.
  revert w. induction ws as [|[j ne] ws IH]; intros w C.
  - cbn. rewrite app_nil_r. reflexivity.
  - change (run (wakes ((j, ne) :: ws)) w) with (run (wakes ws) (step (Wake j ne) w)).
    unfold scheduled. rewrite filter_cons. cbn [fst].
    destruct (decide (j = tid)) as [->|Hne].
    + destruct (starting_enter tid n ne w C) as (C' & Hout & Hdur).
      rewrite (counting_run ws tid n _ C'). rewrite Hout, Hdur.
      cbn [length]. rewrite Nat.sub_1_r. reflexivity.
    + rewrite starting_other with (tid := tid) (n := n) by assumption.
      apply IH. assumption.
Qed.

(** ** The dispatcher on a [start] request *)

Lemma main_start (now : string) (req ps : list (string * json)) (w : world) :
  dict_get "method" req = Some (JStr "start") ->
  default (JObj []) (dict_get "params" req) = JObj ps ->
  main_iteration now (Decoded (JObj req)) w
  = let rid := default JNull (dict_get "id" req) in
    let rw := start_timer now (default JNull (dict_get "duration" ps)) (set_request_id rid w) in
    if is_not_None rid then send_response rid (fst rw) None (snd rw) else snd rw.
Proof.
  intros Hm Hp. unfold main_iteration. rewrite Hm, Hp. cbn [from_option id].
  unfold dispatch. change (eq_str (JStr "start") "start") with true. cbv iota.
  destruct (start_timer now _ _) as [r w']. reflexivity.
Qed.

Lemma start_timer_running (now : string) (d : json) (w : world) :
  is_running (timer w) = true -> start_timer now d w = (already_running, w).
Proof. intros Hr. unfold start_timer. rewrite Hr. reflexivity. Qed.

(** C1.  When the timer is already running, [start_timer] answers
    "Timer already running" and changes nothing: neither the timer's
    fields nor the thread pool.  A [start] request carrying an id is
    answered with exactly that result in one Response frame, the timer and
    the pool are as before, so the number of live workers is unchanged and
    every continuation runs as if the redundant request had only written
    its Response. *)
Theorem redundant_start_is_rejected (now : string) (d : json) (w : world) :
  is_running (timer w) = true ->
  start_timer now d w
  = (JObj [("success", JBool false); ("error", JStr "Timer already running")], w)
  /\ live_workers (snd (start_timer now d w)) = live_workers w
  /\ (forall (req ps : list (string * json)) (i : json),
        alive w = true ->
        dict_get "method" req = Some (JStr "start") ->
        default (JObj []) (dict_get "params" req) = JObj ps ->
        default JNull (dict_get "duration" ps) = d ->
        dict_get "id" req = Some i ->
        is_not_None i = true ->
        let w' := step (Input now (Decoded (JObj req))) w in
        stdout w' = stdout w
                    ++ [JObj [("jsonrpc", JStr "2.0"); ("id", i);
                              ("result", JObj [("success", JBool false);
                                               ("error", JStr "Timer already running")])]]
        /\ timer w' = timer w
        /\ threads w' = threads w
        /\ live_workers w' = live_workers w).
Proof.
  intros Hr. split; [|split].
  - apply start_timer_running. assumption.
  - rewrite start_timer_running by assumption. reflexivity.
  - intros req ps i Ha Hm Hp Hd Hi Hnn w'. subst w'.
    unfold step. rewrite Ha. rewrite (main_start now req ps w Hm Hp).
    cbv zeta. rewrite Hi, Hd. cbn [from_option id]. rewrite Hnn.
    rewrite start_timer_running by exact Hr. cbn [fst snd].
    repeat split.
Qed.

Lemma redundant_start_is_rejected_witness :
  is_running (timer started) = true
  /\ start_timer t0 (JNum 5) started = (already_running, started)
  /\ stdout (step (Input t0 (Decoded scenario_A_request)) started)
     = stdout started
       ++ [JObj [("jsonrpc", JStr "2.0"); ("id", JNum 1); ("result", already_running)]]
  /\ threads (step (Input t0 (Decoded scenario_A_request)) started) = [Sleeping].
Proof.
  assert (Hr : is_running (timer started) = true) by reflexivity.
  destruct (redundant_start_is_rejected t0 (JNum 5) started Hr) as (Hs & _ & Hreq).
  split; [exact Hr|]. split; [exact Hs|].
  destruct (Hreq [("id", JNum 1); ("method", JStr "start");
                  ("params", JObj [("duration", JNum 5)])]
                 [("duration", JNum 5)] (JNum 1)
                 eq_refl eq_refl eq_refl eq_refl eq_refl eq_refl)
    as (Hout & _ & Hth & _).
  split; [exact Hout|]. exact (eq_trans Hth eq_refl).
Defined.

(** Scenario B, from the initial state: the first [start] succeeds, the
    second one is refused, and a single worker exists. *)
Example scenario_B :
  stdout (run [Input t0 (Decoded scenario_A_request);
               Input t0 (Decoded (JObj [("id", JNum 2); ("method", JStr "start");
                                        ("params", JObj [("duration", JNum 5)])]))] boot)
  = [ready;
     JObj [("jsonrpc", JStr "2.0"); ("id", JNum 1);
           ("result", JObj [("success", JBool true); ("remaining", JNum 5)])];
     JObj [("jsonrpc", JStr "2.0"); ("id", JNum 2); ("result", already_running)]]
  /\ live_workers
       (run [Input t0 (Decoded scenario_A_request);
             Input t0 (Decoded (JObj [("id", JNum 2); ("method", JStr "start");
                                      ("params", JObj [("duration", JNum 5)])]))] boot)
     = 1%nat.
Proof. split; reflexivity. Qed.



(** C3.  The worker tests [is_running] only before it goes to sleep.  A
    [pause] handled while the worker sleeps is acknowledged at once (the
    Response reports [remaining = 5]), and the worker, when its sleep
    returns, still decrements the counter and writes the tick with
    [remaining = 4]: a tick Notification follows the acknowledgment. *)
Theorem tick_after_pause_ack :
  stdout paused_asleep
  = [ready;
     JObj [("jsonrpc", JStr "2.0"); ("id", JNum 1);
           ("result", JObj [("success", JBool true); ("remaining", JNum 5)])];
     JObj [("jsonrpc", JStr "2.0"); ("id", JNum 2);
           ("result", JObj [("success", JBool true); ("remaining", JNum 5)])]]
  /\ is_running (timer paused_asleep) = false
  /\ stdout (step (Wake 0 None) paused_asleep)
     = stdout paused_asleep ++ [tick_frame (JNum 5) 4]
  /\ remaining (timer (step (Wake 0 None) paused_asleep)) = JNum 4.
Proof. repeat split. Qed.

(** The same for any sleeping worker: after the acknowledgment of [pause]
    its next wake-up still writes a tick. *)
Lemma sleeping_worker_ticks_after_pause (tid : nat) (n : Z) (ne : option string)
    (i : json) (w : world) :
  alive w = true ->
  is_running (timer w) = true ->
  remaining (timer w) = JNum n ->
  1 < n ->
  threads w !! tid = Some Sleeping ->
  is_not_None i = true ->
  stdout (run [Input t0 (Decoded (JObj [("id", i); ("method", JStr "pause")]));
               Wake tid ne] w)
  = stdout w
    ++ [JObj [("jsonrpc", JStr "2.0"); ("id", i);
              ("result", JObj [("success", JBool true); ("remaining", JNum n)])];
        tick_frame (duration (timer w)) (n - 1)].
Proof.
  intros Ha Hr Hrem Hn Hth Hi.
  change (run [Input t0 (Decoded (JObj [("id", i); ("method", JStr "pause")]));
               Wake tid ne] w)
    with (step (Wake tid ne)
            (step (Input t0 (Decoded (JObj [("id", i); ("method", JStr "pause")]))) w)).
  assert (Hw1 : step (Input t0 (Decoded (JObj [("id", i); ("method", JStr "pause")]))) w
                = send_response i
                    (JObj [("success", JBool true); ("remaining", JNum n)]) None
                    (set_timer (mkTimer (duration (timer w)) (JNum n) false
                                        (timer_thread (timer w)) (start_time (timer w)))
                       (set_request_id i w))).
  { unfold step. rewrite Ha. unfold main_iteration, dispatch.
    cbn [dict_get String.eqb Ascii.eqb Bool.eqb from_option id eq_str].
    unfold pause_timer. cbn [timer set_request_id]. rewrite Hr. cbn [negb].
    rewrite Hi, Hrem. reflexivity. }
  rewrite Hw1. unfold step. cbn [alive send_response write_stdout set_timer set_request_id].
  rewrite Ha. unfold timer_loop.
  cbn [threads send_response write_stdout set_timer set_request_id]. rewrite Hth.
  unfold timer_loop_body.
  cbn [timer remaining as_int send_response write_stdout set_timer set_request_id].
  destruct (n - 1 <=? 0) eqn:Hle; [apply Z.leb_le in Hle; lia|].
  unfold timer_loop_enter, loop_cond. cbn. rewrite <- app_assoc. reflexivity.
Qed.

(** With one second left the same wake-up also writes the completion
    Notification, although the timer was paused. *)
Example completion_after_pause_ack :
  stdout (run [Input t0 (Decoded (JObj [("id", JNum 1); ("method", JStr "start");
                                        ("params", JObj [("duration", JNum 1)])]));
               Wake 0 None;
               Input t0 (Decoded pause_request);
               Wake 0 None] boot)
  = [ready;
     JObj [("jsonrpc", JStr "2.0"); ("id", JNum 1);
           ("result", JObj [("success", JBool true); ("remaining", JNum 1)])];
     JObj [("jsonrpc", JStr "2.0"); ("id", JNum 2);
           ("result", JObj [("success", JBool true); ("remaining", JNum 1)])];
     tick_frame (JNum 1) 0;
     complete_frame].
Proof. reflexivity. Qed.

(** ** Case analysis over the dispatcher and the worker *)

Ltac fields :=
  cbn [timer threads stdout stderr request_id alive set_request_id write_stderr
       send_response write_stdout erase_stderr set_timer set_threads send
       exit_main fst snd duration remaining is_running timer_thread start_time
       as_int] in *.

Ltac cases :=
  repeat first [reflexivity | discriminate | assumption | congruence
               | progress fields | case_match | progress simplify_eq].

Ltac unfold_main :=
  unfold main_iteration, on_exception, dispatch, start_timer, pause_timer,
         reset_timer, get_status.

Ltac unfold_worker :=
  unfold timer_loop, timer_loop_enter, timer_loop_body, loop_cond, crash, set_thread.

(** No step reads standard error. *)
Lemma step_erase (e : event) (w : world) :
  erase_stderr (step e w) = erase_stderr (step e (erase_stderr w)).
Proof.
  destruct w as [t th out err rid al]. unfold step, erase_stderr at 3. fields.
  destruct al; [|reflexivity].
  destruct e as [now l | tid ne].
  - unfold_main. cases.
  - unfold_worker. cases.
Qed.

Lemma run_erase (es : list event) (w : world) :
  erase_stderr (run es w) = erase_stderr (run es (erase_stderr w)).
Proof.
  revert w. induction es as [|e es IH]; intros w; [reflexivity|].
  change (run (e :: es) w) with (run es (step e w)).
  change (run (e :: es) (erase_stderr w)) with (run es (step e (erase_stderr w))).
  rewrite IH. rewrite (IH (step e (erase_stderr w))).
  rewrite step_erase. reflexivity.
Qed.

(** A line that does not decode leaves a text on standard error and
    nothing else; the rest of the input is handled as if the line had not
    been there. *)
Lemma malformed_line_pomodoro (now : string) (e : JSONDecodeError)
    (es : list event) (w : world) :
  main_iteration now (Malformed e) w = write_stderr ("JSON 解析错误: " +:+ str_e e) w
  /\ erase_stderr (run (Input now (Malformed e) :: es) w) = erase_stderr (run es w).
Proof.
  split; [reflexivity|].
  change (run (Input now (Malformed e) :: es) w)
    with (run es (step (Input now (Malformed e)) w)).
  unfold step. destruct (alive w); [|reflexivity].
  rewrite run_erase. rewrite (run_erase es w). reflexivity.
Qed.

(** ** Requests without an id *)

Lemma notification_not_response (method : string) (params : list (string * json)) :
  is_response (notification method params) = false.
Proof. reflexivity. Qed.

Lemma request_without_id_frames (now : string) (req : list (string * json)) (w : world) :
  is_not_None (default JNull (dict_get "id" req)) = false ->
  stdout (main_iteration now (Decoded (JObj req)) w) = stdout w
  \/ stdout (main_iteration now (Decoded (JObj req)) w)
     = stdout w ++ [notification "$event"
                      [("type", JStr "reset"); ("remaining", duration (timer w))]].
Proof.
  intros Hid. unfold_main. fields. rewrite Hid.
  repeat first [left; reflexivity | right; reflexivity | discriminate
               | progress fields | case_match | progress simplify_eq].
Qed.

Lemma request_id_irrelevant (now : string) (req : list (string * json)) (i : json)
    (w : world) :
  timer (main_iteration now (Decoded (JObj req)) w)
  = timer (main_iteration now (Decoded (JObj (("id", i) :: req))) w)
  /\ threads (main_iteration now (Decoded (JObj req)) w)
     = threads (main_iteration now (Decoded (JObj (("id", i) :: req))) w).
Proof.
  unfold_main.
  cbn [dict_get String.eqb Ascii.eqb Bool.eqb from_option id].
  split; cases.
Qed.

(** With an id, the same frames are written, followed by one Response. *)
Lemma request_with_id_frames (now : string) (req : list (string * json)) (i : json)
    (w : world) :
  is_not_None (default JNull (dict_get "id" req)) = false ->
  is_not_None i = true ->
  exists r,
    is_response r = true
    /\ stdout (main_iteration now (Decoded (JObj (("id", i) :: req))) w)
       = stdout (main_iteration now (Decoded (JObj req)) w) ++ [r].
Proof.
  intros Hid Hi. unfold_main.
  cbn [dict_get String.eqb Ascii.eqb Bool.eqb from_option id]. fields.
  rewrite Hid, Hi.
  repeat first [discriminate
               | (eexists; split; [|reflexivity]; reflexivity)
               | progress fields | case_match | progress simplify_eq].
Qed.

(** ** Unknown methods *)

Lemma unknown_method_pomodoro (now : string) (req : list (string * json)) (i : json)
    (w : world) :
  dict_get "id" req = Some i ->
  is_not_None i = true ->
  registered (default JNull (dict_get "method" req)) = false ->
  main_iteration now (Decoded (JObj req)) w
  = send_response i JNull
      (Some (method_not_found (default JNull (dict_get "method" req))))
      (set_request_id i w).
Proof.
  intros Hi Hnn Hreg. unfold registered in Hreg.
  apply orb_false_elim in Hreg as [Hreg Hs].
  apply orb_false_elim in Hreg as [Hreg Hr].
  apply orb_false_elim in Hreg as [Hst Hp].
  unfold main_iteration, dispatch. rewrite Hi. cbn [from_option id].
  rewrite Hst, Hp, Hr, Hs, Hnn. reflexivity.
Qed.

(** ** [start] without a duration *)

Lemma start_timer_fallback (now : string) (d : json) (w : world) :
  truthy d = false ->
  is_running (timer w) = false ->
  start_timer now d w
  = (JObj [("success", JBool true); ("remaining", duration (timer w))],
     set_threads (threads w ++ [Fresh])
       (set_timer (mkTimer (duration (timer w)) (duration (timer w)) true
                           (Some (length (threads w))) (Some now)) w)).
Proof. intros Hd Hr. unfold start_timer. rewrite Hr, Hd. reflexivity. Qed.

Lemma start_timer_duration (now : string) (d : json) (w : world) :
  truthy d = false ->
  duration (timer (snd (start_timer now d w))) = duration (timer w).
Proof. intros Hd. unfold start_timer. rewrite Hd. cases. Qed.

Lemma step_duration_truthy (e : event) (w : world) :
  truthy (duration (timer w)) = true ->
  truthy (duration (timer (step e w))) = true.
Proof.
  intros H. unfold step. destruct (alive w); [|assumption].
  destruct e as [now l|tid ne].
  - unfold_main. cases.
  - unfold_worker. cases.
Qed.

Lemma run_duration_truthy (es : list event) (w : world) :
  truthy (duration (timer w)) = true ->
  truthy (duration (timer (run es w))) = true.
Proof.
  revert w. induction es as [|e es IH]; intros w H; [assumption|].
  change (run (e :: es) w) with (run es (step e w)).
  apply IH, step_duration_truthy, H.
Qed.

(** The stored duration is never falsy, in particular never 0. *)
Lemma reachable_duration_truthy (w : world) :
  reachable w -> truthy (duration (timer w)) = true.
Proof. intros [es ->]. apply run_duration_truthy. reflexivity. Qed.

(** ** Status queries *)

Lemma get_status_pure (w : world) : snd (get_status w) = w.
Proof. reflexivity. Qed.

Lemma getStatus_request (now : string) (req : list (string * json)) (w : world) :
  dict_get "method" req = Some (JStr "getStatus") ->
  timer (main_iteration now (Decoded (JObj req)) w) = timer w
  /\ threads (main_iteration now (Decoded (JObj req)) w) = threads w.
Proof.
  intros Hm. unfold main_iteration, dispatch. rewrite Hm. cbn [from_option id].
  change (eq_str (JStr "getStatus") "start") with false.
  change (eq_str (JStr "getStatus") "pause") with false.
  change (eq_str (JStr "getStatus") "reset") with false.
  change (eq_str (JStr "getStatus") "getStatus") with true.
  cbv iota. unfold get_status. split; cases.
Qed.

End TimerFacts.

(** * Properties of the telemetry backend *)

Module MonitorFacts.
Import SystemMonitor.

(** A redundant [start_monitor] only writes an ["info"] Notification. *)
Lemma start_monitor_while_monitoring (w : world) :
  monitoring (monitor w) = true ->
  start_monitor w = send "info" [("message", JStr "监控已在运行")] w
  /\ monitor (start_monitor w) = monitor w
  /\ threads (start_monitor w) = threads w.
Proof. intros H. unfold start_monitor. rewrite H. repeat split. Qed.

Ltac fields :=
  cbn [monitor threads stdout monitoring monitor_thread send set_thread clear_stdout
       app] in *.

Ltac cases :=
  repeat first [reflexivity | discriminate | congruence
               | progress fields | case_match | progress simplify_eq].

(** The output is only ever appended to, and never read. *)
Lemma step_clear (ev : event) (w : world) :
  step ev w
  = mkWorld (monitor (step ev (clear_stdout w))) (threads (step ev (clear_stdout w)))
            (stdout w ++ stdout (step ev (clear_stdout w))).
Proof.
  destruct w as [m th out]. destruct ev as [e l|tid data].
  - unfold step, main_iteration, handle_command, start_monitor, stop_monitor, join.
    cases; unfold send; fields; rewrite <- ?app_assoc, ?app_nil_r; cases.
  - unfold step, monitor_loop. cases; rewrite ?app_nil_r; cases.
Qed.

Lemma run_clear (es : list event) (w : world) :
  monitor (run es w) = monitor (run es (clear_stdout w))
  /\ threads (run es w) = threads (run es (clear_stdout w))
  /\ stdout (run es w) = stdout w ++ stdout (run es (clear_stdout w)).
Proof.
  revert w. induction es as [|ev es IH]; intros w.
  - cbn. rewrite app_nil_r. repeat split.
  - change (run (ev :: es) w) with (run es (step ev w)).
    change (run (ev :: es) (clear_stdout w)) with (run es (step ev (clear_stdout w))).
    destruct (IH (step ev w)) as (Hm & Ht & Ho).
    destruct (IH (step ev (clear_stdout w))) as (Hm' & Ht' & Ho').
    assert (Hc : clear_stdout (step ev w) = clear_stdout (step ev (clear_stdout w)))
      by (rewrite (step_clear ev w); reflexivity).
    rewrite Hm, Ht, Ho, Hm', Ht', Ho', Hc.
    rewrite (step_clear ev w) at 1. cbn [stdout]. rewrite <- app_assoc.
    repeat split.
Qed.

(** A line that does not decode is answered with one ["error"]
    Notification; the rest of the input is handled as if the line had not
    been there. *)
Lemma malformed_line_monitor (e : env) (err : JSONDecodeError) (es : list event)
    (w : world) :
  main_iteration e (Malformed err) w
  = send "error" [("message", JStr ("JSON 解析失败: " +:+ msg err))] w
  /\ monitor (run (Input e (Malformed err) :: es) w) = monitor (run es w)
  /\ threads (run (Input e (Malformed err) :: es) w) = threads (run es w)
  /\ stdout (run (Input e (Malformed err) :: es) w)
     = stdout w
       ++ [notification "error" [("message", JStr ("JSON 解析失败: " +:+ msg err))]]
       ++ stdout (run es (clear_stdout w))
  /\ stdout (run es w) = stdout w ++ stdout (run es (clear_stdout w)).
Proof.
  split; [reflexivity|].
  change (run (Input e (Malformed err) :: es) w)
    with (run es (send "error" [("message", JStr ("JSON 解析失败: " +:+ msg err))] w)).
  set (w1 := send "error" [("message", JStr ("JSON 解析失败: " +:+ msg err))] w).
  destruct (run_clear es w1) as (Hm & Ht & Ho).
  destruct (run_clear es w) as (Hm' & Ht' & Ho').
  change (clear_stdout w1) with (clear_stdout w) in *.
  rewrite Hm, Ht, Ho, Hm', Ht'. subst w1. cbn [stdout send].
  rewrite <- app_assoc. repeat split. exact Ho'.
Qed.

(** [stop_monitor] waits for the worker before it acknowledges: when the
    join succeeds, the sample in flight precedes ["monitor_stopped"], the
    worker has left its loop, and worker events write nothing further. *)
Lemma no_sample_after_monitor_stopped (tid : nat) (data : json) (w : world)
    (ws : list (nat * json)) :
  monitoring (monitor w) = true ->
  monitor_thread (monitor w) = Some tid ->
  (forall j th, j <> tid -> threads w !! j = Some th -> th = Finished) ->
  let w' := stop_monitor true data w in
  last (stdout w') = Some (notification "monitor_stopped"
                             [("message", JStr "实时监控已停止")])
  /\ run (wakes ws) w' = w'.
Proof.
  intros Hmon Htid Hoth w'. subst w'. unfold stop_monitor. rewrite Hmon. cbn [negb].
  cbn [monitor monitor_thread]. rewrite Htid. split.
  - unfold send. cbn [stdout]. apply last_snoc.
  - assert (Hq : forall w0, (forall j th, threads w0 !! j = Some th -> th = Finished) ->
                 run (wakes ws) w0 = w0).
    { induction ws as [|[j d] ws IH]; intros w0 H0; [reflexivity|].
      change (run (wakes ((j, d) :: ws)) w0) with (run (wakes ws) (step (Wake j d) w0)).
      replace (step (Wake j d) w0) with w0; [apply IH, H0|].
      cbn. unfold monitor_loop.
      destruct (threads w0 !! j) as [th|] eqn:Hj; [|reflexivity].
      apply H0 in Hj. subst th. reflexivity. }
    apply Hq. intros j th. unfold join. cbn [threads].
    destruct (threads w !! tid) as [t0|] eqn:Ht0; cbn [threads monitor].
    + assert (Hlt : (tid < length (threads w))%nat) by (eapply lookup_lt_Some; eassumption).
      assert (Hins : <[tid := Finished]> (threads w) !! j = Some th -> th = Finished).
      { intros Hj. destruct (decide (tid = j)) as [->|Hne].
        - rewrite list_lookup_insert_eq in Hj by assumption. congruence.
        - rewrite list_lookup_insert_ne in Hj by assumption.
          eapply Hoth; [|eassumption]. congruence. }
      destruct t0; cbn [threads send set_thread monitor stdout]; try exact Hins.
      intros Hj. destruct (decide (tid = j)) as [->|Hne]; [congruence|].
      eapply Hoth; [|eassumption]. congruence.
    + cbn [threads send]. intros Hj.
      destruct (decide (tid = j)) as [->|Hne]; [congruence|].
      eapply Hoth; [|eassumption]. congruence.
Qed.

End MonitorFacts.

(** * Properties of the inspection-service backend *)

Module ServerFacts.
Import UiAutoDev.

(** ** [stop_uiautodev_server] *)

Lemma stop_without_child (e : stop_env) (w : world) :
  server_process w = None ->
  stop_uiautodev_server e w = (None, perform shutdown_call w).
Proof. intros H. unfold stop_uiautodev_server. rewrite H. reflexivity. Qed.

(** When the force-kill is not reached, or returns, the child is given
    up and the shutdown call is the last call made. *)
Lemma stop_with_child (e : stop_env) (pid : nat) (w : world) :
  server_process w = Some pid ->
  kill_reached e = false \/ kill_exc e = None ->
  stop_uiautodev_server e w
  = (None, mkWorld None (trace w ++ teardown e pid ++ [shutdown_call]) (alive w)).
Proof.
  intros Hp Hk.
  unfold stop_uiautodev_server, terminate_and_wait, teardown, kill_reached in *.
  rewrite Hp.
  destruct (terminate_exc e) as [[|t]|], (wait_exc e) as [[|t']|],
           (kill_exc e) as [x|];
    unfold perform, set_server_process, shutdown_call;
    cbn [server_process trace alive];
    rewrite <- ?app_assoc; try reflexivity;
    destruct Hk as [Hk|Hk]; discriminate Hk.
Qed.

(** When the force-kill raises, the exception leaves the function: the
    global is not cleared and the shutdown call is not made. *)
Lemma stop_kill_raises (e : stop_env) (pid : nat) (x : exn) (w : world) :
  server_process w = Some pid ->
  kill_reached e = true ->
  kill_exc e = Some x ->
  stop_uiautodev_server e w
  = (Some x, mkWorld (Some pid) (trace w ++ teardown e pid) (alive w)).
Proof.
  intros Hp Hr Hk.
  unfold stop_uiautodev_server, terminate_and_wait, teardown, kill_reached in *.
  rewrite Hp, Hk.
  destruct (terminate_exc e) as [[|t]|], (wait_exc e) as [[|t']|];
    unfold perform, set_server_process;
    cbn [server_process trace alive];
    rewrite <- ?app_assoc, ?Hp; try reflexivity; discriminate Hr.
Qed.

(** C7.  An owned child that outlives the five-second wait is force-killed
    inside the handler of [TimeoutExpired]; an exception raised by that
    [kill()] is caught by nothing.  It leaves [stop_uiautodev_server]
    after terminate, wait and kill: the global still names the child and
    the shutdown call to the control endpoint is never made. *)
Theorem shutdown_skipped_when_kill_raises :
  stop_uiautodev_server stubborn_child owning
  = (Some access_denied,
     mkWorld (Some 4242%nat) [Terminate 4242; WaitFor 4242 5; Kill 4242] true)
  /\ ~ In shutdown_call (trace (snd (stop_uiautodev_server stubborn_child owning)))
  /\ ~ In shutdown_call
         (trace (main_iteration
                   (mkEnv 0 stubborn_child port_answers stubborn_child)
                   (Decoded (JObj [("id", JNum 1); ("method", JStr "shutdown")]))
                   owning))
  /\ stdout (main_iteration
               (mkEnv 0 stubborn_child port_answers stubborn_child)
               (Decoded (JObj [("id", JNum 1); ("method", JStr "shutdown")]))
               owning) = [].
Proof.
  split; [reflexivity|]. split; [|split; [|reflexivity]].
  - cbn. intros [H|[H|[H|[]]]]; discriminate.
  - cbn. intros H. repeat (destruct H as [H|H]; [discriminate|]). exact H.
Qed.

(** ** [start_uiautodev_server] *)

Lemma spawns_app (tr1 tr2 : list effect) : spawns (tr1 ++ tr2) = (spawns tr1 + spawns tr2)%nat.
Proof. unfold spawns. rewrite filter_app, length_app. reflexivity. Qed.

Lemma spawns_perform (x : effect) (w : world) :
  is_spawn x = false -> spawns (trace (perform x w)) = spawns (trace w).
Proof.
  intros Hx. cbn [perform trace]. rewrite spawns_app.
  unfold spawns at 2. rewrite filter_cons, decide_False by congruence.
  cbn. lia.
Qed.

(** C8.  When the first probe of the configured port succeeds,
    [start_uiautodev_server] returns [True] after writing one log
    Notification: it calls neither [mkdir] nor [Popen], the global
    [server_process] is as before, and the number of children started is
    unchanged. *)
Theorem start_adopts_running_instance (e : start_env) (w : world) :
  fst (is_port_in_use (probe_rc e) w) = true ->
  start_uiautodev_server e w
  = (true, log "info" "uiautodev 服务已在运行"
             (perform (Connect UIAUTODEV_HOST UIAUTODEV_PORT) w))
  /\ server_process (snd (start_uiautodev_server e w)) = server_process w
  /\ trace (snd (start_uiautodev_server e w))
     = trace w ++ [Connect "127.0.0.1" 20242;
                   Write (JObj [("jsonrpc", JStr "2.0"); ("method", JStr "$event");
                                ("params",
                                 JObj [("event", JStr "log");
                                       ("data", JObj [("level", JStr "info");
                                                      ("message", JStr "uiautodev 服务已在运行")])])])]
  /\ spawns (trace (snd (start_uiautodev_server e w))) = spawns (trace w).
Proof.
  intros Hup. unfold start_uiautodev_server.
  unfold is_port_in_use in *. cbn [fst] in Hup. rewrite Hup.
  split; [reflexivity|]. split; [reflexivity|].
  cbn [snd log emit write_message perform trace].
  rewrite <- app_assoc. split; [reflexivity|].
  rewrite spawns_app.
  match goal with
  | |- (_ + ?n)%nat = _ => assert (n = 0%nat) as -> by reflexivity
  end.
  lia.
Qed.

Lemma start_adopts_running_instance_witness :
  fst (start_uiautodev_server port_answers owning) = true
  /\ server_process (snd (start_uiautodev_server port_answers owning)) = Some 4242%nat
  /\ spawns (trace (snd (start_uiautodev_server port_answers owning))) = 0%nat.
Proof.
  destruct (start_adopts_running_instance port_answers owning eq_refl)
    as (Hs & Hp & _ & Hn).
  split; [rewrite Hs; reflexivity|]. split; [exact Hp|exact Hn].
Defined.

(** ** Calls that write no Response *)

Lemma extends_quietly_refl (w : world) : extends_quietly w w.
Proof. exists []. rewrite app_nil_r. split; [reflexivity|constructor]. Qed.

Lemma extends_quietly_trans (w1 w2 w3 : world) :
  extends_quietly w1 w2 -> extends_quietly w2 w3 -> extends_quietly w1 w3.
Proof.
  intros (tr1 & H1 & F1) (tr2 & H2 & F2). exists (tr1 ++ tr2).
  rewrite H2, H1, app_assoc. split; [reflexivity|]. apply Forall_app. split; assumption.
Qed.

Lemma extends_quietly_perform (x : effect) (w0 w : world) :
  no_response x -> extends_quietly w0 w -> extends_quietly w0 (perform x w).
Proof.
  intros Hx (tr & H & F). exists (tr ++ [x]). cbn [perform trace].
  rewrite H, app_assoc. split; [reflexivity|].
  apply Forall_app. split; [assumption|]. constructor; [assumption|constructor].
Qed.

Lemma extends_quietly_set (p : option nat) (w0 w : world) :
  extends_quietly w0 w -> extends_quietly w0 (set_server_process p w).
Proof. intros H. exact H. Qed.

Lemma extends_quietly_log (level message : string) (w0 w : world) :
  extends_quietly w0 w -> extends_quietly w0 (log level message w).
Proof. intros H. apply extends_quietly_perform; [reflexivity|assumption]. Qed.

Lemma wait_for_server_quiet (ps : list poll) (w0 w : world) :
  extends_quietly w0 w -> extends_quietly w0 (snd (wait_for_server ps w)).
Proof.
  revert w. induction ps as [|p ps IH]; intros w H; [exact H|].
  cbn [wait_for_server is_port_in_use].
  destruct (connect_rc p =? 0).
  - destruct (info_status p) as [st|]; [destruct (st =? 200)|];
      cbn [snd]; try apply IH;
      repeat (apply extends_quietly_perform; [exact I|]); exact H.
  - apply IH. repeat (apply extends_quietly_perform; [exact I|]). exact H.
Qed.

Lemma start_quiet (e : start_env) (w0 w : world) :
  extends_quietly w0 w -> extends_quietly w0 (snd (start_uiautodev_server e w)).
Proof.
  intros H. unfold start_uiautodev_server, is_port_in_use.
  destruct (probe_rc e =? 0).
  { apply extends_quietly_log, extends_quietly_perform; [exact I|exact H]. }
  assert (H3 : extends_quietly w0
                 (perform Mkdir (log "info" "正在启动 uiautodev 服务（本地源代码）..."
                    (perform (Connect UIAUTODEV_HOST UIAUTODEV_PORT) w)))).
  { apply extends_quietly_perform; [exact I|].
    apply extends_quietly_log, extends_quietly_perform; [exact I|exact H]. }
  destruct (mkdir_exc e) as [t|]; [apply extends_quietly_log; exact H3|].
  destruct (popen e) as [t|pid].
  { apply extends_quietly_log, extends_quietly_perform; [exact I|exact H3]. }
  match goal with
  | |- context [wait_for_server ?ps ?W] =>
      pose proof (wait_for_server_quiet ps w0 W) as Hw;
      destruct (wait_for_server ps W) as [ok w6]
  end.
  cbn [snd] in Hw.
  assert (H6 : extends_quietly w0 w6).
  { apply Hw. apply extends_quietly_perform; [exact I|].
    apply extends_quietly_set, extends_quietly_perform; [exact I|exact H3]. }
  destruct ok; apply extends_quietly_log; exact H6.
Qed.

Lemma stop_quiet (e : stop_env) (w0 w : world) :
  extends_quietly w0 w -> extends_quietly w0 (snd (stop_uiautodev_server e w)).
Proof.
  intros H. unfold stop_uiautodev_server, terminate_and_wait.
  destruct (server_process w) as [pid|];
    [destruct (terminate_exc e) as [[|t]|], (wait_exc e) as [[|t']|],
              (kill_exc e) as [x|]|];
    cbn [snd];
    repeat first [apply extends_quietly_set
                 | apply extends_quietly_perform; [exact I|]];
    exact H.
Qed.

Lemma handle_request_quiet (e : env) (req : list (string * json)) (w : world) :
  extends_quietly w (snd (handle_request e req w)).
Proof.
  unfold handle_request.
  destruct (eq_str _ "getServerUrl"); [apply extends_quietly_refl|].
  destruct (eq_str _ "getServerStatus").
  { cbn. apply extends_quietly_perform; [exact I|apply extends_quietly_refl]. }
  destruct (eq_str _ "restartServer").
  { pose proof (stop_quiet (stop_e e) w w (extends_quietly_refl w)) as Hs.
    destruct (stop_uiautodev_server (stop_e e) w) as [[x|] w1]; cbn [snd] in *;
      [exact Hs|].
    pose proof (start_quiet (start_e e) w (perform Sleep w1)) as Hst.
    destruct (start_uiautodev_server (start_e e) (perform Sleep w1)) as [ok w2].
    cbn [snd] in *. apply Hst. apply extends_quietly_perform; [exact I|exact Hs]. }
  destruct (eq_str _ "shutdown").
  { pose proof (stop_quiet (stop_e e) w w (extends_quietly_refl w)) as Hs.
    destruct (stop_uiautodev_server (stop_e e) w) as [[x|] w1]; exact Hs. }
  apply extends_quietly_refl.
Qed.

Lemma exit_quiet (e : stop_env) (w0 w : world) :
  extends_quietly w0 w -> extends_quietly w0 (exit e w).
Proof.
  intros H. unfold exit, cleanup.
  pose proof (stop_quiet e w0 w H) as Hs.
  destruct (stop_uiautodev_server e w) as [r w1]. exact Hs.
Qed.

(** A request without an id: the handler runs, and whatever it leaves is
    the outcome of the iteration; no Response is among the calls made. *)
Lemma request_without_id_server (e : env) (req : list (string * json)) (w : world) :
  is_not_None (default JNull (dict_get "id" req)) = false ->
  main_iteration e (Decoded (JObj req)) w
  = match handle_request e req w with
    | (inl _, w1) => w1
    | (inr _, w1) => exit (atexit_e e) w1
    end
  /\ extends_quietly w (main_iteration e (Decoded (JObj req)) w).
Proof.
  intros Hid.
  assert (Heq : main_iteration e (Decoded (JObj req)) w
                = match handle_request e req w with
                  | (inl _, w1) => w1
                  | (inr _, w1) => exit (atexit_e e) w1
                  end).
  { unfold main_iteration. rewrite Hid.
    destruct (handle_request e req w) as [[r|x] w1]; reflexivity. }
  split; [exact Heq|]. rewrite Heq.
  pose proof (handle_request_quiet e req w) as Hq.
  destruct (handle_request e req w) as [[r|x] w1]; cbn [snd] in Hq;
    [exact Hq|apply exit_quiet; exact Hq].
Qed.

(** With an id, the handler runs in the same way and one Response is
    written after it, unless an exception has ended the loop. *)
Lemma request_with_id_server (e : env) (req : list (string * json)) (i : json)
    (w : world) :
  is_not_None i = true ->
  match handle_request e req w with
  | (inl _, w1) =>
      exists r,
        is_response r = true
        /\ main_iteration e (Decoded (JObj (("id", i) :: req))) w = write_message r w1
  | (inr _, w1) =>
      main_iteration e (Decoded (JObj (("id", i) :: req))) w = exit (atexit_e e) w1
  end.
Proof.
  intros Hi. unfold main_iteration, handle_request.
  cbn [dict_get String.eqb Ascii.eqb Bool.eqb from_option id]. rewrite Hi.
  repeat first [reflexivity
               | (eexists; split; [|reflexivity]; reflexivity)
               | case_match | progress simplify_eq
               | progress cbn [dict_get String.eqb Ascii.eqb Bool.eqb send_response
                               truthy fst snd] in *].
Qed.

(** ** Unknown methods *)

Lemma unknown_method_server (e : env) (req : list (string * json)) (i : json) (w : world) :
  dict_get "id" req = Some i ->
  is_not_None i = true ->
  registered (default (JStr "") (dict_get "method" req)) = false ->
  main_iteration e (Decoded (JObj req)) w
  = write_message
      (JObj [("jsonrpc", JStr "2.0"); ("id", i);
             ("error", method_not_found (default (JStr "") (dict_get "method" req)))]) w.
Proof.
  intros Hi Hnn Hreg. unfold registered in Hreg.
  apply orb_false_elim in Hreg as [Hreg Hs].
  apply orb_false_elim in Hreg as [Hreg Hr].
  apply orb_false_elim in Hreg as [Hu Hst].
  unfold main_iteration, handle_request. rewrite Hi. cbn [from_option id].
  rewrite Hu, Hst, Hr, Hs, Hnn. reflexivity.
Qed.

(** ** Status queries *)

Lemma status_query_server (e : env) (req : list (string * json)) (w : world) :
  eq_str (default (JStr "") (dict_get "method" req)) "getServerUrl" = true
  \/ eq_str (default (JStr "") (dict_get "method" req)) "getServerStatus" = true ->
  server_process (main_iteration e (Decoded (JObj req)) w) = server_process w
  /\ alive (main_iteration e (Decoded (JObj req)) w) = alive w
  /\ spawns (trace (main_iteration e (Decoded (JObj req)) w)) = spawns (trace w).
Proof.
  intros Hm. unfold main_iteration, handle_request.
  destruct (eq_str _ "getServerUrl") eqn:Hu.
  - destruct (is_not_None _);
      cbn [dict_get String.eqb Ascii.eqb Bool.eqb send_response];
      unfold write_message;
      rewrite ?spawns_perform by reflexivity; repeat split.
  - destruct Hm as [Hm|Hm]; [discriminate|]. rewrite Hm.
    destruct (is_not_None _);
      cbn [dict_get String.eqb Ascii.eqb Bool.eqb send_response is_port_in_use];
      unfold write_message;
      rewrite ?spawns_perform by reflexivity; repeat split.
Qed.

End ServerFacts.

(** * Properties of the bridge shared by the backends *)

(** ** Lines that do not decode *)

(** The timer backend writes no frame for a line that does not decode:
    standard output is as it was, and the failure is a text line on
    standard error. *)
Lemma malformed_line_not_notified_by_timer :
  Pomodoro.stdout
    (Pomodoro.step (Pomodoro.Input Pomodoro.t0 (Pomodoro.Malformed Pomodoro.undecodable))
       Pomodoro.boot)
  = Pomodoro.stdout Pomodoro.boot
  /\ Pomodoro.stderr
       (Pomodoro.step (Pomodoro.Input Pomodoro.t0 (Pomodoro.Malformed Pomodoro.undecodable))
          Pomodoro.boot)
     = ["JSON 解析错误: Expecting value: line 1 column 1 (char 0)"]
  /\ ~ (exists m,
          Pomodoro.stdout
            (Pomodoro.step
               (Pomodoro.Input Pomodoro.t0 (Pomodoro.Malformed Pomodoro.undecodable))
               Pomodoro.boot)
          = Pomodoro.stdout Pomodoro.boot ++ [m]).
Proof.
  split; [reflexivity|]. split; [reflexivity|].
  intros [m Hm]. apply (f_equal length) in Hm. cbn in Hm. discriminate.
Qed.

(** C4.  A line that is not valid JSON never ends the read loop,
    and the lines after it are handled as if it had not been there.  What
    is reported differs by backend: the telemetry backend writes one
    ["error"] Notification on standard output; the timer backend writes
    one text line on standard error and no frame; the inspection-service
    backend skips the line silently. *)
Theorem malformed_line_is_survived (err : JSONDecodeError) :
  (forall (e : SystemMonitor.env) (es : list SystemMonitor.event) (w : SystemMonitor.world),
      SystemMonitor.main_iteration e (SystemMonitor.Malformed err) w
      = SystemMonitor.send "error" [("message", JStr ("JSON 解析失败: " +:+ msg err))] w
      /\ SystemMonitor.monitor
           (SystemMonitor.run (SystemMonitor.Input e (SystemMonitor.Malformed err) :: es) w)
         = SystemMonitor.monitor (SystemMonitor.run es w)
      /\ SystemMonitor.threads
           (SystemMonitor.run (SystemMonitor.Input e (SystemMonitor.Malformed err) :: es) w)
         = SystemMonitor.threads (SystemMonitor.run es w)
      /\ SystemMonitor.stdout
           (SystemMonitor.run (SystemMonitor.Input e (SystemMonitor.Malformed err) :: es) w)
         = SystemMonitor.stdout w
           ++ [SystemMonitor.notification "error"
                 [("message", JStr ("JSON 解析失败: " +:+ msg err))]]
           ++ SystemMonitor.stdout (SystemMonitor.run es (SystemMonitor.clear_stdout w))
      /\ SystemMonitor.stdout (SystemMonitor.run es w)
         = SystemMonitor.stdout w
           ++ SystemMonitor.stdout (SystemMonitor.run es (SystemMonitor.clear_stdout w)))
  /\ (forall (now : string) (es : list Pomodoro.event) (w : Pomodoro.world),
        Pomodoro.main_iteration now (Pomodoro.Malformed err) w
        = Pomodoro.write_stderr ("JSON 解析错误: " +:+ str_e err) w
        /\ Pomodoro.alive (Pomodoro.main_iteration now (Pomodoro.Malformed err) w)
           = Pomodoro.alive w
        /\ Pomodoro.stdout (Pomodoro.main_iteration now (Pomodoro.Malformed err) w)
           = Pomodoro.stdout w
        /\ Pomodoro.erase_stderr
             (Pomodoro.run (Pomodoro.Input now (Pomodoro.Malformed err) :: es) w)
           = Pomodoro.erase_stderr (Pomodoro.run es w))
  /\ (forall (e : UiAutoDev.env) (es : list (UiAutoDev.env * UiAutoDev.line))
             (w : UiAutoDev.world),
        UiAutoDev.main_iteration e (UiAutoDev.Malformed err) w = w
        /\ UiAutoDev.run ((e, UiAutoDev.Malformed err) :: es) w = UiAutoDev.run es w).
Proof.
  split; [|split].
  - intros e es w. apply MonitorFacts.malformed_line_monitor.
  - intros now es w.
    destruct (TimerFacts.malformed_line_pomodoro now err es w) as [H1 H2].
    repeat split; assumption.
  - intros e es w. split; [reflexivity|].
    change (UiAutoDev.run ((e, UiAutoDev.Malformed err) :: es) w)
      with (UiAutoDev.run es (UiAutoDev.step (e, UiAutoDev.Malformed err) w)).
    unfold UiAutoDev.step. destruct (UiAutoDev.alive w); reflexivity.
Qed.

(** ** Requests without an id *)

(** C5.  A request whose ["id"] is absent (or null) is dispatched like
    any other: the timer and its thread pool end up exactly as for the
    same request carrying an id, and the inspection-service backend ends
    up in the world its handler leaves.  No frame written for it is a
    Response.  The same request with an id writes the same frames and,
    after them, one Response. *)
Theorem request_without_id_is_executed_silently (req : list (string * json)) :
  is_not_None (default JNull (dict_get "id" req)) = false ->
  (forall (now : string) (w : Pomodoro.world),
      (exists fs,
          Pomodoro.stdout (Pomodoro.main_iteration now (Pomodoro.Decoded (JObj req)) w)
          = Pomodoro.stdout w ++ fs
          /\ Forall (fun m => is_response m = false) fs)
      /\ (forall i : json,
             Pomodoro.timer (Pomodoro.main_iteration now (Pomodoro.Decoded (JObj req)) w)
             = Pomodoro.timer
                 (Pomodoro.main_iteration now
                    (Pomodoro.Decoded (JObj (("id", i) :: req))) w)
             /\ Pomodoro.threads
                  (Pomodoro.main_iteration now (Pomodoro.Decoded (JObj req)) w)
                = Pomodoro.threads
                    (Pomodoro.main_iteration now
                       (Pomodoro.Decoded (JObj (("id", i) :: req))) w))
      /\ (forall i : json,
             is_not_None i = true ->
             exists r,
               is_response r = true
               /\ Pomodoro.stdout
                    (Pomodoro.main_iteration now
                       (Pomodoro.Decoded (JObj (("id", i) :: req))) w)
                  = Pomodoro.stdout
                      (Pomodoro.main_iteration now (Pomodoro.Decoded (JObj req)) w)
                    ++ [r]))
  /\ (forall (e : UiAutoDev.env) (w : UiAutoDev.world),
        UiAutoDev.main_iteration e (UiAutoDev.Decoded (JObj req)) w
        = match UiAutoDev.handle_request e req w with
          | (inl _, w1) => w1
          | (inr _, w1) => UiAutoDev.exit (UiAutoDev.atexit_e e) w1
          end
        /\ UiAutoDev.extends_quietly w
             (UiAutoDev.main_iteration e (UiAutoDev.Decoded (JObj req)) w)
        /\ (forall i : json,
               is_not_None i = true ->
               match UiAutoDev.handle_request e req w with
               | (inl _, w1) =>
                   exists r,
                     is_response r = true
                     /\ UiAutoDev.main_iteration e
                          (UiAutoDev.Decoded (JObj (("id", i) :: req))) w
                        = UiAutoDev.write_message r w1
               | (inr _, w1) =>
                   UiAutoDev.main_iteration e
                     (UiAutoDev.Decoded (JObj (("id", i) :: req))) w
                   = UiAutoDev.exit (UiAutoDev.atexit_e e) w1
               end)).
Proof.
  intros Hid. split.
  - intros now w. split; [|split].
    + destruct (TimerFacts.request_without_id_frames now req w Hid) as [H|H]; rewrite H.
      * exists []. rewrite app_nil_r. split; [reflexivity|constructor].
      * eexists. split; [reflexivity|]. constructor; [reflexivity|constructor].
    + intros i. apply TimerFacts.request_id_irrelevant.
    + intros i Hi. apply TimerFacts.request_with_id_frames; assumption.
  - intros e w.
    destruct (ServerFacts.request_without_id_server e req w Hid) as [H1 H2].
    split; [exact H1|]. split; [exact H2|].
    intros i Hi. apply ServerFacts.request_with_id_server. exact Hi.
Qed.

Lemma request_without_id_is_executed_silently_witness :
  (exists fs,
      Pomodoro.stdout
        (Pomodoro.main_iteration Pomodoro.t0
           (Pomodoro.Decoded (JObj [("jsonrpc", JStr "2.0"); ("method", JStr "start");
                                    ("params", JObj [("duration", JNum 5)])]))
           Pomodoro.boot)
      = Pomodoro.stdout Pomodoro.boot ++ fs
      /\ Forall (fun m => is_response m = false) fs)
  /\ Pomodoro.is_running
       (Pomodoro.timer
          (Pomodoro.main_iteration Pomodoro.t0
             (Pomodoro.Decoded (JObj [("jsonrpc", JStr "2.0"); ("method", JStr "start");
                                      ("params", JObj [("duration", JNum 5)])]))
             Pomodoro.boot)) = true.
Proof.
  destruct (request_without_id_is_executed_silently
              [("jsonrpc", JStr "2.0"); ("method", JStr "start");
               ("params", JObj [("duration", JNum 5)])] eq_refl) as [Ht _].
  destruct (Ht Pomodoro.t0 Pomodoro.boot) as [Hfs _].
  split; [exact Hfs|reflexivity].
Defined.

(** ** Unknown methods *)

(** C6.  A request that carries an id and names a method the backend does
    not register is answered with exactly one frame: a Response with that
    id whose error has code [-32601] and message ["Method not found: "]
    followed by the method as Python formats it.  Nothing else changes:
    the timer, its threads and standard error in the timer backend; the
    child handle and the calls made in the inspection-service backend. *)
Theorem unknown_method_is_reported (req : list (string * json)) (i : json) :
  dict_get "id" req = Some i ->
  is_not_None i = true ->
  (forall (now : string) (w : Pomodoro.world),
      Pomodoro.registered (default JNull (dict_get "method" req)) = false ->
      let w' := Pomodoro.main_iteration now (Pomodoro.Decoded (JObj req)) w in
      Pomodoro.stdout w'
      = Pomodoro.stdout w
        ++ [JObj [("jsonrpc", JStr "2.0"); ("id", i);
                  ("error",
                   JObj [("code", JNum (-32601));
                         ("message",
                          JStr ("Method not found: "
                                +:+ py_str (default JNull (dict_get "method" req))))])]]
      /\ Pomodoro.timer w' = Pomodoro.timer w
      /\ Pomodoro.threads w' = Pomodoro.threads w
      /\ Pomodoro.stderr w' = Pomodoro.stderr w
      /\ Pomodoro.alive w' = Pomodoro.alive w)
  /\ (forall (e : UiAutoDev.env) (w : UiAutoDev.world),
        UiAutoDev.registered (default (JStr "") (dict_get "method" req)) = false ->
        let w' := UiAutoDev.main_iteration e (UiAutoDev.Decoded (JObj req)) w in
        UiAutoDev.trace w'
        = UiAutoDev.trace w
          ++ [UiAutoDev.Write
                (JObj [("jsonrpc", JStr "2.0"); ("id", i);
                       ("error",
                        JObj [("code", JNum (-32601));
                              ("message",
                               JStr ("Method not found: "
                                     +:+ py_str (default (JStr "")
                                                   (dict_get "method" req))))])])]
        /\ UiAutoDev.server_process w' = UiAutoDev.server_process w
        /\ UiAutoDev.alive w' = UiAutoDev.alive w).
Proof.
  intros Hi Hnn. split.
  - intros now w Hreg w'. subst w'.
    rewrite (TimerFacts.unknown_method_pomodoro now req i w Hi Hnn Hreg).
    repeat split.
  - intros e w Hreg w'. subst w'.
    rewrite (ServerFacts.unknown_method_server e req i w Hi Hnn Hreg).
    repeat split.
Qed.

(** Scenario C of the specification. *)
Lemma unknown_method_is_reported_witness :
  Pomodoro.stdout
    (Pomodoro.main_iteration Pomodoro.t0
       (Pomodoro.Decoded (JObj [("id", JNum 7); ("method", JStr "bogus")])) Pomodoro.boot)
  = [Pomodoro.ready;
     JObj [("jsonrpc", JStr "2.0"); ("id", JNum 7);
           ("error", JObj [("code", JNum (-32601));
                           ("message", JStr "Method not found: bogus")])]]
  /\ Pomodoro.timer
       (Pomodoro.main_iteration Pomodoro.t0
          (Pomodoro.Decoded (JObj [("id", JNum 7); ("method", JStr "bogus")]))
          Pomodoro.boot)
     = Pomodoro.init.
Proof.
  destruct (unknown_method_is_reported
              [("id", JNum 7); ("method", JStr "bogus")] (JNum 7) eq_refl eq_refl)
    as [Ht _].
  destruct (Ht Pomodoro.t0 Pomodoro.boot eq_refl) as (Hout & Htimer & _).
  split; [exact Hout|exact Htimer].
Defined.

(** ** [start] without a duration *)

(** While the timer runs, a [start] with duration 0 is refused like any
    other: [remaining] keeps its value (4 here) and is not reset to the
    stored duration (5). *)
Lemma start_zero_while_running :
  Pomodoro.is_running (Pomodoro.timer Pomodoro.ticking) = true
  /\ Pomodoro.duration (Pomodoro.timer Pomodoro.ticking) = JNum 5
  /\ Pomodoro.remaining
       (Pomodoro.timer
          (Pomodoro.step
             (Pomodoro.Input Pomodoro.t0 (Pomodoro.Decoded Pomodoro.start_zero_request))
             Pomodoro.ticking)) = JNum 4
  /\ Pomodoro.remaining
       (Pomodoro.timer
          (Pomodoro.step
             (Pomodoro.Input Pomodoro.t0 (Pomodoro.Decoded Pomodoro.start_zero_request))
             Pomodoro.ticking))
     <> Pomodoro.duration (Pomodoro.timer Pomodoro.ticking)
  /\ last (Pomodoro.stdout
             (Pomodoro.step
                (Pomodoro.Input Pomodoro.t0 (Pomodoro.Decoded Pomodoro.start_zero_request))
                Pomodoro.ticking))
     = Some (JObj [("jsonrpc", JStr "2.0"); ("id", JNum 2);
                   ("result", Pomodoro.already_running)]).
Proof. repeat split. cbn. discriminate. Qed.

(** C9.  In a timer that is not running, a [start] whose
    duration is 0 or missing (any falsy value) keeps the stored duration
    and resets [remaining] to it; the call succeeds and reports that
    value.  The stored duration is 1500 at first and is never falsy in a
    reachable state, so [remaining] is not reset to 0.  A [start] request
    with such params has exactly this effect on the timer. *)
Theorem start_without_duration_falls_back (now : string) (d : json) (w : Pomodoro.world) :
  truthy d = false ->
  Pomodoro.is_running (Pomodoro.timer w) = false ->
  let w' := snd (Pomodoro.start_timer now d w) in
  fst (Pomodoro.start_timer now d w)
  = JObj [("success", JBool true); ("remaining", Pomodoro.duration (Pomodoro.timer w))]
  /\ Pomodoro.duration (Pomodoro.timer w') = Pomodoro.duration (Pomodoro.timer w)
  /\ Pomodoro.remaining (Pomodoro.timer w') = Pomodoro.duration (Pomodoro.timer w)
  /\ Pomodoro.is_running (Pomodoro.timer w') = true
  /\ Pomodoro.duration (Pomodoro.timer Pomodoro.boot) = JNum 1500
  /\ (Pomodoro.reachable w ->
      truthy (Pomodoro.remaining (Pomodoro.timer w')) = true
      /\ Pomodoro.remaining (Pomodoro.timer w') <> JNum 0)
  /\ (forall req ps : list (string * json),
        Pomodoro.alive w = true ->
        dict_get "method" req = Some (JStr "start") ->
        default (JObj []) (dict_get "params" req) = JObj ps ->
        default JNull (dict_get "duration" ps) = d ->
        Pomodoro.timer (Pomodoro.step (Pomodoro.Input now (Pomodoro.Decoded (JObj req))) w)
        = Pomodoro.timer w').
Proof.
  intros Hd Hr w'. subst w'.
  rewrite (TimerFacts.start_timer_fallback now d w Hd Hr). cbn [fst snd].
  split; [reflexivity|]. split; [reflexivity|]. split; [reflexivity|].
  split; [reflexivity|]. split; [reflexivity|]. split.
  - intros Hreach. cbn.
    pose proof (TimerFacts.reachable_duration_truthy w Hreach) as Ht.
    split; [exact Ht|]. intros H0. rewrite H0 in Ht. discriminate.
  - intros req ps Ha Hm Hp Hdur. unfold Pomodoro.step. rewrite Ha.
    rewrite (TimerFacts.main_start now req ps w Hm Hp). cbv zeta. rewrite Hdur.
    rewrite (TimerFacts.start_timer_fallback now d
               (Pomodoro.set_request_id (default JNull (dict_get "id" req)) w) Hd Hr).
    destruct (is_not_None _); reflexivity.
Qed.

Lemma start_without_duration_falls_back_witness :
  Pomodoro.remaining
    (Pomodoro.timer (snd (Pomodoro.start_timer Pomodoro.t0 (JNum 0) Pomodoro.boot)))
  = JNum 1500
  /\ Pomodoro.remaining
       (Pomodoro.timer (snd (Pomodoro.start_timer Pomodoro.t0 JNull Pomodoro.boot)))
     = JNum 1500.
Proof.
  destruct (start_without_duration_falls_back Pomodoro.t0 (JNum 0)
              Pomodoro.boot eq_refl eq_refl) as (_ & _ & H0 & _).
  destruct (start_without_duration_falls_back Pomodoro.t0 JNull
              Pomodoro.boot eq_refl eq_refl) as (_ & _ & H1 & _).
  split; [exact H0|exact H1].
Defined.

(** ** Status queries *)

(** C10.  [get_status] returns its dict and leaves the world as it is; a
    [getStatus] request leaves the timer's fields and the thread pool
    untouched.  [getServerUrl] and [getServerStatus] leave the child
    handle untouched, start no child and do not end the loop. *)
Theorem status_queries_change_nothing :
  (forall w : Pomodoro.world, snd (Pomodoro.get_status w) = w)
  /\ (forall (now : string) (req : list (string * json)) (w : Pomodoro.world),
        dict_get "method" req = Some (JStr "getStatus") ->
        let w' := Pomodoro.main_iteration now (Pomodoro.Decoded (JObj req)) w in
        Pomodoro.duration (Pomodoro.timer w') = Pomodoro.duration (Pomodoro.timer w)
        /\ Pomodoro.remaining (Pomodoro.timer w') = Pomodoro.remaining (Pomodoro.timer w)
        /\ Pomodoro.is_running (Pomodoro.timer w') = Pomodoro.is_running (Pomodoro.timer w)
        /\ Pomodoro.timer w' = Pomodoro.timer w
        /\ Pomodoro.threads w' = Pomodoro.threads w)
  /\ (forall (e : UiAutoDev.env) (req : list (string * json)) (w : UiAutoDev.world),
        eq_str (default (JStr "") (dict_get "method" req)) "getServerUrl" = true
        \/ eq_str (default (JStr "") (dict_get "method" req)) "getServerStatus" = true ->
        let w' := UiAutoDev.main_iteration e (UiAutoDev.Decoded (JObj req)) w in
        UiAutoDev.server_process w' = UiAutoDev.server_process w
        /\ UiAutoDev.alive w' = UiAutoDev.alive w
        /\ UiAutoDev.spawns (UiAutoDev.trace w') = UiAutoDev.spawns (UiAutoDev.trace w)).
Proof.
  split; [|split].
  - intros w. reflexivity.
  - intros now req w Hm w'. subst w'.
    destruct (TimerFacts.getStatus_request now req w Hm) as [Ht Hth].
    rewrite Ht. repeat split. exact Hth.
  - intros e req w Hm w'. subst w'. apply ServerFacts.status_query_server. exact Hm.
Qed.

Lemma status_queries_change_nothing_witness :
  Pomodoro.timer
    (Pomodoro.main_iteration Pomodoro.t0
       (Pomodoro.Decoded (JObj [("id", JNum 3); ("method", JStr "getStatus")]))
       Pomodoro.ticking)
  = Pomodoro.timer Pomodoro.ticking
  /\ UiAutoDev.server_process
       (UiAutoDev.main_iteration UiAutoDev.calm
          (UiAutoDev.Decoded (JObj [("id", JNum 4); ("method", JStr "getServerStatus")]))
          UiAutoDev.owning)
     = Some 4242%nat.
Proof.
  destruct status_queries_change_nothing as (_ & Ht & Hs).
  split.
  - destruct (Ht Pomodoro.t0 [("id", JNum 3); ("method", JStr "getStatus")]
                 Pomodoro.ticking eq_refl) as (_ & _ & _ & H & _).
    exact H.
  - destruct (Hs UiAutoDev.calm [("id", JNum 4); ("method", JStr "getServerStatus")]
                 UiAutoDev.owning (or_intror eq_refl)) as (H & _).
    exact H.
Defined.

(** * Further properties of the countdown timer *)

Module TimerExtras.
Import Pomodoro.
Import TimerFacts.

(** ** A whole countdown *)

Lemma ticks_countdown (total : json) (m k : nat) :
  (0 < m)%nat -> (m <= k)%nat ->
  ticks total (Z.of_nat m) k = map (tick_frame total) (countdown m) ++ [complete_frame].
Proof.
  revert k. induction m as [|m IH]; intros k Hm Hk; [lia|].
  destruct k as [|k]; [lia|]. cbn [ticks countdown map].
  replace (Z.of_nat (S m) - 1) with (Z.of_nat m) by lia.
  destruct m as [|m].
  - reflexivity.
  - destruct (Z.of_nat (S m) <=? 0) eqn:Hle; [apply Z.leb_le in Hle; lia|].
    rewrite IH by lia. reflexivity.
Qed.

Lemma counting_last_timer (tid : nat) (ne : option string) (w : world) :
  counting tid 1 w ->
  timer (step (Wake tid ne) w)
  = mkTimer (duration (timer w)) (JNum 0) false
            (timer_thread (timer w)) (start_time (timer w)).
Proof.
  intros [Ha Hr Hrem Hpos Hself Hoth].
  unfold step. rewrite Ha. unfold timer_loop. rewrite Hself.
  unfold timer_loop_body. rewrite Hrem. cbn [as_int].
  change (1 - 1 <=? 0) with true. cbv iota.
  destruct ne; reflexivity.
Qed.

Lemma counting_run_final (ws : list (nat * option string)) (tid : nat) (n : Z) (w : world) :
  counting tid n w ->
  (Z.to_nat n <= scheduled tid ws)%nat ->
  quiet (run (wakes ws) w)
  /\ timer (run (wakes ws) w)
     = mkTimer (duration (timer w)) (JNum 0) false
               (timer_thread (timer w)) (start_time (timer w)).
Proof.
  revert n w. induction ws as [|[j ne] ws IH]; intros n w C Hn.
  - pose proof (cnt_pos _ _ _ C). cbn in Hn. lia.
  - change (run (wakes ((j, ne) :: ws)) w) with (run (wakes ws) (step (Wake j ne) w)).
    unfold scheduled in Hn. rewrite filter_cons in Hn. cbn [fst] in Hn.
    destruct (decide (j = tid)) as [->|Hne].
    + cbn [length] in Hn. destruct (decide (n = 1)) as [->|Hn1].
      * destruct (counting_last tid ne w C) as (Hq & _ & _).
        rewrite quiet_run by assumption. split; [assumption|].
        apply counting_last_timer. assumption.
      * pose proof (cnt_pos _ _ _ C) as Hpos.
        destruct (counting_wake tid n ne w C ltac:(lia)) as (C' & _ & Hdur).
        destruct (IH (n - 1) _ C') as (Hq & Ht).
        { unfold scheduled. lia. }
        split; [assumption|]. rewrite Ht, Hdur.
        destruct C as [Ha Hr Hrem _ Hself _].
        unfold step. rewrite Ha. unfold timer_loop. rewrite Hself.
        unfold timer_loop_body. rewrite Hrem. cbn [as_int].
        destruct (n - 1 <=? 0) eqn:Hle; [apply Z.leb_le in Hle; lia|].
        unfold timer_loop_enter, loop_cond. cbn. rewrite Hr. cbn.
        destruct (0 <? n - 1); reflexivity.
    + rewrite counting_other with (tid := tid) (n := n) by assumption.
      apply (IH n); [assumption|exact Hn].
Qed.

Lemma starting_run_final (ws : list (nat * option string)) (tid : nat) (n : Z) (w : world) :
  starting tid n w ->
  (Z.to_nat n < scheduled tid ws)%nat ->
  quiet (run (wakes ws) w)
  /\ timer (run (wakes ws) w)
     = mkTimer (duration (timer w)) (JNum 0) false
               (timer_thread (timer w)) (start_time (timer w)).
Proof.
  revert w. induction ws as [|[j ne] ws IH]; intros w C Hn.
  - cbn in Hn. lia.
  - change (run (wakes ((j, ne) :: ws)) w) with (run (wakes ws) (step (Wake j ne) w)).
    unfold scheduled in Hn. rewrite filter_cons in Hn. cbn [fst] in Hn.
    destruct (decide (j = tid)) as [->|Hne].
    + cbn [length] in Hn.
      destruct (starting_enter tid n ne w C) as (C' & _ & Hdur).
      destruct (counting_run_final ws tid n _ C') as (Hq & Ht).
      { unfold scheduled. lia. }
      split; [assumption|]. rewrite Ht, Hdur.
      destruct C as [Ha Hr Hrem Hpos Hself _].
      unfold step. rewrite Ha. unfold timer_loop. rewrite Hself.
      unfold timer_loop_enter, loop_cond. rewrite Hr, Hrem. cbn [as_int].
      destruct (0 <? n); reflexivity.
    + rewrite starting_other with (tid := tid) (n := n) by assumption.
      apply IH; [assumption|exact Hn].
Qed.

Lemma start_timer_starting (now : string) (d : Z) (w : world) :
  alive w = true -> idle w -> 0 < d ->
  starting (length (threads w)) d (snd (start_timer now (JNum d) w))
  /\ start_timer now (JNum d) w
     = (JObj [("success", JBool true); ("remaining", JNum d)],
        set_threads (threads w ++ [Fresh])
          (set_timer (mkTimer (JNum d) (JNum d) true
                              (Some (length (threads w))) (Some now)) w)).
Proof.
  intros Ha Hidle Hd. pose proof (idle_quiet w Hidle) as Hq. destruct Hidle as [Hnr _].
  assert (Heq : start_timer now (JNum d) w
                = (JObj [("success", JBool true); ("remaining", JNum d)],
                   set_threads (threads w ++ [Fresh])
                     (set_timer (mkTimer (JNum d) (JNum d) true
                                         (Some (length (threads w))) (Some now)) w))).
  { unfold start_timer. rewrite Hnr. cbn [truthy].
    destruct (d =? 0) eqn:H0; [apply Z.eqb_eq in H0; lia|]. reflexivity. }
  split; [|exact Heq]. rewrite Heq. cbn [snd].
  constructor; cbn; try reflexivity; try assumption.
  - apply list_lookup_middle. reflexivity.
  - intros j th Hj Hjth. apply lookup_app_Some in Hjth as [Hjth|[Hge Hjth]].
    + eapply Hq; eassumption.
    + destruct (j - length (threads w))%nat as [|m] eqn:Hm; [lia|].
      cbn in Hjth. discriminate.
Qed.

(** X1.  A [start] with a positive whole duration [d], accepted by an idle
    timer and followed by worker events only, ticks [d-1, d-2, ..., 0] and
    then completes, once the new worker has been scheduled [d+1] times:
    exactly [d] ticks, each one less than the one before, then one
    completion, and nothing after it.  The timer ends with the flag down,
    [remaining = 0], the stored duration [d], and no thread in its loop. *)
Theorem countdown_runs_to_completion (now : string) (d : Z)
    (ws : list (nat * option string)) (w : world) :
  alive w = true ->
  idle w ->
  0 < d ->
  (Z.to_nat d < scheduled (length (threads w)) ws)%nat ->
  fst (start_timer now (JNum d) w)
  = JObj [("success", JBool true); ("remaining", JNum d)]
  /\ stdout (run (wakes ws) (snd (start_timer now (JNum d) w)))
     = stdout w ++ map (tick_frame (JNum d)) (countdown (Z.to_nat d)) ++ [complete_frame]
  /\ remaining (timer (run (wakes ws) (snd (start_timer now (JNum d) w)))) = JNum 0
  /\ duration (timer (run (wakes ws) (snd (start_timer now (JNum d) w)))) = JNum d
  /\ is_running (timer (run (wakes ws) (snd (start_timer now (JNum d) w)))) = false
  /\ quiet (run (wakes ws) (snd (start_timer now (JNum d) w))).
Proof.
  intros Ha Hidle Hd Hn.
  destruct (start_timer_starting now d w Ha Hidle Hd) as [C Heq].
  split; [rewrite Heq; reflexivity|].
  rewrite (starting_run ws _ d _ C).
  destruct (starting_run_final ws _ d _ C Hn) as [Hq Ht].
  rewrite Ht. rewrite Heq. cbn [snd stdout timer duration remaining is_running
                                set_threads set_timer].
  split; [|repeat split; try reflexivity].
  - f_equal.
    replace (ticks (JNum d) d (scheduled (length (threads w)) ws - 1))
      with (ticks (JNum d) (Z.of_nat (Z.to_nat d))
              (scheduled (length (threads w)) ws - 1))
      by (rewrite Z2Nat.id by lia; reflexivity).
    apply ticks_countdown; lia.
  - rewrite Heq in Hq. exact Hq.
Qed.

Lemma countdown_runs_to_completion_witness :
  stdout (run (wakes [(0, None); (0, None); (0, None); (0, None)]%nat)
            (snd (start_timer t0 (JNum 3) boot)))
  = [ready; tick_frame (JNum 3) 2; tick_frame (JNum 3) 1; tick_frame (JNum 3) 0;
     complete_frame].
Proof.
  assert (Hidle : idle boot) by (split; [reflexivity|constructor]).
  assert (Hn : (Z.to_nat 3 < scheduled (length (threads boot))
                                 [(0, None); (0, None); (0, None); (0, None)]%nat)%nat)
    by (cbv; lia).
  destruct (countdown_runs_to_completion t0 3
              [(0, None); (0, None); (0, None); (0, None)]%nat boot
              eq_refl Hidle eq_refl Hn) as (_ & H & _).
  exact H.
Defined.

(** ** The frames on standard output *)

Lemma notification_well_framed (method : string) (params : list (string * json)) :
  well_framed (notification method params).
Proof. left. reflexivity. Qed.

Lemma response_well_framed (i r : json) (e : option json) :
  is_not_None i = true -> well_framed (response i r e).
Proof.
  intros Hi. right. unfold response.
  destruct e as [e|]; [destruct (truthy e)|];
    do 3 eexists; (split; [exact Hi|]); (split; [|reflexivity]); auto.
Qed.

Ltac frames_tac :=
  rewrite <- ?app_assoc;
  first [ (exists []; rewrite app_nil_r; split; [reflexivity|constructor])
        | (eexists; split; [reflexivity|]; cbn [app];
           repeat match goal with
                  | |- Forall _ (_ :: _) =>
                      constructor;
                      [first [apply notification_well_framed
                             | apply response_well_framed; assumption
                             | (right; do 3 eexists; split; [eassumption|];
                                split; [|reflexivity]; auto)]|]
                  | |- Forall _ [] => constructor
                  end) ].

(** Whatever a step writes is well framed. *)
Lemma step_frames (e : event) (w : world) :
  exists fs, stdout (step e w) = stdout w ++ fs /\ Forall well_framed fs.
Proof.
  unfold step. destruct (alive w); [|exists []; rewrite app_nil_r; split; [reflexivity|constructor]].
  destruct e as [now l|tid ne].
  - unfold_main.
    repeat first [ discriminate | progress fields | case_match | progress simplify_eq ];
      unfold send; fields; frames_tac.
  - unfold_worker. unfold send.
    repeat first [ discriminate | progress fields | case_match | progress simplify_eq ];
      unfold send; fields; frames_tac.
Qed.

Lemma run_frames (es : list event) (w : world) :
  Forall well_framed (stdout w) -> Forall well_framed (stdout (run es w)).
Proof.
  revert w. induction es as [|e es IH]; intros w H; [exact H|].
  change (run (e :: es) w) with (run es (step e w)). apply IH.
  destruct (step_frames e w) as (fs & -> & Hfs). apply Forall_app. split; assumption.
Qed.

(** X2.  Whatever lines arrive, decodable or not, and however the
    workers are scheduled, every frame on standard output is a
    Notification, or a Response made of [jsonrpc], an [id] that is not
    [None], and exactly one of [result] and [error]. *)
Theorem every_frame_is_well_framed (es : list event) :
  Forall well_framed (stdout (run es boot)).
Proof.
  apply run_frames. constructor; [|constructor]. apply notification_well_framed.
Qed.

(** ** One Response per request *)

Lemma request_sets_id (now : string) (req : list (string * json)) (w : world) :
  request_id (main_iteration now (Decoded (JObj req)) w)
  = Some (default JNull (dict_get "id" req)).
Proof. unfold_main. cases. Qed.

(** X3.  A request that carries an id gets exactly one Response, with
    that id; it is the last frame the request causes, and the frames
    before it, if any, are Notifications. *)
Theorem request_with_id_is_answered_once (now : string) (req : list (string * json))
    (i : json) (w : world) :
  dict_get "id" req = Some i ->
  is_not_None i = true ->
  exists (ns : list json) (k : string) (v : json),
    stdout (main_iteration now (Decoded (JObj req)) w)
    = stdout w ++ ns ++ [JObj [("jsonrpc", JStr "2.0"); ("id", i); (k, v)]]
    /\ Forall (fun m => is_notification m = true) ns
    /\ (k = "result" \/ k = "error").
Proof.
  intros Hi Hnn. unfold_main. fields. rewrite Hi. cbn [from_option id]. rewrite Hnn.
  repeat first [ discriminate | progress fields | case_match | progress simplify_eq ];
    unfold send, response; fields; rewrite <- ?app_assoc; cbn [app truthy];
    first [ (exists []; do 2 eexists; split; [reflexivity|]; split; [constructor|]; auto)
          | (eexists [_]; do 2 eexists; split; [reflexivity|]; split;
             [repeat constructor|]; auto) ].
Qed.

Lemma request_with_id_is_answered_once_witness :
  exists (ns : list json) (k : string) (v : json),
    stdout (main_iteration t0 (Decoded (JObj status_request)) boot)
    = stdout boot ++ ns ++ [JObj [("jsonrpc", JStr "2.0"); ("id", JNum 7); (k, v)]]
    /\ Forall (fun m => is_notification m = true) ns
    /\ (k = "result" \/ k = "error").
Proof.
  exact (request_with_id_is_answered_once t0 status_request (JNum 7) boot eq_refl eq_refl).
Defined.

(** ** Lines that decode to something else than an object *)

Lemma non_object_line (now : string) (v : json) (w : world) :
  not_object v ->
  main_iteration now (Decoded v) w = on_exception (no_attribute_get v) w.
Proof. intros H. destruct v; try reflexivity. destruct H. Qed.

(** X4.  A line that decodes to a value that is no object (a number, a
    string, a list, [null]) raises before [request_id] is assigned, so
    the handler finds the id of the request before it: the line is
    answered with an Internal-error Response that carries the id of the
    previous request.  The timer and the workers are untouched; when no
    request came before, nothing is written. *)
Theorem non_object_line_is_answered_with_last_id (now now' : string)
    (req : list (string * json)) (i v : json) (w : world) :
  alive w = true ->
  dict_get "id" req = Some i ->
  is_not_None i = true ->
  not_object v ->
  stdout (run [Input now (Decoded (JObj req)); Input now' (Decoded v)] w)
  = stdout (run [Input now (Decoded (JObj req))] w)
    ++ [internal_error i (no_attribute_get v)]
  /\ timer (run [Input now (Decoded (JObj req)); Input now' (Decoded v)] w)
     = timer (run [Input now (Decoded (JObj req))] w)
  /\ threads (run [Input now (Decoded (JObj req)); Input now' (Decoded v)] w)
     = threads (run [Input now (Decoded (JObj req))] w)
  /\ (request_id w = None ->
      stdout (run [Input now' (Decoded v)] w) = stdout w).
Proof.
  intros Ha Hi Hnn Hv.
  assert (Ha1 : alive (main_iteration now (Decoded (JObj req)) w) = true)
    by (rewrite <- Ha; unfold_main; cases).
  pose proof (request_sets_id now req w) as Hid. rewrite Hi in Hid.
  cbn [from_option id] in Hid.
  assert (E1 : run [Input now (Decoded (JObj req))] w
               = main_iteration now (Decoded (JObj req)) w)
    by (cbn; unfold step; rewrite Ha; reflexivity).
  assert (E2 : run [Input now (Decoded (JObj req)); Input now' (Decoded v)] w
               = on_exception (no_attribute_get v)
                   (main_iteration now (Decoded (JObj req)) w)).
  { change (run [Input now (Decoded (JObj req)); Input now' (Decoded v)] w)
      with (step (Input now' (Decoded v)) (run [Input now (Decoded (JObj req))] w)).
    rewrite E1. unfold step. rewrite Ha1. apply non_object_line. assumption. }
  rewrite E1, E2. clear E1 E2.
  set (w1 := main_iteration now (Decoded (JObj req)) w) in *.
  unfold on_exception. cbn [request_id write_stderr]. rewrite Hid, Hnn.
  split; [reflexivity|]. split; [reflexivity|]. split; [reflexivity|].
  intros Hnone. cbn. unfold step. rewrite Ha.
  rewrite non_object_line by assumption. unfold on_exception.
  cbn [request_id write_stderr]. rewrite Hnone. reflexivity.
Qed.

Lemma non_object_line_is_answered_with_last_id_witness :
  stdout (run [Input t0 (Decoded (JObj status_request)); Input t0 (Decoded (JArr []))] boot)
  = stdout (run [Input t0 (Decoded (JObj status_request))] boot)
    ++ [internal_error (JNum 7) (no_attribute_get (JArr []))]
  /\ stdout (run [Input t0 (Decoded (JArr []))] boot) = stdout boot.
Proof.
  destruct (non_object_line_is_answered_with_last_id t0 t0 status_request (JNum 7)
              (JArr []) boot eq_refl eq_refl eq_refl I) as (H1 & _ & _ & H2).
  split; [exact H1|exact (H2 eq_refl)].
Defined.

(** X5.  A [start] request whose [params] is not an object is answered
    with an Internal-error Response that carries its own id; the timer
    is not started and no worker is created. *)
Theorem start_with_bad_params (now : string) (req : list (string * json))
    (i p : json) (w : world) :
  dict_get "method" req = Some (JStr "start") ->
  dict_get "params" req = Some p ->
  not_object p ->
  dict_get "id" req = Some i ->
  is_not_None i = true ->
  stdout (main_iteration now (Decoded (JObj req)) w)
  = stdout w ++ [internal_error i (no_attribute_get p)]
  /\ timer (main_iteration now (Decoded (JObj req)) w) = timer w
  /\ threads (main_iteration now (Decoded (JObj req)) w) = threads w.
Proof.
  intros Hm Hp Hno Hi Hnn. unfold main_iteration, dispatch.
  rewrite Hm, Hp, Hi. cbn [from_option id].
  change (eq_str (JStr "start") "start") with true. cbv iota.
  destruct p; try (unfold on_exception; cbn; rewrite ?Hnn; repeat split; fail).
  destruct Hno.
Qed.

Lemma start_with_bad_params_witness :
  stdout (main_iteration t0 (Decoded (JObj start_with_number_as_params)) boot)
  = stdout boot ++ [internal_error (JNum 8) (no_attribute_get (JNum 5))]
  /\ timer (main_iteration t0 (Decoded (JObj start_with_number_as_params)) boot)
     = timer boot.
Proof.
  destruct (start_with_bad_params t0 start_with_number_as_params (JNum 8) (JNum 5) boot
              eq_refl eq_refl I eq_refl eq_refl) as (H1 & H2 & _).
  split; [exact H1|exact H2].
Defined.

(** ** [start] after [pause] *)

(** X6.  The timer has no resume: [pause] reports the seconds left, and a
    [start] without a duration that follows it begins again from the full
    duration. *)
Theorem pause_then_start_restarts (now : string) (d : json) (w : world) :
  is_running (timer w) = true ->
  truthy d = false ->
  fst (pause_timer w) = JObj [("success", JBool true); ("remaining", remaining (timer w))]
  /\ fst (start_timer now d (snd (pause_timer w)))
     = JObj [("success", JBool true); ("remaining", duration (timer w))]
  /\ remaining (timer (snd (start_timer now d (snd (pause_timer w)))))
     = duration (timer w).
Proof.
  intros Hr Hd. unfold pause_timer. rewrite Hr. cbn [negb fst snd].
  unfold start_timer. cbn. rewrite Hd. repeat split.
Qed.

Lemma pause_then_start_restarts_witness :
  fst (pause_timer ticking) = JObj [("success", JBool true); ("remaining", JNum 4)]
  /\ fst (start_timer t0 JNull (snd (pause_timer ticking)))
     = JObj [("success", JBool true); ("remaining", JNum 5)].
Proof.
  destruct (pause_then_start_restarts t0 JNull ticking eq_refl eq_refl) as (H1 & H2 & _).
  split; [exact H1|exact H2].
Defined.

(** ** Durations the worker cannot count down *)





(** ** A second worker *)

Lemma wake_sleeping (tid : nat) (n : Z) (ne : option string) (w : world) :
  alive w = true ->
  is_running (timer w) = true ->
  remaining (timer w) = JNum n ->
  1 < n ->
  threads w !! tid = Some Sleeping ->
  step (Wake tid ne) w
  = mkWorld (mkTimer (duration (timer w)) (JNum (n - 1)) true
                     (timer_thread (timer w)) (start_time (timer w)))
            (threads w)
            (stdout w ++ [tick_frame (duration (timer w)) (n - 1)])
            (stderr w) (request_id w) true.
Proof.
  intros Ha Hr Hrem Hn Hth.
  unfold step. rewrite Ha. unfold timer_loop. rewrite Hth.
  unfold timer_loop_body. rewrite Hrem. cbn [as_int].
  destruct (n - 1 <=? 0) eqn:Hle; [apply Z.leb_le in Hle; lia|].
  unfold timer_loop_enter, loop_cond. cbn. rewrite Hr. cbn.
  destruct (0 <? n - 1) eqn:Hlt; [|apply Z.ltb_ge in Hlt; lia].
  unfold set_thread, set_threads. cbn.
  rewrite list_insert_id by assumption. f_equal. exact Ha.
Qed.

Lemma wake_fresh (tid : nat) (n : Z) (ne : option string) (w : world) :
  alive w = true ->
  is_running (timer w) = true ->
  remaining (timer w) = JNum n ->
  0 < n ->
  threads w !! tid = Some Fresh ->
  step (Wake tid ne) w = set_thread tid Sleeping w.
Proof.
  intros Ha Hr Hrem Hn Hth.
  unfold step. rewrite Ha. unfold timer_loop. rewrite Hth.
  unfold timer_loop_enter, loop_cond. rewrite Hr, Hrem. cbn [as_int].
  destruct (0 <? n) eqn:Hlt; [|apply Z.ltb_ge in Hlt; lia]. reflexivity.
Qed.

(** X8.  [pause] followed by [start] while the worker of the first run is
    still inside its sleep leaves two workers in the loop: the old one
    sees the flag up again when it wakes.  Both decrement [remaining], so
    the new countdown loses two seconds per second. *)
Theorem restart_during_sleep_doubles_the_workers (now : string) (tid : nat) (d : Z)
    (ne1 ne2 ne3 : option string) (w : world) :
  alive w = true ->
  is_running (timer w) = true ->
  threads w !! tid = Some Sleeping ->
  2 < d ->
  fst (start_timer now (JNum d) (snd (pause_timer w)))
  = JObj [("success", JBool true); ("remaining", JNum d)]
  /\ stdout (run (wakes [(tid, ne1); (length (threads w), ne2); (length (threads w), ne3)])
               (restarted now d w))
     = stdout w ++ [tick_frame (JNum d) (d - 1); tick_frame (JNum d) (d - 2)]
  /\ threads (run (wakes [(tid, ne1); (length (threads w), ne2);
                          (length (threads w), ne3)])
                (restarted now d w)) !! tid = Some Sleeping
  /\ threads (run (wakes [(tid, ne1); (length (threads w), ne2);
                          (length (threads w), ne3)])
                (restarted now d w)) !! length (threads w) = Some Sleeping
  /\ tid <> length (threads w).
Proof.
  intros Ha Hr Hth Hd. unfold restarted.
  set (w1 := snd (start_timer now (JNum d) (snd (pause_timer w)))).
  set (new := length (threads w)).
  assert (Hlt : (tid < length (threads w))%nat) by (eapply lookup_lt_Some; eassumption).
  assert (Hw1 : w1 = mkWorld (mkTimer (JNum d) (JNum d) true (Some new) (Some now))
                             (threads w ++ [Fresh]) (stdout w) (stderr w)
                             (request_id w) true).
  { subst w1. unfold pause_timer. rewrite Hr. cbn [negb snd].
    unfold start_timer. cbn. destruct (d =? 0) eqn:H0; [apply Z.eqb_eq in H0; lia|].
    unfold set_threads, set_timer. cbn. f_equal. exact Ha. }
  split.
  { unfold pause_timer. rewrite Hr. cbn [negb snd]. unfold start_timer. cbn.
    destruct (d =? 0) eqn:H0; [apply Z.eqb_eq in H0; lia|]. reflexivity. }
  change (run (wakes [(tid, ne1); (new, ne2); (new, ne3)]) w1)
    with (step (Wake new ne3) (step (Wake new ne2) (step (Wake tid ne1) w1))).
  rewrite Hw1.
  rewrite (wake_sleeping tid d ne1); try reflexivity; try lia;
    [|cbn; rewrite lookup_app_l by assumption; assumption].
  cbn [timer duration timer_thread start_time threads stdout stderr request_id].
  rewrite (wake_fresh new (d - 1) ne2); try reflexivity; try lia;
    [|cbn; apply list_lookup_middle; reflexivity].
  unfold set_thread, set_threads.
  cbn [timer duration timer_thread start_time threads stdout stderr request_id alive].
  assert (Hins : <[new := Sleeping]> (threads w ++ [Fresh]) = threads w ++ [Sleeping]).
  { subst new. rewrite insert_app_r_alt by lia. rewrite Nat.sub_diag. reflexivity. }
  rewrite Hins.
  rewrite (wake_sleeping new (d - 1) ne3); try reflexivity; try lia;
    [|cbn; apply list_lookup_middle; reflexivity].
  cbn [timer duration timer_thread start_time threads stdout stderr request_id].
  replace (d - 1 - 1) with (d - 2) by lia. rewrite <- app_assoc.
  split; [reflexivity|]. split; [|split].
  - rewrite lookup_app_l by assumption. assumption.
  - apply list_lookup_middle. reflexivity.
  - subst new. lia.
Qed.

Lemma restart_during_sleep_doubles_the_workers_witness :
  stdout (run (wakes [(0%nat, None); (length (threads started), None);
                      (length (threads started), None)])
            (restarted t0 10 started))
  = stdout started ++ [tick_frame (JNum 10) (10 - 1); tick_frame (JNum 10) (10 - 2)].
Proof.
  assert (Hd : 2 < 10) by lia.
  destruct (restart_during_sleep_doubles_the_workers t0 0%nat 10 None None None started
              eq_refl eq_refl eq_refl Hd) as (_ & H & _).
  exact H.
Defined.

(** ** [reset] while the worker sleeps *)

(** X26.  A [reset] that arrives while the worker is inside its sleep is
    answered with the full duration, but the worker still takes its
    second when it wakes: a tick follows the reset event, and the timer
    comes to rest one second short of the duration it was reset to. *)
Theorem reset_is_followed_by_a_tick (tid : nat) (d : Z) (ne : option string) (w : world) :
  alive w = true ->
  duration (timer w) = JNum d ->
  1 < d ->
  threads w !! tid = Some Sleeping ->
  fst (reset_timer w) = JObj [("success", JBool true); ("remaining", JNum d)]
  /\ stdout (step (Wake tid ne) (snd (reset_timer w)))
     = stdout w ++ [reset_frame (JNum d); tick_frame (JNum d) (d - 1)]
  /\ remaining (timer (step (Wake tid ne) (snd (reset_timer w)))) = JNum (d - 1)
  /\ is_running (timer (step (Wake tid ne) (snd (reset_timer w)))) = false
  /\ threads (step (Wake tid ne) (snd (reset_timer w))) !! tid = Some Finished.
Proof.
  intros Ha Hd Hlt Hth.
  assert (Hl : (tid < length (threads w))%nat) by (eapply lookup_lt_Some; eassumption).
  unfold reset_timer. cbn [fst snd remaining]. rewrite Hd.
  split; [reflexivity|].
  unfold step. cbn [alive send write_stdout set_timer]. rewrite Ha.
  unfold timer_loop. cbn [threads send write_stdout set_timer]. rewrite Hth.
  unfold timer_loop_body. cbn [timer remaining as_int send write_stdout set_timer].
  destruct (d - 1 <=? 0) eqn:Hle; [apply Z.leb_le in Hle; lia|].
  unfold timer_loop_enter, loop_cond. cbn. rewrite <- app_assoc.
  split; [reflexivity|]. split; [reflexivity|]. split; [reflexivity|].
  apply list_lookup_insert_eq. exact Hl.
Qed.

Lemma reset_is_followed_by_a_tick_witness :
  stdout (step (Wake 0 None) (snd (reset_timer started)))
  = stdout started ++ [reset_frame (JNum 5); tick_frame (JNum 5) (5 - 1)]
  /\ remaining (timer (step (Wake 0 None) (snd (reset_timer started)))) = JNum (5 - 1).
Proof.
  assert (Hd : 1 < 5) by lia.
  destruct (reset_is_followed_by_a_tick 0%nat 5 None started eq_refl eq_refl Hd eq_refl)
    as (_ & H2 & H3 & _).
  split; [exact H2|exact H3].
Defined.

End TimerExtras.

(** * Further properties of the telemetry backend *)

Module MonitorExtras.
Import SystemMonitor.
Import MonitorFacts.

(** ** The worker pool *)

Lemma orderly_send (method : string) (params : list (string * json)) (w : world) :
  orderly w -> orderly (send method params w).
Proof. intros H. exact H. Qed.

Lemma orderly_start (w : world) : orderly w -> orderly (start_monitor w).
Proof.
  intros H. unfold start_monitor.
  destruct (monitoring (monitor w)) eqn:Hm; [exact H|].
  intros j th Hj Hl. cbn in Hj |- *.
  apply lookup_app_Some in Hj as [Hj|[Hge Hj]].
  - destruct (H j th Hj Hl) as [Hc _]. congruence.
  - destruct (j - length (threads w))%nat as [|k] eqn:Hk; [|cbn in Hj; discriminate].
    split; [reflexivity|]. f_equal. lia.
Qed.

Lemma orderly_stop (data : json) (w : world) : orderly w -> orderly (stop_monitor true data w).
Proof.
  intros H. unfold stop_monitor.
  destruct (monitoring (monitor w)) eqn:Hm; cbn [negb]; [|exact H].
  apply orderly_send. cbn [monitor monitor_thread].
  intros j th Hj Hl. exfalso.
  destruct (monitor_thread (monitor w)) as [tid|] eqn:Ht.
  - unfold join in Hj. cbn [threads] in Hj.
    destruct (decide (tid = j)) as [->|Hne].
    + destruct (threads w !! j) as [t0|] eqn:Ht0.
      * assert (Hlt : (j < length (threads w))%nat) by (eapply lookup_lt_Some; eassumption).
        destruct t0; cbn [threads send set_thread] in Hj;
          try (rewrite list_lookup_insert_eq in Hj by assumption);
          try (rewrite Ht0 in Hj);
          injection Hj as <-; discriminate.
      * cbn [threads] in Hj. rewrite Ht0 in Hj. discriminate.
    + assert (Hold : threads w !! j = Some th).
      { destruct (threads w !! tid) as [t0|] eqn:Ht0; [|exact Hj].
        destruct t0; cbn [threads send set_thread] in Hj;
          try (rewrite list_lookup_insert_ne in Hj by assumption); exact Hj. }
      destruct (H j th Hold Hl) as [_ Hc]. congruence.
  - cbn [threads] in Hj. destruct (H j th Hj Hl) as [_ Hc]. congruence.
Qed.

Lemma orderly_step (ev : event) (w : world) : joins ev -> orderly w -> orderly (step ev w).
Proof.
  intros Hj H. destruct ev as [e l|tid data]; cbn [step].
  - cbn in Hj. destruct l as [|err|v]; [exact H|exact H|].
    destruct v; try exact H.
    unfold main_iteration, handle_command.
    repeat (case_match; [try exact H; try (apply orderly_start; exact H);
                         try (rewrite Hj; apply orderly_stop; exact H)|]).
    exact H.
  - unfold monitor_loop.
    destruct (threads w !! tid) as [t0|] eqn:Ht0; [|exact H].
    assert (Hlt : (tid < length (threads w))%nat) by (eapply lookup_lt_Some; eassumption).
    assert (Hset : forall th', (live th' = true -> live t0 = true) ->
                     orderly (set_thread tid th' w)).
    { intros th' Hth' j th Hjth Hl. cbn in Hjth |- *.
      destruct (decide (tid = j)) as [->|Hne].
      - rewrite list_lookup_insert_eq in Hjth by assumption. injection Hjth as <-.
        apply (H j t0 Ht0). auto.
      - rewrite list_lookup_insert_ne in Hjth by assumption. apply (H j th Hjth Hl). }
    destruct t0; try exact H.
    + destruct (monitoring (monitor w)); apply Hset; intros; reflexivity.
    + exact (Hset Sleeping (fun _ => eq_refl)).
    + destruct (monitoring (monitor w)); apply Hset; intros; reflexivity.
Qed.

Lemma orderly_run (es : list event) (w : world) :
  Forall joins es -> orderly w -> orderly (run es w).
Proof.
  intros Hes. revert w. induction Hes as [|ev es Hev Hes IH]; intros w Hw; [exact Hw|].
  change (run (ev :: es) w) with (run es (step ev w)).
  apply IH, orderly_step; assumption.
Qed.

Lemma none_live (l : list thread) :
  (forall j th, l !! j = Some th -> live th = false) ->
  filter (fun th => live th = true) l = [].
Proof.
  induction l as [|x l IH]; intros H; [reflexivity|].
  rewrite filter_cons. pose proof (H 0%nat x eq_refl) as Hx.
  rewrite decide_False by congruence.
  apply IH. intros j th Hj. exact (H (S j) th Hj).
Qed.

Lemma one_live (l : list thread) (t : nat) :
  (forall j th, l !! j = Some th -> live th = true -> j = t) ->
  (length (filter (fun th => live th = true) l) <= 1)%nat.
Proof.
  revert t. induction l as [|x l IH]; intros t H; [cbn; lia|].
  rewrite filter_cons. destruct (live x) eqn:Hx.
  - rewrite decide_True by reflexivity.
    pose proof (H 0%nat x eq_refl Hx) as H0.
    rewrite none_live; [cbn; lia|].
    intros j th Hj. destruct (live th) eqn:Hl; [|reflexivity].
    pose proof (H (S j) th Hj Hl). lia.
  - rewrite decide_False by congruence.
    apply (IH (pred t)). intros j th Hj Hl.
    pose proof (H (S j) th Hj Hl). lia.
Qed.

(** X9.  As long as every join of [stop_monitor] ends within its
    timeout, at most one worker is inside [monitor_loop], whatever
    commands arrive and however the worker is scheduled; and while
    [monitoring] is down every worker has left its loop. *)
Theorem monitor_has_one_worker (es : list event) :
  Forall joins es ->
  (live_workers (run es boot) <= 1)%nat
  /\ (monitoring (monitor (run es boot)) = false ->
      Forall (fun th => th = Finished) (threads (run es boot))).
Proof.
  intros Hes.
  assert (Hord : orderly (run es boot)).
  { apply orderly_run; [exact Hes|]. intros j th Hj. cbn in Hj. discriminate. }
  split.
  - unfold live_workers.
    destruct (monitor_thread (monitor (run es boot))) as [t|] eqn:Ht.
    + apply (one_live _ t). intros j th Hj Hl.
      destruct (Hord j th Hj Hl) as [_ E]. congruence.
    + rewrite none_live; [cbn; lia|].
      intros j th Hj. destruct (live th) eqn:Hl; [|reflexivity].
      destruct (Hord j th Hj Hl) as [_ E]. congruence.
  - intros Hm. apply Forall_lookup. intros j th Hj.
    destruct th; try reflexivity;
      destruct (Hord j _ Hj eq_refl) as [Hc _]; congruence.
Qed.

Lemma monitor_has_one_worker_witness :
  (live_workers (run start_stop_start boot) <= 1)%nat.
Proof.
  assert (H : Forall joins start_stop_start)
    by (repeat constructor).
  exact (proj1 (monitor_has_one_worker start_stop_start H)).
Defined.

(** ** The frames on standard output *)

Lemma main_iteration_answers (e : env) (l : line) (w : world) :
  exists fs,
    stdout (main_iteration e l w) = stdout w ++ fs
    /\ only_notifications fs
    /\ (l = Blank -> fs = [])
    /\ (l <> Blank -> (1 <= length fs <= 2)%nat).
Proof.
  destruct l as [|err|v].
  - exists []. cbn. rewrite app_nil_r. split; [reflexivity|]. split; [constructor|].
    split; [reflexivity|congruence].
  - eexists. split; [reflexivity|]. split; [repeat constructor|].
    split; [discriminate|cbn; lia].
  - assert (G : exists fs, stdout (main_iteration e (Decoded v) w) = stdout w ++ fs
                /\ only_notifications fs /\ (1 <= length fs <= 2)%nat).
    { unfold main_iteration, handle_command, start_monitor, stop_monitor, join.
      repeat first [ progress MonitorFacts.fields | case_match | progress simplify_eq ];
        unfold send; MonitorFacts.fields; rewrite <- ?app_assoc; cbn [app];
        (eexists; split; [reflexivity|]; split; [repeat constructor|cbn; lia]). }
    destruct G as (fs & H1 & H2 & H3). exists fs.
    repeat split; try assumption; try discriminate; lia.
Qed.

Lemma step_notifies (ev : event) (w : world) :
  exists fs, stdout (step ev w) = stdout w ++ fs /\ only_notifications fs.
Proof.
  destruct ev as [e l|tid data]; cbn [step].
  - destruct (main_iteration_answers e l w) as (fs & H1 & H2 & _). eauto.
  - unfold monitor_loop.
    repeat first [ progress MonitorFacts.fields | case_match | progress simplify_eq ];
      unfold send; MonitorFacts.fields;
      first [ (exists []; rewrite app_nil_r; split; [reflexivity|constructor])
            | (eexists; split; [reflexivity|]; repeat constructor) ].
Qed.

(** X10.  The telemetry backend never writes a Response: every frame on
    standard output is a Notification, whatever arrives, also when a
    command carries an [id]. *)
Theorem monitor_writes_only_notifications (es : list event) :
  only_notifications (stdout (run es boot)).
Proof.
  assert (G : forall w, only_notifications (stdout w) -> only_notifications (stdout (run es w))).
  { induction es as [|ev es IH]; intros w Hw; [exact Hw|].
    change (run (ev :: es) w) with (run es (step ev w)). apply IH.
    destruct (step_notifies ev w) as (fs & -> & Hfs). apply Forall_app. split; assumption. }
  apply G. repeat constructor.
Qed.

(** X11.  A blank line writes nothing.  Every other line, decodable or
    not, a known command or not, is answered at once with one
    Notification, or with two when a [stop_monitor] makes the worker send
    the sample it was collecting. *)
Theorem every_line_is_answered (e : env) (l : line) (w : world) :
  exists fs,
    stdout (main_iteration e l w) = stdout w ++ fs
    /\ only_notifications fs
    /\ match l with
       | Blank => fs = []
       | _ => (1 <= length fs <= 2)%nat
       end.
Proof.
  destruct (main_iteration_answers e l w) as (fs & H1 & H2 & H3 & H4).
  exists fs. split; [exact H1|]. split; [exact H2|].
  destruct l; [apply H3; reflexivity|apply H4; discriminate|apply H4; discriminate].
Qed.

(** ** The process list *)

Lemma insert_reverse_perm {A : Type} (key : A -> Q) (x : A) (l : list A) :
  insert_reverse key x l ≡ₚ x :: l.
Proof.
  induction l as [|y l IH]; [reflexivity|]. cbn.
  destruct (Qle_bool (key y) (key x)); [reflexivity|].
  rewrite IH. apply Permutation_swap.
Qed.

Lemma sort_reverse_perm {A : Type} (key : A -> Q) (l : list A) :
  sort_reverse key l ≡ₚ l.
Proof.
  induction l as [|x l IH]; [reflexivity|]. cbn.
  rewrite insert_reverse_perm. fold (sort_reverse key l). rewrite IH. reflexivity.
Qed.

Lemma insert_reverse_sorted {A : Type} (key : A -> Q) (x : A) (l : list A) :
  StronglySorted (desc key) l -> StronglySorted (desc key) (insert_reverse key x l).
Proof.
  induction 1 as [|y l Hl IH Hy]; cbn.
  - repeat constructor.
  - destruct (Qle_bool (key y) (key x)) eqn:E.
    + apply Qle_bool_iff in E. constructor; [constructor; assumption|].
      constructor; [exact E|].
      eapply Forall_impl; [exact Hy|]. intros z Hz. unfold desc in *.
      eapply Qle_trans; eassumption.
    + assert (Hlt : (key x <= key y)%Q).
      { destruct (Qlt_le_dec (key x) (key y)) as [H|H]; [apply Qlt_le_weak, H|].
        apply Qle_bool_iff in H. congruence. }
      constructor; [exact IH|].
      rewrite insert_reverse_perm. constructor; assumption.
Qed.

Lemma sort_reverse_sorted {A : Type} (key : A -> Q) (l : list A) :
  StronglySorted (desc key) (sort_reverse key l).
Proof.
  induction l as [|x l IH]; [constructor|]. cbn. apply insert_reverse_sorted, IH.
Qed.

(** Equal keys keep their order: a list that is already ranked is left
    as it is. *)
Lemma sort_reverse_stable {A : Type} (key : A -> Q) (l : list A) :
  StronglySorted (desc key) l -> sort_reverse key l = l.
Proof.
  induction 1 as [|x l Hl IH Hx]; [reflexivity|]. cbn.
  fold (sort_reverse key l). rewrite IH.
  destruct l as [|y l']; [reflexivity|]. cbn.
  apply Forall_cons in Hx as [Hy _]. unfold desc in Hy.
  apply Qle_bool_iff in Hy. rewrite Hy. reflexivity.
Qed.

Lemma slice_to_prefix {A : Type} (limit : json) (l rows : list A) :
  slice_to limit l = Some rows ->
  rows = take (taken limit (length l)) l.
Proof.
  destruct limit as [|b|n|s|xs|kv]; cbn; intros H; try discriminate;
    injection H as <-.
  - rewrite firstn_all. reflexivity.
  - rewrite <- take_take. rewrite firstn_all. reflexivity.
  - destruct (0 <=? n); [|reflexivity].
    rewrite <- take_take. rewrite firstn_all. reflexivity.
Qed.

(** X12.  When [get_processes] returns a list, the list is made of
    processes that could be read, each at most as often as it was
    iterated, a missing percentage counting as 0.  Its length follows
    Python's slice: [limit] entries, all of them for [None], and all but
    the last [-limit] for a negative limit.  With [sort_by] "cpu" or
    "memory" the list is in descending order of that percentage and no
    process left out has a higher percentage than one returned; with any
    other [sort_by] it is a prefix of the iteration order. *)
Theorem get_processes_ranks (sort_by limit : json)
    (procs : list (option (proc (option Q)))) (rows : list (proc Q)) :
  get_processes sort_by limit procs = inl rows ->
  exists rest,
    rows ++ rest ≡ₚ collect procs
    /\ length rows = taken limit (length (collect procs))
    /\ match ranking sort_by with
       | Some key =>
           StronglySorted (desc key) rows
           /\ Forall (fun r => Forall (fun o => (key o <= key r)%Q) rest) rows
       | None => rows ++ rest = collect procs
       end.
Proof.
  unfold get_processes, ranking. intros H.
  set (ps := if eq_str sort_by "cpu" then sort_reverse cpu_percent (collect procs)
             else if eq_str sort_by "memory" then sort_reverse memory_percent (collect procs)
             else collect procs) in *.
  destruct (slice_to limit ps) as [l|] eqn:Hs; [|discriminate]. injection H as ->.
  apply slice_to_prefix in Hs.
  assert (Hlen : length ps = length (collect procs)).
  { subst ps. destruct (eq_str sort_by "cpu"); [|destruct (eq_str sort_by "memory")];
      rewrite ?(Permutation_length (sort_reverse_perm _ _)); reflexivity. }
  exists (drop (taken limit (length ps)) ps).
  assert (Happ : rows ++ drop (taken limit (length ps)) ps = ps)
    by (rewrite Hs; apply take_drop).
  assert (Hrows : length rows = taken limit (length ps)).
  { rewrite Hs, length_take. apply Nat.min_l.
    destruct limit as [|b|n|s|xs|kv]; cbn; try lia. destruct (0 <=? n) eqn:E; [lia|].
    apply Z.leb_gt in E. lia. }
  rewrite Happ, Hrows, Hlen. clear Hs Hrows.
  assert (G : forall key, ps = sort_reverse key (collect procs) ->
              ps ≡ₚ collect procs
              /\ StronglySorted (desc key) rows
              /\ Forall (fun r => Forall (fun o => (key o <= key r)%Q)
                                    (drop (taken limit (length (collect procs))) ps)) rows).
  { intros key E. split; [rewrite E; apply sort_reverse_perm|].
    pose proof (sort_reverse_sorted key (collect procs)) as Hsorted.
    rewrite <- E, <- Happ in Hsorted. rewrite Hlen in Hsorted.
    split; [eapply StronglySorted_app_1_l; exact Hsorted|].
    apply Forall_forall. intros r Hr. apply Forall_forall. intros o Ho.
    eapply (StronglySorted_app_1_elem_of (desc key)); eassumption. }
  subst ps. destruct (eq_str sort_by "cpu").
  - destruct (G cpu_percent eq_refl) as (G1 & G2 & G3). repeat split; assumption.
  - destruct (eq_str sort_by "memory").
    + destruct (G memory_percent eq_refl) as (G1 & G2 & G3). repeat split; assumption.
    + repeat split; reflexivity.
Qed.

Lemma get_processes_ranks_witness :
  exists rest,
    top_two ++ rest ≡ₚ collect three_processes
    /\ StronglySorted (desc cpu_percent) top_two.
Proof.
  destruct (get_processes_ranks (JStr "cpu") (JNum 2) three_processes top_two eq_refl)
    as (rest & H1 & _ & H3 & _).
  exists rest. split; [exact H1|exact H3].
Defined.

End MonitorExtras.

(** * Further properties of the inspection-service backend *)

Module ServerExtras.
Import UiAutoDev.
Import ServerFacts.

(** ** Counting calls *)

Lemma connects_app (a b : list effect) : connects (a ++ b) = (connects a + connects b)%nat.
Proof. unfold connects. rewrite filter_app, length_app. reflexivity. Qed.

Lemma stop_calls_app (a b : list effect) :
  stop_calls (a ++ b) = (stop_calls a + stop_calls b)%nat.
Proof. unfold stop_calls. rewrite filter_app, length_app. reflexivity. Qed.

Lemma probe_only_counts (tr : list effect) :
  Forall probe_only tr -> spawns tr = 0%nat /\ stop_calls tr = 0%nat /\ frames tr = [].
Proof.
  induction 1 as [|x tr Hx _ IH]; [repeat split|].
  destruct IH as (I1 & I2 & I3).
  change (x :: tr) with ([x] ++ tr).
  rewrite spawns_app, stop_calls_app. unfold frames in *. rewrite omap_app, I1, I2, I3.
  destruct x; try destruct Hx; repeat split.
Qed.

Lemma stop_calls_perform (x : effect) (w : world) :
  is_stop_call x = false -> stop_calls (trace (perform x w)) = stop_calls (trace w).
Proof.
  intros Hx. cbn [perform trace]. rewrite stop_calls_app.
  unfold stop_calls at 2. rewrite filter_cons, decide_False by congruence. cbn. lia.
Qed.

Lemma frames_perform (x : effect) (w : world) :
  frames (trace (perform x w))
  = frames (trace w) ++ match x with Write m => [m] | _ => [] end.
Proof.
  cbn [perform trace]. unfold frames. rewrite omap_app. destruct x; reflexivity.
Qed.

Lemma spawns_popen (w : world) :
  spawns (trace (perform Popen w)) = S (spawns (trace w)).
Proof.
  cbn [perform trace]. rewrite spawns_app.
  replace (spawns [Popen]) with 1%nat by reflexivity. lia.
Qed.

Ltac count_calls :=
  cbn [fst snd]; unfold log, emit, write_message;
  repeat first [ rewrite stop_calls_perform by reflexivity
               | rewrite spawns_perform by reflexivity
               | rewrite spawns_popen
               | progress cbn [set_server_process trace] ].

(** ** [wait_for_server] *)

Lemma wait_for_server_result (ps : list poll) (w : world) :
  fst (wait_for_server ps w) = existsb ready_poll ps.
Proof.
  revert w. induction ps as [|p ps IH]; intros w; [reflexivity|].
  cbn [wait_for_server is_port_in_use existsb]. unfold ready_poll at 1.
  destruct (connect_rc p =? 0); cbn [andb orb]; [|apply IH].
  destruct (info_status p) as [st|]; [destruct (st =? 200)|]; cbn [orb];
    [reflexivity|apply IH|apply IH].
Qed.

Lemma wait_for_server_trace (ps : list poll) (w : world) :
  server_process (snd (wait_for_server ps w)) = server_process w
  /\ alive (snd (wait_for_server ps w)) = alive w
  /\ exists tr,
       trace (snd (wait_for_server ps w)) = trace w ++ tr
       /\ Forall probe_only tr
       /\ (Nat.min 1 (length ps) <= connects tr <= length ps)%nat
       /\ (fst (wait_for_server ps w) = false -> connects tr = length ps).
Proof.
  revert w. induction ps as [|p ps IH]; intros w.
  - cbn. split; [reflexivity|]. split; [reflexivity|].
    exists []. rewrite app_nil_r. split; [reflexivity|]. split; [constructor|].
    split; [cbn; lia|]. intros _. reflexivity.
  - assert (Hrec : forall pre : list effect,
               Forall probe_only pre -> connects pre = 1%nat ->
               let W := mkWorld (server_process w) (trace w ++ pre) (alive w) in
               server_process (snd (wait_for_server ps W)) = server_process w
               /\ alive (snd (wait_for_server ps W)) = alive w
               /\ exists tr,
                    trace (snd (wait_for_server ps W)) = trace w ++ tr
                    /\ Forall probe_only tr
                    /\ (1 <= connects tr <= S (length ps))%nat
                    /\ (fst (wait_for_server ps W) = false -> connects tr = S (length ps))).
    { intros pre Hpre Hc W. destruct (IH W) as (E2 & E3 & tr & E4 & E5 & E6 & E7).
      split; [exact E2|]. split; [exact E3|].
      exists (pre ++ tr). subst W. cbn [trace] in E4. rewrite E4, <- app_assoc.
      split; [reflexivity|]. split; [apply Forall_app; split; assumption|].
      rewrite connects_app, Hc. split; [lia|]. intros H. rewrite (E7 H). lia. }
    cbn [wait_for_server is_port_in_use length]. rewrite Nat.min_l by lia.
    destruct (connect_rc p =? 0).
    + destruct (info_status p) as [st|]; [destruct (st =? 200)|].
      * cbn [fst snd]. split; [reflexivity|]. split; [reflexivity|].
        eexists. split; [unfold perform; cbn [trace]; rewrite <- ?app_assoc; reflexivity|].
        split; [repeat constructor|].
        split; [replace (connects _) with 1%nat by reflexivity; lia|]. discriminate.
      * unfold perform. cbn [server_process trace alive]. rewrite <- !app_assoc.
        apply (Hrec [_; _; _]); [repeat constructor|reflexivity].
      * unfold perform. cbn [server_process trace alive]. rewrite <- !app_assoc.
        apply (Hrec [_; _; _]); [repeat constructor|reflexivity].
    + unfold perform. cbn [server_process trace alive]. rewrite <- !app_assoc.
      apply (Hrec [_; _]); [repeat constructor|reflexivity].
Qed.

(** X13.  [wait_for_server] returns [True] exactly when one of the
    rounds that fit in the timeout finds the port answering and
    [/api/info] returning 200; an answering port alone is not enough.  It
    only probes: it writes no frame, starts and stops no child and leaves
    the child handle alone; it probes the port once per round, and in
    every round when it gives up. *)
Theorem wait_for_server_only_probes (ps : list poll) (w : world) :
  fst (wait_for_server ps w) = existsb ready_poll ps
  /\ server_process (snd (wait_for_server ps w)) = server_process w
  /\ stdout (snd (wait_for_server ps w)) = stdout w
  /\ spawns (trace (snd (wait_for_server ps w))) = spawns (trace w)
  /\ stop_calls (trace (snd (wait_for_server ps w))) = stop_calls (trace w)
  /\ exists tr,
       trace (snd (wait_for_server ps w)) = trace w ++ tr
       /\ if existsb ready_poll ps then (1 <= connects tr <= length ps)%nat
          else connects tr = length ps.
Proof.
  pose proof (wait_for_server_result ps w) as Hres.
  destruct (wait_for_server_trace ps w) as (Hsp & _ & tr & Htr & Hpo & Hle & Hall).
  destruct (probe_only_counts tr Hpo) as (Hs0 & Hk0 & Hf0).
  split; [exact Hres|]. split; [exact Hsp|].
  unfold stdout. rewrite Htr. unfold frames in *. rewrite omap_app, Hf0, app_nil_r.
  split; [reflexivity|]. rewrite spawns_app, stop_calls_app, Hs0, Hk0.
  split; [lia|]. split; [lia|]. exists tr. split; [reflexivity|].
  rewrite <- Hres. destruct (fst (wait_for_server ps w)) eqn:Hok; [|apply Hall; reflexivity].
  destruct ps as [|p ps']; [discriminate Hok|]. cbn [length] in *. lia.
Qed.

(** ** [start_uiautodev_server] *)

Lemma start_fields (e : start_env) (w : world) :
  fst (start_uiautodev_server e w) = start_succeeds e
  /\ server_process (snd (start_uiautodev_server e w))
     = (if probe_rc e =? 0 then server_process w
        else match spawned e with
             | Some pid => Some pid
             | None => server_process w
             end)
  /\ stop_calls (trace (snd (start_uiautodev_server e w))) = stop_calls (trace w)
  /\ (spawns (trace (snd (start_uiautodev_server e w))) <= spawns (trace w) + 1)%nat
  /\ alive (snd (start_uiautodev_server e w)) = alive w.
Proof.
  unfold start_uiautodev_server, is_port_in_use, start_succeeds, spawned.
  destruct (probe_rc e =? 0); cbn [orb].
  { count_calls. repeat split; lia. }
  destruct (mkdir_exc e) as [t|]; cbn [optb andb].
  { count_calls. repeat split; lia. }
  destruct (popen e) as [t|pid]; cbn [optb andb].
  { count_calls. repeat split; lia. }
  match goal with |- context [wait_for_server ?ps ?W] =>
    pose proof (wait_for_server_result ps W) as Hres;
    destruct (wait_for_server_trace ps W) as (Hsp & Hal & tr & Htr & Hpo & _);
    destruct (wait_for_server ps W) as [ok w6]
  end.
  cbn [fst snd] in *. subst ok.
  destruct (probe_only_counts tr Hpo) as (Hs0 & Hk0 & _).
  assert (Hgoal : forall lv m,
             server_process (log lv m w6) = Some pid
             /\ stop_calls (trace (log lv m w6)) = stop_calls (trace w)
             /\ (spawns (trace (log lv m w6)) <= spawns (trace w) + 1)%nat
             /\ alive (log lv m w6) = alive w).
  { intros lv m. unfold log, emit, write_message.
    rewrite stop_calls_perform, spawns_perform by reflexivity.
    cbn [perform server_process alive]. rewrite Hsp, Hal, Htr.
    rewrite stop_calls_app, spawns_app, Hs0, Hk0.
    split; [reflexivity|]. count_calls. repeat split; lia. }
  destruct (existsb ready_poll (polls e)); cbn [fst snd];
    (split; [reflexivity|]); apply Hgoal.
Qed.

(** X14.  [start_uiautodev_server] returns [True] exactly when the port
    answers the first probe, or a child could be created and became ready
    within the timeout.  It starts at most one child and never stops one;
    the child handle changes only when a child is created, and then it is
    that child, ready or not. *)
Theorem start_outcome (e : start_env) (w : world) :
  fst (start_uiautodev_server e w) = start_succeeds e
  /\ server_process (snd (start_uiautodev_server e w))
     = (if probe_rc e =? 0 then server_process w
        else match spawned e with
             | Some pid => Some pid
             | None => server_process w
             end)
  /\ stop_calls (trace (snd (start_uiautodev_server e w))) = stop_calls (trace w)
  /\ (spawns (trace (snd (start_uiautodev_server e w))) <= spawns (trace w) + 1)%nat
  /\ alive (snd (start_uiautodev_server e w)) = alive w.
Proof. exact (start_fields e w). Qed.

(** X15.  When the child does not become ready within the timeout, the
    start reports failure and its last frame is the timeout log; the
    child is neither terminated nor killed and stays the owned child. *)
Theorem start_timeout_keeps_child (e : start_env) (pid : nat) (w : world) :
  (probe_rc e =? 0) = false ->
  spawned e = Some pid ->
  existsb ready_poll (polls e) = false ->
  fst (start_uiautodev_server e w) = false
  /\ server_process (snd (start_uiautodev_server e w)) = Some pid
  /\ stop_calls (trace (snd (start_uiautodev_server e w))) = stop_calls (trace w)
  /\ last (stdout (snd (start_uiautodev_server e w))) = Some timeout_log.
Proof.
  intros Hp Hs He.
  destruct (start_fields e w) as (H1 & H2 & H3 & _).
  unfold start_succeeds in H1. rewrite Hp, Hs, He in *. cbn in H1.
  split; [exact H1|]. split; [exact H2|]. split; [exact H3|].
  unfold start_uiautodev_server, is_port_in_use. rewrite Hp.
  unfold spawned in Hs.
  destruct (mkdir_exc e); [discriminate|]. destruct (popen e) as [t|p]; [discriminate|].
  match goal with |- context [wait_for_server ?ps ?W] =>
    pose proof (wait_for_server_result ps W) as Hres;
    destruct (wait_for_server ps W) as [ok w6]
  end.
  cbn [fst] in Hres. rewrite He in Hres. subst ok. cbn [snd].
  unfold stdout, log, emit, write_message. rewrite frames_perform. apply last_snoc.
Qed.

Lemma start_timeout_keeps_child_witness :
  fst (start_uiautodev_server never_ready owning) = false
  /\ server_process (snd (start_uiautodev_server never_ready owning)) = Some 4243%nat
  /\ last (stdout (snd (start_uiautodev_server never_ready owning))) = Some timeout_log.
Proof.
  destruct (start_timeout_keeps_child never_ready 4243%nat owning eq_refl eq_refl eq_refl)
    as (H1 & H2 & _ & H4).
  split; [exact H1|]. split; [exact H2|exact H4].
Defined.

(** ** [stop_uiautodev_server] *)

Lemma stop_writes_nothing (e : stop_env) (w : world) :
  stdout (snd (stop_uiautodev_server e w)) = stdout w.
Proof.
  unfold stdout, stop_uiautodev_server, terminate_and_wait.
  destruct (server_process w) as [pid|];
    [destruct (terminate_exc e) as [[|t]|], (wait_exc e) as [[|t']|],
              (kill_exc e) as [x|]|];
    cbn [snd];
    repeat first [ rewrite frames_perform
                 | progress change (trace (set_server_process ?p ?W)) with (trace W) ];
    cbn [app]; rewrite ?app_nil_r; reflexivity.
Qed.

Lemma stop_clears_child (e : stop_env) (w : world) :
  fst (stop_uiautodev_server e w) = None ->
  server_process (snd (stop_uiautodev_server e w)) = None
  /\ alive (snd (stop_uiautodev_server e w)) = alive w.
Proof.
  unfold stop_uiautodev_server, terminate_and_wait.
  destruct (server_process w) as [pid|] eqn:Hp;
    [destruct (terminate_exc e) as [[|t]|], (wait_exc e) as [[|t']|],
              (kill_exc e) as [x|]|];
    cbn; intros H; try discriminate; split; try reflexivity; assumption.
Qed.

(** X16.  A [stop_uiautodev_server] that returns leaves no owned child
    and has written no frame; a second stop then terminates nothing: it
    only repeats the shutdown call. *)
Theorem stop_is_idempotent (e1 e2 : stop_env) (w : world) :
  fst (stop_uiautodev_server e1 w) = None ->
  server_process (snd (stop_uiautodev_server e1 w)) = None
  /\ stop_uiautodev_server e2 (snd (stop_uiautodev_server e1 w))
     = (None, perform shutdown_call (snd (stop_uiautodev_server e1 w)))
  /\ stdout (snd (stop_uiautodev_server e1 w)) = stdout w.
Proof.
  intros Hret. destruct (stop_clears_child e1 w Hret) as [Hnone _].
  split; [exact Hnone|]. split; [|apply stop_writes_nothing].
  apply stop_without_child. exact Hnone.
Qed.

Lemma stop_is_idempotent_witness :
  server_process (snd (stop_uiautodev_server obedient_child owning)) = None
  /\ stop_uiautodev_server stubborn_child (snd (stop_uiautodev_server obedient_child owning))
     = (None, perform shutdown_call (snd (stop_uiautodev_server obedient_child owning))).
Proof.
  destruct (stop_is_idempotent obedient_child stubborn_child owning eq_refl)
    as (H1 & H2 & _).
  split; [exact H1|exact H2].
Defined.

(** ** Lines that decode to something else than an object *)

Lemma dead_run (es : list (env * line)) (w : world) :
  alive w = false -> run es w = w.
Proof.
  intros Hd. induction es as [|ev es IH]; [reflexivity|].
  change (run (ev :: es) w) with (run es (step ev w)).
  unfold step. rewrite Hd. exact IH.
Qed.

(** X17.  A line that decodes to a value that is no object ends the
    backend: [request.get] raises outside any handler, the interpreter
    runs the exit hook and leaves; no frame is written for the line and
    no later line is read. *)
Theorem non_object_line_ends_backend (e : env) (v : json) (es : list (env * line))
    (w : world) :
  alive w = true ->
  not_object v ->
  step (e, Decoded v) w = exit (atexit_e e) w
  /\ alive (step (e, Decoded v) w) = false
  /\ stdout (step (e, Decoded v) w) = stdout w
  /\ run ((e, Decoded v) :: es) w = step (e, Decoded v) w.
Proof.
  intros Ha Hv.
  assert (Hstep : step (e, Decoded v) w = exit (atexit_e e) w).
  { unfold step. rewrite Ha. cbn [fst snd]. destruct v; try reflexivity. destruct Hv. }
  assert (Hdead : alive (exit (atexit_e e) w) = false).
  { unfold exit, cleanup. destruct (stop_uiautodev_server (atexit_e e) w). reflexivity. }
  split; [exact Hstep|]. rewrite Hstep. split; [exact Hdead|]. split.
  - pose proof (stop_writes_nothing (atexit_e e) w) as Hs.
    unfold exit, cleanup. destruct (stop_uiautodev_server (atexit_e e) w) as [r w1].
    exact Hs.
  - change (run ((e, Decoded v) :: es) w) with (run es (step (e, Decoded v) w)).
    rewrite Hstep. apply dead_run. exact Hdead.
Qed.

Lemma non_object_line_ends_backend_witness :
  alive (step (calm, Decoded (JNum 1)) owning) = false
  /\ run [(calm, Decoded (JNum 1)); (calm, Decoded (JObj restart_request))] owning
     = step (calm, Decoded (JNum 1)) owning.
Proof.
  destruct (non_object_line_ends_backend calm (JNum 1)
              [(calm, Decoded (JObj restart_request))] owning eq_refl I)
    as (_ & H2 & _ & H4).
  split; [exact H2|exact H4].
Defined.

(** ** [restartServer] *)

(** X18.  When the stop returns, a [restartServer] request is answered
    with what the start that follows reports.  The old child handle is
    dropped first; if the port still answers the first probe, the
    Response says success although the backend now owns no child. *)
Theorem restart_reports_the_start (e : env) (req : list (string * json)) (i : json) (w : world) :
  dict_get "method" req = Some (JStr "restartServer") ->
  dict_get "id" req = Some i ->
  is_not_None i = true ->
  fst (stop_uiautodev_server (stop_e e) w) = None ->
  last (stdout (main_iteration e (Decoded (JObj req)) w))
  = Some (JObj [("jsonrpc", JStr "2.0"); ("id", i);
                ("result", JObj [("success", JBool (start_succeeds (start_e e)));
                                 ("url", url_if (start_succeeds (start_e e)))])])
  /\ server_process (main_iteration e (Decoded (JObj req)) w)
     = (if probe_rc (start_e e) =? 0 then None else spawned (start_e e))
  /\ (spawns (trace (main_iteration e (Decoded (JObj req)) w)) <= spawns (trace w) + 1)%nat
  /\ alive (main_iteration e (Decoded (JObj req)) w) = alive w.
Proof.
  intros Hm Hi Hnn Hstop.
  destruct (stop_clears_child (stop_e e) w Hstop) as [Hnone Hal].
  assert (Hsp : spawns (trace (snd (stop_uiautodev_server (stop_e e) w))) = spawns (trace w)).
  { clear. unfold stop_uiautodev_server, terminate_and_wait.
    destruct (server_process w) as [pid|];
      [destruct (terminate_exc (stop_e e)) as [[|t]|], (wait_exc (stop_e e)) as [[|t']|],
                (kill_exc (stop_e e)) as [x|]|];
      cbn [snd];
      repeat first [ rewrite spawns_perform by reflexivity
                   | progress change (trace (set_server_process ?p ?W)) with (trace W) ];
      reflexivity. }
  unfold main_iteration, handle_request. rewrite Hm, Hi. cbn [from_option id].
  change (eq_str (JStr "restartServer") "getServerUrl") with false.
  change (eq_str (JStr "restartServer") "getServerStatus") with false.
  change (eq_str (JStr "restartServer") "restartServer") with true. cbv iota.
  destruct (stop_uiautodev_server (stop_e e) w) as [r w1]. cbn [fst snd] in *. subst r.
  destruct (start_fields (start_e e) (perform Sleep w1)) as (S1 & S2 & _ & S4 & S5).
  destruct (start_uiautodev_server (start_e e) (perform Sleep w1)) as [ok w2].
  cbn [fst snd] in *. subst ok. rewrite Hnn. cbn [dict_get].
  change (("result" =? "result")%string) with true. cbv iota.
  unfold send_response, write_message, stdout. rewrite frames_perform.
  cbn [perform server_process alive trace] in *.
  split; [apply last_snoc|]. rewrite S2, S5, Hnone.
  split; [destruct (probe_rc (start_e e) =? 0); [reflexivity|];
          destruct (spawned (start_e e)); reflexivity|].
  split; [|exact Hal].
  rewrite spawns_app. rewrite spawns_app in S4.
  change (spawns [Sleep]) with 0%nat in S4.
  match goal with |- context [spawns [?x]] => change (spawns [x]) with 0%nat end. lia.
Qed.

Lemma restart_reports_the_start_witness :
  last (stdout (main_iteration calm (Decoded (JObj restart_request)) owning))
  = Some (JObj [("jsonrpc", JStr "2.0"); ("id", JNum 9);
                ("result", JObj [("success", JBool true);
                                 ("url", JStr UIAUTODEV_URL)])])
  /\ server_process (main_iteration calm (Decoded (JObj restart_request)) owning) = None.
Proof.
  destruct (restart_reports_the_start calm restart_request (JNum 9) owning
              eq_refl eq_refl eq_refl eq_refl) as (H1 & H2 & _).
  split; [exact H1|exact H2].
Defined.

(** ** What [main] announces *)

Lemma frames_no_response (tr : list effect) :
  Forall no_response tr -> Forall (fun m => is_response m = false) (frames tr).
Proof.
  induction 1 as [|x tr Hx _ IH]; [constructor|].
  change (x :: tr) with ([x] ++ tr). unfold frames in *. rewrite omap_app.
  destruct x; cbn [omap app]; try exact IH. constructor; [exact Hx|exact IH].
Qed.

(** X27.  Whether or not the service could be started, the backend
    announces itself: after the log events of the start, the [$ready]
    frame with the four methods is written, and then one [serverReady]
    event that tells whether the start succeeded and carries the URL only
    if it did.  At most one child has been started by then. *)
Theorem boot_announces (e : start_env) :
  exists logs,
    stdout (boot e) = logs ++ [ready_frame; server_ready_frame (start_succeeds e)]
    /\ Forall (fun m => is_response m = false) logs
    /\ server_process (boot e) = (if probe_rc e =? 0 then None else spawned e)
    /\ (spawns (trace (boot e)) <= 1)%nat
    /\ alive (boot e) = true.
Proof.
  unfold boot.
  destruct (start_fields e (mkWorld None [] true)) as (S1 & S2 & _ & S4 & S5).
  destruct (start_quiet e (mkWorld None [] true) (mkWorld None [] true)
              (extends_quietly_refl _)) as (tr & Htr & Hq).
  destruct (start_uiautodev_server e (mkWorld None [] true)) as [ok w1].
  cbn [fst snd trace server_process alive app] in *. subst ok.
  exists (frames tr). unfold stdout, emit, send_ready, write_message.
  rewrite !frames_perform, Htr, <- app_assoc. cbn [perform server_process alive trace].
  split; [reflexivity|]. split; [apply frames_no_response, Hq|].
  split; [rewrite S2; destruct (probe_rc e =? 0); [reflexivity|];
          destruct (spawned e); reflexivity|].
  split; [|exact S5].
  rewrite !spawns_app.
  repeat match goal with |- context [spawns [?x]] => change (spawns [x]) with 0%nat end.
  cbn in S4. lia.
Qed.

End ServerExtras.

(** * Properties of the desktop timer *)

Module StandaloneFacts.
Import Standalone.

(** Evaluation of the engine's methods, innermost call first. *)
Ltac ev :=
  cbv beta iota zeta delta
    [deliver_completed pause emit_cycleCompleted _handle_auto_start
     _on_cycle_complete start flag_of emit_tick emit _total_seconds
     count_session enter_mode reset update_config _handle_tick _toggle_start
     config current_mode remaining completed_sessions is_running timer_active
     signals logged tracebacks mode_eqb andb negb].

Ltac fields :=
  unfold emit_tick, emit, _total_seconds in *;
  cbn [config current_mode remaining completed_sessions is_running timer_active
       signals logged tracebacks mode_eqb andb negb] in *.

Ltac proj :=
  cbn [config current_mode remaining completed_sessions is_running timer_active
       signals logged tracebacks] in *.

(** ** The end of a phase *)

(** The state in which [cycleCompleted] has been delivered. *)
Lemma delivered (a : window) :
  config (deliver_completed a) = config a
  /\ current_mode (deliver_completed a) = current_mode a
  /\ remaining (deliver_completed a) = remaining a
  /\ completed_sessions (deliver_completed a) = completed_sessions a
  /\ is_running (deliver_completed a) = flag_of (current_mode a) (config a)
  /\ (timer_active a = is_running a ->
      timer_active (deliver_completed a) = flag_of (current_mode a) (config a))
  /\ signals (deliver_completed a)
     = signals a
       ++ cycleCompleted (current_mode a)
          :: (if flag_of (current_mode a) (config a)
              then [tick (current_mode a) (remaining a)
                      (duration_for_mode (config a) (current_mode a) * 60)]
              else [])
  /\ logged (deliver_completed a)
     = logged a ++ (if mode_eqb (current_mode a) FOCUS then [focus_minutes (config a)] else [])
  /\ tracebacks (deliver_completed a) = tracebacks a.
Proof.
  destruct a as [c m r cs rn act sg lg tb].
  destruct rn, m; ev;
    try destruct (auto_start_focus c); try destruct (auto_start_break c);
    rewrite <- ?app_assoc, ?app_nil_r; repeat split; intros H; congruence.
Qed.

Lemma pause_mode (a : window) : current_mode (pause a) = current_mode a.
Proof. unfold pause. destruct (negb (is_running a)); reflexivity. Qed.

(** [_complete_cycle] when the interval is not zero. *)
Lemma complete_cycle_fields (forced : bool) (a : window) :
  long_break_interval (config a) <> 0 ->
  config (_complete_cycle forced a) = config a
  /\ current_mode (_complete_cycle forced a)
     = fst (successor (current_mode a) forced (completed_sessions a)
              (long_break_interval (config a)))
  /\ completed_sessions (_complete_cycle forced a)
     = snd (successor (current_mode a) forced (completed_sessions a)
              (long_break_interval (config a)))
  /\ remaining (_complete_cycle forced a)
     = duration_for_mode (config a)
         (fst (successor (current_mode a) forced (completed_sessions a)
                 (long_break_interval (config a)))) * 60
  /\ is_running (_complete_cycle forced a) = flag_of (current_mode a) (config a)
  /\ (timer_active a = is_running a ->
      timer_active (_complete_cycle forced a) = is_running (_complete_cycle forced a))
  /\ tracebacks (_complete_cycle forced a) = tracebacks a
  /\ logged (_complete_cycle forced a)
     = logged a ++ (if mode_eqb (current_mode a) FOCUS then [focus_minutes (config a)] else []).
Proof.
  intros Hn. unfold _complete_cycle. rewrite pause_mode.
  destruct (delivered a) as (Hc & Hm & Hr & Hcs & Hrun & Hact & Hsig & Hlog & Htb).
  set (d := deliver_completed a) in *.
  unfold count_session, _next_mode, successor, enter_mode.
  apply Z.eqb_neq in Hn.
  destruct (current_mode a) eqn:Hmode; destruct forced; fields.
  all: rewrite ?Hc, ?Hcs, ?Hn.
  all: repeat match goal with
         | |- context [0 <? ?x] => destruct (0 <? x); fields
         | |- context [?x mod ?y =? 0] => destruct (x mod y =? 0); fields
         end.
  all: rewrite ?Hc, ?Hrun, ?Htb, ?Hlog; cbn [fst snd app];
       repeat split; try reflexivity; try assumption.
Qed.

(** X19.  Whether the next phase starts by itself is decided by the
    phase that has just ended, because the window reads the engine's mode
    while [cycleCompleted] is being delivered, before the engine has
    moved on.  So a break starts by itself when [auto_start_focus] is
    set, and a focus phase when [auto_start_break] is set: each switch
    governs the other kind of phase. *)
Theorem auto_start_follows_finished_mode (forced : bool) (a : window) :
  long_break_interval (config a) <> 0 ->
  timer_active a = is_running a ->
  is_running (_complete_cycle forced a) = flag_of (current_mode a) (config a)
  /\ timer_active (_complete_cycle forced a) = flag_of (current_mode a) (config a)
  /\ is_running (_complete_cycle forced a)
     = (if mode_eqb (current_mode (_complete_cycle forced a)) FOCUS
        then auto_start_break (config a)
        else auto_start_focus (config a)).
Proof.
  intros Hn Ht.
  destruct (complete_cycle_fields forced a Hn) as (_ & Hm & _ & _ & Hrun & Hact & _).
  split; [exact Hrun|]. split; [rewrite (Hact Ht); exact Hrun|].
  rewrite Hrun, Hm. unfold successor, flag_of.
  destruct (current_mode a); try reflexivity.
  destruct (_ && _); reflexivity.
Qed.

Lemma auto_start_follows_finished_mode_witness :
  is_running (_complete_cycle false three_seconds_left) = false
  /\ current_mode (_complete_cycle false three_seconds_left) = SHORT_BREAK
  /\ auto_start_break (config three_seconds_left) = true.
Proof.
  assert (Hn : long_break_interval (config three_seconds_left) <> 0) by discriminate.
  destruct (auto_start_follows_finished_mode false three_seconds_left Hn eq_refl)
    as (H1 & _ & _).
  split; [exact H1|]. split; reflexivity.
Defined.

(** ** Bounds kept by every event *)

Lemma in_range_total (c : PomodoroConfig) (m : PomodoroMode) :
  in_range c -> 180 <= duration_for_mode c m * 60.
Proof. intros (H1 & H2 & H3 & H4). destruct m; cbn; lia. Qed.

Lemma bounded_complete (forced : bool) (a : window) :
  in_range (config a) -> timer_active a = is_running a -> tracebacks a = 0%nat ->
  0 <= completed_sessions a ->
  bounded (_complete_cycle forced a).
Proof.
  intros Hr Ht Htb Hcs.
  assert (Hn : long_break_interval (config a) <> 0) by (destruct Hr as (_ & _ & _ & ?); lia).
  destruct (complete_cycle_fields forced a Hn)
    as (Hc & Hm & Hs & Hrem & Hrun & Hact & Htb' & _).
  constructor.
  - rewrite Hc. exact Hr.
  - unfold _total_seconds. rewrite Hrem, Hc, Hm.
    pose proof (in_range_total (config a)
                  (fst (successor (current_mode a) forced (completed_sessions a)
                          (long_break_interval (config a)))) Hr). lia.
  - apply Hact, Ht.
  - congruence.
  - rewrite Hs. unfold successor.
    destruct (current_mode a); cbn [snd]; try assumption.
    destruct forced; destruct (_ && _); cbn [snd]; lia.
Qed.

Lemma bounded_step (ev : event) (a : window) :
  bounded a ->
  match ev with SaveSettings c => in_range c | _ => True end ->
  bounded (step ev a).
Proof.
  intros Hb Hev. pose proof Hb as [Hr Hrem Ht Htb Hcs].
  destruct ev as [| | | |c']; cbn [step].
  - destruct a as [c m r cs rn act sg lg tb]. proj.
    destruct rn; ev; constructor; proj; try assumption; reflexivity.
  - pose proof (in_range_total (config a) (current_mode a) Hr) as Htot.
    destruct a as [c m r cs rn act sg lg tb]. proj. unfold _total_seconds in *. proj.
    destruct rn; ev; constructor; proj; unfold _total_seconds; proj;
      try assumption; try reflexivity; lia.
  - apply bounded_complete; assumption.
  - destruct (timer_active a) eqn:Hact; [|exact Hb].
    unfold _handle_tick. cbn [remaining].
    destruct (remaining a - 1 <=? 0) eqn:Hle.
    + apply bounded_complete; cbn [config is_running timer_active tracebacks
                                  completed_sessions]; try assumption. congruence.
    + apply Z.leb_gt in Hle. unfold _total_seconds in *.
      destruct a as [c m r cs rn act sg lg tb]. proj.
      ev. constructor; proj; unfold _total_seconds; proj; try assumption;
        [lia|congruence].
  - pose proof (in_range_total c' (current_mode a) Hev) as Htot.
    unfold _total_seconds in *.
    destruct a as [c m r cs rn act sg lg tb]. proj.
    ev. constructor; proj; unfold _total_seconds; proj; try assumption. lia.
Qed.

(** X20.  With settings inside the ranges of the spin boxes, whatever
    the user clicks and whenever the timer fires, the time shown stays
    positive and never exceeds the length of the current phase, also
    after shorter durations have been saved; the [QTimer] runs exactly
    when the engine says it is running; and no callback raises. *)
Theorem countdown_stays_within_phase (c : PomodoroConfig) (evs : list event) :
  in_range c ->
  settings_in_range evs ->
  0 < remaining (run evs (init c))
      <= _total_seconds (run evs (init c)) (current_mode (run evs (init c)))
  /\ timer_active (run evs (init c)) = is_running (run evs (init c))
  /\ tracebacks (run evs (init c)) = 0%nat
  /\ in_range (config (run evs (init c))).
Proof.
  intros Hc Hevs.
  assert (G : forall a, bounded a -> bounded (run evs a)).
  { induction Hevs as [|ev evs Hev _ IH]; intros a Ha; [exact Ha|].
    change (run (ev :: evs) a) with (run evs (step ev a)).
    apply IH, bounded_step; assumption. }
  destruct (G (init c)) as [H1 H2 H3 H4 H5].
  { pose proof (in_range_total c FOCUS Hc) as Htot.
    unfold init. constructor; proj; unfold _total_seconds; proj;
      cbn [duration_for_mode] in *; try assumption; try reflexivity; lia. }
  split; [exact H2|]. split; [exact H3|]. split; [exact H4|exact H1].
Qed.

Lemma countdown_stays_within_phase_witness :
  0 < remaining (run [ClickStart; Timeout; ClickSkip; SaveSettings short_settings]
                   (init default_config))
      <= _total_seconds (run [ClickStart; Timeout; ClickSkip; SaveSettings short_settings]
                           (init default_config))
           (current_mode (run [ClickStart; Timeout; ClickSkip; SaveSettings short_settings]
                            (init default_config))).
Proof.
  assert (Hc : in_range default_config) by (unfold in_range; cbn; lia).
  assert (Hs : in_range short_settings) by (unfold in_range; cbn; lia).
  assert (He : settings_in_range [ClickStart; Timeout; ClickSkip; SaveSettings short_settings])
    by (repeat (apply Forall_cons_2; [first [exact I | exact Hs]|]); apply Forall_nil_2).
  exact (proj1 (countdown_stays_within_phase default_config
                  [ClickStart; Timeout; ClickSkip; SaveSettings short_settings] Hc He)).
Defined.

(** ** The cadence of long breaks *)

Lemma successor_steady (mode : PomodoroMode) (forced : bool) (cs n : Z) :
  0 <= cs < n ->
  successor mode forced cs n
  = match mode with
    | FOCUS =>
        if forced then (SHORT_BREAK, cs)
        else if cs + 1 =? n then (LONG_BREAK, 0) else (SHORT_BREAK, cs + 1)
    | _ => (FOCUS, cs)
    end.
Proof.
  intros Hcs. unfold successor. destruct mode; try reflexivity. destruct forced.
  - destruct (0 <? cs) eqn:H0; cbn [andb]; [|reflexivity].
    apply Z.ltb_lt in H0. rewrite Z.mod_small by lia.
    destruct (cs =? 0) eqn:E; [apply Z.eqb_eq in E; lia|reflexivity].
  - replace (0 <? cs + 1) with true by (symmetry; apply Z.ltb_lt; lia). cbn [andb].
    destruct (cs + 1 =? n) eqn:E.
    + apply Z.eqb_eq in E. rewrite E, Z.mod_same by lia. reflexivity.
    + apply Z.eqb_neq in E. rewrite Z.mod_small by lia.
      destruct (cs + 1 =? 0) eqn:E0; [apply Z.eqb_eq in E0; lia|reflexivity].
Qed.

Lemma steady_complete (c : PomodoroConfig) (forced : bool) (a : window) :
  steady c a -> steady c (_complete_cycle forced a).
Proof.
  intros [Hc Hcs]. subst c.
  assert (Hn : long_break_interval (config a) <> 0) by lia.
  destruct (complete_cycle_fields forced a Hn) as (Hc' & _ & Hs & _).
  constructor; [exact Hc'|]. rewrite Hs, successor_steady by assumption.
  destruct (current_mode a); cbn [snd]; try assumption.
  destruct forced; cbn [snd]; [assumption|].
  destruct (_ =? _) eqn:E; cbn [snd]; [lia|]. apply Z.eqb_neq in E. lia.
Qed.

Lemma steady_step (c : PomodoroConfig) (ev : event) (a : window) :
  steady c a ->
  match ev with SaveSettings _ => False | _ => True end ->
  steady c (step ev a).
Proof.
  intros Hs Hev. pose proof Hs as [Hc Hcs].
  destruct ev as [| | | |c']; cbn [step]; [| | | |destruct Hev].
  - destruct a as [c0 m r cs rn act sg lg tb]. proj.
    destruct rn; ev; constructor; proj; assumption.
  - destruct a as [c0 m r cs rn act sg lg tb]. proj.
    destruct rn; ev; constructor; proj; assumption.
  - apply steady_complete; assumption.
  - destruct (timer_active a); [|assumption].
    unfold _handle_tick. cbn [remaining].
    destruct (remaining a - 1 <=? 0).
    + apply steady_complete. constructor; proj; assumption.
    + destruct a as [c0 m r cs rn act sg lg tb]. proj. ev. constructor; proj; assumption.
Qed.

Lemma steady_run (c : PomodoroConfig) (evs : list event) :
  0 < long_break_interval c ->
  no_settings evs ->
  steady c (run evs (init c)).
Proof.
  intros Hn Hevs.
  assert (G : forall a0, steady c a0 -> steady c (run evs a0)).
  { induction Hevs as [|ev evs Hev _ IH]; intros a0 Ha; [exact Ha|].
    change (run (ev :: evs) a0) with (run evs (step ev a0)).
    apply IH, steady_step; assumption. }
  apply G. constructor; cbn; [reflexivity|lia].
Qed.

(** X21.  While the settings are not changed, the count of focus phases
    since the last long break stays below the interval, whatever is
    clicked; a focus phase that runs to its end raises the count by one,
    and exactly the one that brings it to the interval is followed by the
    long break and sets the count back to zero. *)
Theorem long_break_every_nth_focus (c : PomodoroConfig) (evs : list event) :
  0 < long_break_interval c ->
  no_settings evs ->
  current_mode (run evs (init c)) = FOCUS ->
  0 <= completed_sessions (run evs (init c)) < long_break_interval c
  /\ current_mode (_complete_cycle false (run evs (init c)))
     = (if completed_sessions (run evs (init c)) + 1 =? long_break_interval c
        then LONG_BREAK else SHORT_BREAK)
  /\ completed_sessions (_complete_cycle false (run evs (init c)))
     = (completed_sessions (run evs (init c)) + 1) mod long_break_interval c.
Proof.
  intros Hn Hevs Hm. destruct (steady_run c evs Hn Hevs) as [Hc Hcs].
  set (a := run evs (init c)) in *. split; [exact Hcs|].
  assert (Hn' : long_break_interval (config a) <> 0) by (rewrite Hc; lia).
  destruct (complete_cycle_fields false a Hn') as (_ & F1 & F2 & _).
  rewrite F1, F2, Hc, Hm, successor_steady by assumption.
  destruct (completed_sessions a + 1 =? long_break_interval c) eqn:E; cbn [fst snd].
  - apply Z.eqb_eq in E. rewrite E, Z.mod_same by lia. split; reflexivity.
  - apply Z.eqb_neq in E. rewrite Z.mod_small by lia. split; reflexivity.
Qed.

Lemma long_break_every_nth_focus_witness :
  current_mode (_complete_cycle false (run [ClickStart; Timeout] (init default_config)))
  = SHORT_BREAK
  /\ completed_sessions
       (_complete_cycle false (run [ClickStart; Timeout] (init default_config)))
     = (0 + 1) mod 4.
Proof.
  assert (Hn : 0 < long_break_interval default_config) by (cbn; lia).
  assert (He : no_settings [ClickStart; Timeout]) by (repeat constructor).
  destruct (long_break_every_nth_focus default_config [ClickStart; Timeout] Hn He eq_refl)
    as (_ & H1 & H2).
  split; [exact H1|exact H2].
Defined.



(** ** A phase that runs to its end *)

Lemma ticks_down (k : nat) (a : window) :
  timer_active a = true ->
  Z.of_nat k < remaining a ->
  config (run (repeat Timeout k) a) = config a
  /\ current_mode (run (repeat Timeout k) a) = current_mode a
  /\ remaining (run (repeat Timeout k) a) = remaining a - Z.of_nat k
  /\ completed_sessions (run (repeat Timeout k) a) = completed_sessions a
  /\ is_running (run (repeat Timeout k) a) = is_running a
  /\ timer_active (run (repeat Timeout k) a) = true
  /\ logged (run (repeat Timeout k) a) = logged a
  /\ tracebacks (run (repeat Timeout k) a) = tracebacks a.
Proof.
  revert a. induction k as [|k IH]; intros a Ht Hk.
  - cbn. rewrite Z.sub_0_r. repeat split; try reflexivity. exact Ht.
  - change (run (repeat Timeout (S k)) a) with (run (repeat Timeout k) (step Timeout a)).
    assert (Hs : step Timeout a
                 = emit_tick (mkWindow (config a) (current_mode a) (remaining a - 1)
                                (completed_sessions a) (is_running a) true
                                (signals a) (logged a) (tracebacks a))).
    { cbn [step]. rewrite Ht. unfold _handle_tick. cbn [remaining].
      destruct (remaining a - 1 <=? 0) eqn:Hle; [apply Z.leb_le in Hle; lia|].
      rewrite Ht. reflexivity. }
    rewrite Hs.
    match goal with
    | |- context [run _ ?B] =>
        destruct (IH B) as (H1 & H2 & H3 & H4 & H5 & H6 & H7 & H8)
    end.
    + reflexivity.
    + cbn. lia.
    + rewrite H1, H2, H3, H4, H5, H6, H7, H8. cbn.
      repeat split; try reflexivity. lia.
Qed.

(** X23.  A running phase with [k + 1] seconds left ends at the
    [k + 1]-th timeout and not before: after [k] timeouts the mode is the
    same, one second is left and nothing has been logged; the next timeout
    moves to the following phase at its full length, logs the phase if
    it was a focus phase, and leaves the timer running or not as the
    flag of the finished phase says. *)
Theorem phase_runs_out (k : nat) (a : window) :
  timer_active a = true ->
  is_running a = true ->
  long_break_interval (config a) <> 0 ->
  remaining a = Z.of_nat (S k) ->
  current_mode (run (repeat Timeout k) a) = current_mode a
  /\ remaining (run (repeat Timeout k) a) = 1
  /\ logged (run (repeat Timeout k) a) = logged a
  /\ current_mode (run (repeat Timeout (S k)) a)
     = fst (successor (current_mode a) false (completed_sessions a)
              (long_break_interval (config a)))
  /\ completed_sessions (run (repeat Timeout (S k)) a)
     = snd (successor (current_mode a) false (completed_sessions a)
              (long_break_interval (config a)))
  /\ remaining (run (repeat Timeout (S k)) a)
     = _total_seconds a (current_mode (run (repeat Timeout (S k)) a))
  /\ logged (run (repeat Timeout (S k)) a)
     = logged a ++ (if mode_eqb (current_mode a) FOCUS then [focus_minutes (config a)] else [])
  /\ is_running (run (repeat Timeout (S k)) a) = flag_of (current_mode a) (config a)
  /\ timer_active (run (repeat Timeout (S k)) a) = flag_of (current_mode a) (config a).
Proof.
  intros Ht Hr Hn Hrem.
  destruct (ticks_down k a Ht) as (H1 & H2 & H3 & H4 & H5 & H6 & H7 & H8); [lia|].
  split; [exact H2|]. split; [lia|]. split; [exact H7|].
  assert (E : run (repeat Timeout (S k)) a = step Timeout (run (repeat Timeout k) a)).
  { replace (S k) with (k + 1)%nat by lia. rewrite repeat_app.
    unfold run. rewrite foldl_app. reflexivity. }
  rewrite E. set (b := run (repeat Timeout k) a) in *.
  cbn [step]. rewrite H6. unfold _handle_tick. cbn [remaining].
  replace (remaining b - 1 <=? 0) with true by (symmetry; apply Z.leb_le; lia).
  match goal with |- context [_complete_cycle false ?B] => set (b1 := B) end.
  assert (Hn1 : long_break_interval (config b1) <> 0) by (subst b1; cbn; congruence).
  destruct (complete_cycle_fields false b1 Hn1) as (C1 & C2 & C3 & C4 & C5 & C6 & _ & C8).
  subst b1. cbn [config current_mode completed_sessions is_running timer_active logged] in *.
  rewrite H1, H2, H4, H7 in *.
  split; [exact C2|]. split; [exact C3|].
  split; [rewrite C4, C2; reflexivity|]. split; [exact C8|]. split; [exact C5|].
  rewrite C6, C5; [reflexivity|congruence].
Qed.

Lemma phase_runs_out_witness :
  remaining (run (repeat Timeout 2) three_seconds_left) = 1
  /\ current_mode (run (repeat Timeout 3) three_seconds_left)
     = fst (successor FOCUS false 0 4)
  /\ logged (run (repeat Timeout 3) three_seconds_left) = [] ++ [25].
Proof.
  assert (Hn : long_break_interval (config three_seconds_left) <> 0) by discriminate.
  destruct (phase_runs_out 2 three_seconds_left eq_refl eq_refl Hn eq_refl)
    as (_ & H2 & _ & H4 & _ & _ & H7 & _).
  split; [exact H2|]. split; [exact H4|exact H7].
Defined.

(** ** The statistics store *)

Lemma today_stats_log_focus (d t m : Z) (s : stored) :
  today_stats d (log_focus t m s)
  = if decide (t = d) then bump m (today_stats d s) else today_stats d s.
Proof.
  unfold today_stats, log_focus, _save, bump. cbn [_load].
  destruct (decide (t = d)) as [->|Hne].
  - rewrite lookup_insert_eq. reflexivity.
  - rewrite lookup_insert_ne by exact Hne. reflexivity.
Qed.


(** X25.  The weekly report lists the seven days that end today, oldest
    first.  A [log_focus] changes the row of its day, by one pomodoro and
    the minutes logged, and no other row; a call on a day outside the
    week leaves the report as it was. *)
Theorem weekly_report_after_log (today d m : Z) (s : stored) :
  weekly_report today (log_focus d m s)
  = map (fun r => if decide (fst r = d) then (fst r, bump m (snd r)) else r)
        (weekly_report today s)
  /\ map fst (weekly_report today s)
     = [today - 6; today - 5; today - 4; today - 3; today - 2; today - 1; today - 0].
Proof.
  split; [|reflexivity].
  unfold weekly_report. rewrite map_map. apply map_ext. intros delta. cbn [fst snd].
  pose proof (today_stats_log_focus (today - delta) d m s) as H.
  unfold today_stats in H. rewrite H.
  destruct (decide (d = today - delta)) as [->|Hne].
  - rewrite decide_True by reflexivity. reflexivity.
  - rewrite decide_False by congruence. reflexivity.
Qed.

End StandaloneFacts.
